(** * monitor_stock.py: scheduling, classification, notification and state

    A shallow embedding of [monitor_stock.py] and the proofs of the
    properties its specification states.  The functions of the script keep
    their names.  Of the Python standard library, [datetime] and the string
    operations that the proofs reason about are modelled in full; the
    functions whose result the script only passes on ([str.lower],
    [str.strip], [json.load], [json.dumps], the building of an
    [EmailMessage], ...) are the fields of the class [PyLib], the constants
    read from the environment those of [Settings], and the answers of the
    network those of [Network].  The theorems hold for every instance;
    [Ascii_lib] and [Example] give instances on which the script runs. *)

From Stdlib Require Import ZArith String Ascii List Lia Bool.
From stdpp Require Import base option gmap strings list.

Set Warnings "-register-all".
Local Open Scope Z_scope.

(** ** Python values

    The values that [json.load] produces and that the script stores in its
    state: [None], booleans, integers, strings, lists and dictionaries with
    string keys.  JSON numbers with a fraction (Python floats) are not
    modelled: the script never writes one. *)

Inductive pyval :=
| PNone
| PBool (b : bool)
| PInt (n : Z)
| PStr (s : string)
| PList (l : list pyval)
| PDict (d : gmap string pyval).

(** [d.get(k)]: the value stored under [k], [None] when the key is absent. *)
Definition dict_get (d : gmap string pyval) (k : string) : pyval :=
  default PNone (d !! k).

(** [d.get(k, dflt)]. *)
Definition dict_get_default (d : gmap string pyval) (k : string) (dflt : pyval) : pyval :=
  default dflt (d !! k).

(** Truth value of a Python object, as [bool(v)], [if v:] and [not v] use it. *)
Definition truthy (v : pyval) : bool :=
  match v with
  | PNone => false
  | PBool b => b
  | PInt n => negb (n =? 0)
  | PStr s => negb (String.eqb s "")
  | PList l => match l with [] => false | _ => true end
  | PDict d => negb (bool_decide (d = ∅))
  end.

(** [v != s] for a string [s]: only an equal string compares equal. *)
Definition py_ne_str (v : pyval) (s : string) : bool :=
  match v with
  | PStr s' => negb (String.eqb s' s)
  | _ => true
  end.

(** ** Exceptions

    An exception is its class name and its message ([str(exc)]).  Every
    exception of the model is a subclass of [Exception]. *)

Record exn := Exn { exn_class : string; exn_msg : string }.

Inductive result (A : Type) :=
| Ok (a : A)
| Raise (e : exn).
Arguments Ok {A} a.
Arguments Raise {A} e.

Definition ValueError (msg : string) : exn := Exn "ValueError" msg.
Definition TypeError (msg : string) : exn := Exn "TypeError" msg.
Definition AttributeError (msg : string) : exn := Exn "AttributeError" msg.
Definition FileNotFoundError (msg : string) : exn := Exn "FileNotFoundError" msg.

(** ** Decimal digits and [%0wd] *)

Definition digit_char (d : Z) : ascii := ascii_of_nat (48 + Z.to_nat d).

Definition digit_val (c : ascii) : option Z :=
  let n := Z.of_nat (nat_of_ascii c) in
  if (48 <=? n) && (n <=? 57) then Some (n - 48) else None.

(** The [w] least significant decimal digits of [n], in front of [acc]. *)
Fixpoint low_digits (w : nat) (n : Z) (acc : string) : string :=
  match w with
  | O => acc
  | S w' => low_digits w' (n / 10) (String (digit_char (n mod 10)) acc)
  end.

(** Number of decimal digits of [n >= 0] (at least one). *)
Definition num_digits (n : Z) : nat :=
  if n <? 10 then 1%nat else S (Z.to_nat (Z.log2 n) / 3)%nat.

(** The digits of [n >= 0] without leading zeros other than for [0]. *)
Fixpoint strip_zeros (s : string) : string :=
  match s with
  | String c s' =>
      if Ascii.eqb c "0"
      then match s' with EmptyString => s | _ => strip_zeros s' end
      else s
  | EmptyString => s
  end.

Definition decimal (n : Z) : string :=
  strip_zeros (low_digits (S (num_digits n)) n "").

(** [str(n)] for an integer. *)
Definition str_of_int (n : Z) : string :=
  if n <? 0 then String "-" (decimal (- n)) else decimal n.

(** ["%0wd" % n] for [n >= 0]: at least [w] digits, padded with zeros. *)
Definition format_d (w : nat) (n : Z) : string :=
  if n <? 10 ^ Z.of_nat w then low_digits w n "" else decimal n.

(** Exactly [w] decimal digits at the head of [s]; the number they spell
    after [acc], and the rest of [s]. *)
Fixpoint parse_digits (w : nat) (acc : Z) (s : string) : option (Z * string) :=
  match w with
  | O => Some (acc, s)
  | S w' =>
      match s with
      | String c s' =>
          match digit_val c with
          | Some d => parse_digits w' (acc * 10 + d) s'
          | None => None
          end
      | EmptyString => None
      end
  end.

(** ** Floats

    A float of Python is a binary64 number.  The script has one float, the
    result of [total_seconds()], and compares it with an integer.  A float
    is modelled by its value [mantissa * 2 ^ exponent]; the numbers that
    occur are far from the ends of the exponent range. *)

Record pyfloat := mkfloat { mantissa : Z; exponent : Z }.

(** The integer nearest to [p / q] for [0 <= p] and [0 < q], the even one
    of the two when [p / q] is half-way between them. *)
Definition round_half_even (p q : Z) : Z :=
  let fl := p / q in
  let r := p mod q in
  if 2 * r <? q then fl
  else if q <? 2 * r then fl + 1
  else if Z.even fl then fl else fl + 1.

(** [a / d / 2 ^ e] as a fraction of two integers. *)
Definition scaled (a d e : Z) : Z * Z :=
  if 0 <=? e then (a, d * 2 ^ e) else (a * 2 ^ (- e), d).

(** The float nearest to [a / d] for [0 < a] and [0 < d]: the exponent is
    the one for which the quotient has 53 bits, and the mantissa is the
    quotient rounded to the nearest integer, ties to even. *)
Definition round_ratio (a d : Z) : pyfloat :=
  let e1 := Z.log2 a - Z.log2 d - 53 in
  let '(p1, q1) := scaled a d e1 in
  let e := if 2 ^ 53 * q1 <=? p1 then e1 + 1 else e1 in
  let '(p, q) := scaled a d e in
  mkfloat (round_half_even p q) e.

(** [n / d] on two integers with [0 < d]: the quotient, correctly
    rounded. *)
Definition true_divide (n d : Z) : pyfloat :=
  if n =? 0 then mkfloat 0 0
  else if 0 <? n then round_ratio n d
  else let f := round_ratio (- n) d in mkfloat (- mantissa f) (exponent f).

(** [f >= k] for a float and an integer: Python compares the two values
    exactly. *)
Definition float_ge_int (f : pyfloat) (k : Z) : bool :=
  if 0 <=? exponent f then k <=? mantissa f * 2 ^ exponent f
  else k * 2 ^ (- exponent f) <=? mantissa f.

(** ** [datetime]

    A model of the class [datetime.datetime] of the standard library, as far
    as the script uses it: the fields, [date()] and its comparison,
    subtraction and [total_seconds()], [isoformat(timespec="seconds")] and
    [fromisoformat].  A datetime is naive ([utcoffset = None], what
    [datetime.now()] returns) or aware (an offset from UTC, in
    microseconds). *)

Module datetime.

Record datetime := mk {
  year : Z;
  month : Z;
  day : Z;
  hour : Z;
  minute : Z;
  second : Z;
  microsecond : Z;
  utcoffset : option Z
}.

Definition is_leap (y : Z) : bool :=
  (y mod 4 =? 0) && (negb (y mod 100 =? 0) || (y mod 400 =? 0)).

Definition days_in_month (y m : Z) : Z :=
  if (m =? 2) && is_leap y then 29
  else nth (Z.to_nat m) [0; 31; 28; 31; 30; 31; 30; 31; 31; 30; 31; 30; 31] 0.

Definition days_before_year (y : Z) : Z :=
  let y := y - 1 in y * 365 + y / 4 - y / 100 + y / 400.

Definition days_before_month (y m : Z) : Z :=
  nth (Z.to_nat m) [0; 0; 31; 59; 90; 120; 151; 181; 212; 243; 273; 304; 334] 0
  + (if (2 <? m) && is_leap y then 1 else 0).

(** The number of days of the year [y]. *)
Definition year_length (y : Z) : Z := if is_leap y then 366 else 365.

(** [toordinal()]: the day number, 1 for 0001-01-01. *)
Definition toordinal (d : datetime) : Z :=
  days_before_year (year d) + days_before_month (year d) (month d) + day d.

Definition day_microseconds : Z := 86400000000.

(** An offset that [timezone] accepts: strictly between -24h and +24h. *)
Definition valid_offset (off : option Z) : bool :=
  match off with
  | None => true
  | Some o => (- day_microseconds <? o) && (o <? day_microseconds)
  end.

(** The field ranges that the constructor of [datetime] enforces. *)
Definition valid (d : datetime) : bool :=
  (1 <=? year d) && (year d <=? 9999)
  && (1 <=? month d) && (month d <=? 12)
  && (1 <=? day d) && (day d <=? days_in_month (year d) (month d))
  && (0 <=? hour d) && (hour d <=? 23)
  && (0 <=? minute d) && (minute d <=? 59)
  && (0 <=? second d) && (second d <=? 59)
  && (0 <=? microsecond d) && (microsecond d <=? 999999)
  && valid_offset (utcoffset d).

(** [d.date()], as the triple that dates are compared by. *)
Definition date (d : datetime) : Z * Z * Z := (year d, month d, day d).

(** [a < b] on dates: the order of the triples (year, month, day). *)
Definition date_ltb (a b : Z * Z * Z) : bool :=
  let '(y1, m1, d1) := a in
  let '(y2, m2, d2) := b in
  (y1 <? y2) || ((y1 =? y2) && ((m1 <? m2) || ((m1 =? m2) && (d1 <? d2)))).

(** Microseconds since midnight, on the wall clock of [d]. *)
Definition time_microseconds (d : datetime) : Z :=
  (hour d * 3600 + minute d * 60 + second d) * 1000000 + microsecond d.

(** [a - b], the timedelta in microseconds.  Two naive datetimes are
    subtracted field by field, two aware ones after taking their offsets to
    UTC, and a naive one and an aware one cannot be subtracted. *)
Definition sub (a b : datetime) : result Z :=
  let base :=
    (toordinal a - toordinal b) * day_microseconds
    + (time_microseconds a - time_microseconds b) in
  match utcoffset a, utcoffset b with
  | None, None => Ok base
  | Some oa, Some ob => Ok (base + ob - oa)
  | _, _ => Raise (TypeError "can't subtract offset-naive and offset-aware datetimes")
  end.

(** [delta.total_seconds()] for a timedelta of [microseconds]: the
    microseconds divided by [10 ** 6], a float. *)
Definition total_seconds (microseconds : Z) : pyfloat :=
  true_divide microseconds 1000000.

(** The suffix that [isoformat] prints for the offset of an aware datetime. *)
Definition format_offset (off : option Z) : string :=
  match off with
  | None => EmptyString
  | Some o =>
      let sign := if o <? 0 then "-" else "+" in
      let a := Z.abs o in
      let hh := a / 3600000000 in
      let below_hour := a mod 3600000000 in
      let mm := below_hour / 60000000 in
      let below_minute := below_hour mod 60000000 in
      let ss := below_minute / 1000000 in
      let us := below_minute mod 1000000 in
      sign +:+ format_d 2 hh +:+ ":" +:+ format_d 2 mm
      +:+ (if below_minute =? 0 then EmptyString
           else ":" +:+ format_d 2 ss
                +:+ (if us =? 0 then EmptyString else "." +:+ format_d 6 us))
  end.

(** [d.isoformat(timespec="seconds")]: the microseconds are left out. *)
Definition isoformat_seconds (d : datetime) : string :=
  format_d 4 (year d) +:+ "-" +:+ format_d 2 (month d) +:+ "-"
  +:+ format_d 2 (day d) +:+ "T"
  +:+ format_d 2 (hour d) +:+ ":" +:+ format_d 2 (minute d) +:+ ":"
  +:+ format_d 2 (second d) +:+ format_offset (utcoffset d).

(** [datetime.now()]: the reading [clock] of the local clock, as a naive
    datetime. *)
Definition now (clock : datetime) : datetime :=
  mk (year clock) (month clock) (day clock) (hour clock) (minute clock) (second clock)
     (microsecond clock) None.

(** [d.replace(microsecond=0)]. *)
Definition truncate_seconds (d : datetime) : datetime :=
  mk (year d) (month d) (day d) (hour d) (minute d) (second d) 0 (utcoffset d).

(** *** [fromisoformat]

    The strings of the form
    [YYYY-MM-DD[*HH[:MM[:SS[.fff[fff]]]][+HH:MM[:SS[.ffffff]]]]] that the
    documentation of Python 3.10 gives, every field made of decimal digits;
    [None] stands for the [ValueError] of any other string.  Later versions
    of Python accept further ISO 8601 forms, for which the model answers
    [None]; the proofs below only use the model on the output of
    [isoformat] and on strings given in full. *)

Definition is_sign (c : ascii) : bool := Ascii.eqb c "+" || Ascii.eqb c "-".

Fixpoint has_sign (s : string) : bool :=
  match s with
  | EmptyString => false
  | String c s' => is_sign c || has_sign s'
  end.

(** The text before the first sign, and the sign with what follows it. *)
Fixpoint split_at_sign (s : string) : string * option (ascii * string) :=
  match s with
  | EmptyString => (EmptyString, None)
  | String c s' =>
      if is_sign c then (EmptyString, Some (c, s'))
      else let '(a, b) := split_at_sign s' in (String c a, b)
  end.

Definition parse_fraction (s : string) : option Z :=
  if (String.length s =? 3)%nat then
    match parse_digits 3 0 s with
    | Some (f, _) => Some (f * 1000)
    | None => None
    end
  else if (String.length s =? 6)%nat then
    match parse_digits 6 0 s with
    | Some (f, _) => Some f
    | None => None
    end
  else None.

(** [HH[:MM[:SS[.fff[fff]]]]] *)
Definition parse_hh_mm_ss_ff (tstr : string) : option (Z * Z * Z * Z) :=
  match parse_digits 2 0 tstr with
  | None => None
  | Some (hh, EmptyString) => Some (hh, 0, 0, 0)
  | Some (hh, String c r1) =>
      if negb (Ascii.eqb c ":") then None else
      match parse_digits 2 0 r1 with
      | None => None
      | Some (mm, EmptyString) => Some (hh, mm, 0, 0)
      | Some (mm, String c r2) =>
          if negb (Ascii.eqb c ":") then None else
          match parse_digits 2 0 r2 with
          | None => None
          | Some (ss, EmptyString) => Some (hh, mm, ss, 0)
          | Some (ss, String c r3) =>
              if negb (Ascii.eqb c ".") then None else
              match parse_fraction r3 with
              | Some us => Some (hh, mm, ss, us)
              | None => None
              end
          end
      end
  end.

(** The time of day and the offset: [HH[:MM[:SS[.fff[fff]]]][+HH:MM[:SS[.ffffff]]]] *)
Definition parse_isoformat_time (tstr : string) : option (Z * Z * Z * Z * option Z) :=
  let '(timestr, tz) := split_at_sign tstr in
  match parse_hh_mm_ss_ff timestr with
  | None => None
  | Some (hh, mm, ss, us) =>
      match tz with
      | None => Some (hh, mm, ss, us, None)
      | Some (sign, tzstr) =>
          let n := String.length tzstr in
          if negb ((n =? 5) || (n =? 8) || (n =? 15))%nat then None else
          match parse_hh_mm_ss_ff tzstr with
          | None => None
          | Some (th, tm, ts, tus) =>
              let off := (th * 3600 + tm * 60 + ts) * 1000000 + tus in
              Some (hh, mm, ss, us, Some (if Ascii.eqb sign "-" then - off else off))
          end
      end
  end.

(** [YYYY-MM-DD] at the head of the string. *)
Definition parse_isoformat_date (s : string) : option (Z * Z * Z * string) :=
  match parse_digits 4 0 s with
  | Some (y, String c1 r1) =>
      if negb (Ascii.eqb c1 "-") then None else
      match parse_digits 2 0 r1 with
      | Some (m, String c2 r2) =>
          if negb (Ascii.eqb c2 "-") then None else
          match parse_digits 2 0 r2 with
          | Some (d, rest) => Some (y, m, d, rest)
          | None => None
          end
      | _ => None
      end
  | _ => None
  end.

Definition fromisoformat (date_string : string) : option datetime :=
  match parse_isoformat_date date_string with
  | None => None
  | Some (y, m, d, rest) =>
      let components :=
        match rest with
        | EmptyString => Some (0, 0, 0, 0, None)
        | String _ tstr => parse_isoformat_time tstr
        end in
      match components with
      | None => None
      | Some (hh, mm, ss, us, off) =>
          let dt := mk y m d hh mm ss us off in
          if valid dt then Some dt else None
      end
  end.

End datetime.

(** ** Strings *)

(** A one-character string from a character code. *)
Definition chr (n : nat) : string := String (ascii_of_nat n) EmptyString.

Definition newline : string := chr 10.

(** [s.startswith(p)] *)
Fixpoint starts_with (p s : string) : bool :=
  match p, s with
  | EmptyString, _ => true
  | String a p', String b s' => Ascii.eqb a b && starts_with p' s'
  | String _ _, EmptyString => false
  end.

(** [needle in hay]: [needle] starts at some position of [hay]. *)
Fixpoint str_contains (needle hay : string) : bool :=
  starts_with needle hay
  || match hay with
     | EmptyString => false
     | String _ hay' => str_contains needle hay'
     end.

(** [sep.join(l)] *)
Fixpoint str_join (sep : string) (l : list string) : string :=
  match l with
  | [] => EmptyString
  | [x] => x
  | x :: l' => x +:+ sep +:+ str_join sep l'
  end.

(** [s[i:j]] for [0 <= i <= j]. *)
Definition str_slice (i j : nat) (s : string) : string := substring i (j - i) s.

(** The message that [send_email] hands to the SMTP session. *)
Record EmailMessage := {
  Subject : string;
  From : string;
  To : string;
  content : string
}.

(** ** The library functions left open

    The functions of the Python library whose result the script only passes
    on.  Nothing is assumed of them; the proofs hold for every choice. *)

Class PyLib := {
  (** [s.lower()] *)
  str_lower : string -> string;
  (** [s.strip()] *)
  str_strip : string -> string;
  (** [s.split(",")] *)
  str_split_comma : string -> list string;
  (** [repr(v)], which [str(v)] returns for a list or a dictionary *)
  py_repr : pyval -> string;
  (** [int(s)] for a string: the integer, or the [ValueError] *)
  int_of_str : string -> result Z;
  (** [json.load] on the text of a file: the value, or the exception *)
  json_load : string -> result pyval;
  (** [json.dumps(v, indent=2, sort_keys=True)] *)
  json_dumps : pyval -> string;
  (** [msg = EmailMessage()] followed by [msg["Subject"] = subject],
      [msg["From"] = sender], [msg["To"] = recipients] and
      [msg.set_content(body)]: the message, or the exception that one of
      the four statements raises *)
  email_message : string -> string -> string -> string -> result EmailMessage
}.

(** The constants that the script reads from the environment when it is
    loaded. *)
Class Settings := {
  MONITOR_CONFIG_FILE : string;
  MONITOR_STATE_FILE : string;
  SMTP_HOST : string;
  SMTP_PORT : Z;
  SMTP_USER : string;
  SMTP_PASS : string;
  EMAIL_FROM : string;
  SMTP_USE_TLS : bool
}.

(** ** The outside world

    The script reads and writes files, writes log lines, fetches pages and
    sends mail.  A world is the content of the files and the trace of what
    the script did so far; the network answers through [Network]: what the
    fetch of a URL returns or raises, and whether an SMTP session fails,
    each as a function of the number of events that came before, so that two
    requests of one run are free to differ. *)

Inductive event :=
| EvLog (message : string)
(** [fetch_html] requested the URL *)
| EvFetch (url : string)
(** [send_email] was called with these arguments *)
| EvSendEmail (subject body : string) (recipients : list string)
(** an SMTP session was opened to send the message *)
| EvSmtp (msg : EmailMessage).

Record World := {
  files : gmap string string;
  trace : list event
}.

Class Network := {
  urlopen_read : nat -> string -> result string;
  smtp_send_message : nat -> EmailMessage -> option exn
}.

(** The monad of the script: a computation changes the world and returns a
    value or raises an exception; what it did before raising stays done. *)
Definition M (A : Type) : Type := World -> result A * World.

Definition ret {A} (a : A) : M A := fun w => (Ok a, w).

Definition bind {A B} (m : M A) (f : A -> M B) : M B := fun w =>
  match m w with
  | (Ok a, w') => f a w'
  | (Raise e, w') => (Raise e, w')
  end.

Declare Scope M_scope.
Delimit Scope M_scope with M.
Notation "'let*' x := m 'in' k" := (bind m (fun x => k))
  (at level 10, x pattern, m at level 200, k at level 200,
   format "'[v' 'let*'  x  :=  m  'in' '/' k ']'") : M_scope.
Notation "m ;; k" := (bind m (fun _ => k))
  (at level 100, k at level 200, right associativity) : M_scope.

(** A pure computation that may raise. *)
Definition lift {A} (r : result A) : M A := fun w => (r, w).

(** [try: m / except Exception as exc:] with the handler left to the caller:
    the exception becomes a value. *)
Definition attempt {A} (m : M A) : M (result A) := fun w =>
  let '(r, w') := m w in (Ok r, w').

Definition emit (e : event) : M unit := fun w =>
  (Ok tt, {| files := files w; trace := trace w ++ [e] |}).

(** [path.exists()] and the text of the file. *)
Definition read_file (path : string) : M (option string) := fun w =>
  (Ok (files w !! path), w).

(** [logger.info(message)] *)
Definition log (message : string) : M unit := emit (EvLog message).
Local Open Scope M_scope.

(** ** The configuration *)

Inductive Schedule :=
| Hourly (interval_seconds : Z)
| Daily (time : string) (minute_of_day : Z).

(** A target as [load_monitor_config] builds it. *)
Record Target := {
  target_id : string;
  target_name : string;
  url : string;
  out_of_stock_terms : list string;
  schedule : Schedule;
  emails_on_out_of_stock : list string;
  emails_on_in_stock : list string;
  notify_on_same_state : bool
}.

Record Config := { targets : list Target }.

Definition nonempty (s : string) : bool := negb (String.eqb s EmptyString).

(** [a or b] on strings: [a] unless it is empty. *)
Definition str_or (a b : string) : string := if nonempty a then a else b.

(** The name of the type of a value, for the message of an
    [AttributeError]. *)
Definition type_name (v : pyval) : string :=
  match v with
  | PNone => "NoneType"
  | PBool _ => "bool"
  | PInt _ => "int"
  | PStr _ => "str"
  | PList _ => "list"
  | PDict _ => "dict"
  end.

(** A value on which [.get] or [.setdefault] is called: a dictionary, or
    the [AttributeError] of any other value. *)
Definition as_dict (v : pyval) (attr : string) : result (gmap string pyval) :=
  match v with
  | PDict d => Ok d
  | _ => Raise (AttributeError
                  ("'" +:+ type_name v +:+ "' object has no attribute '" +:+ attr +:+ "'"))
  end.

Section Monitor.
Context `{PyLib} `{Settings} `{Network}.

(** [str(v)] *)
Definition py_str (v : pyval) : string :=
  match v with
  | PNone => "None"
  | PBool true => "True"
  | PBool false => "False"
  | PInt n => str_of_int n
  | PStr s => s
  | PList _ | PDict _ => py_repr v
  end.

(** [int(v)] *)
Definition py_int (v : pyval) : result Z :=
  match v with
  | PInt n => Ok n
  | PBool b => Ok (if b then 1 else 0)
  | PStr s => int_of_str s
  | PNone | PList _ | PDict _ =>
      Raise (TypeError ("int() argument must be a string, a bytes-like object or a real number, not '"
                        +:+ type_name v +:+ "'"))
  end.

(** The loop of [parse_string_list] over a list: every item is a string,
    stripped. *)
Fixpoint strip_items (field_name target_name : string) (items : list pyval)
  : result (list string) :=
  match items with
  | [] => Ok []
  | PStr item :: rest =>
      match strip_items field_name target_name rest with
      | Ok values => Ok (str_strip item :: values)
      | Raise e => Raise e
      end
  | _ :: _ =>
      Raise (ValueError ("Target '" +:+ target_name +:+ "': '" +:+ field_name
                         +:+ "' doit contenir uniquement des chaines."))
  end.

Definition parse_string_list (raw_value : pyval) (field_name target_name : string)
  : result (list string) :=
  match raw_value with
  | PNone => Ok []
  | PStr s => Ok (List.filter nonempty (map str_strip (str_split_comma s)))
  | PList l =>
      match strip_items field_name target_name l with
      | Ok values => Ok (List.filter nonempty values)
      | Raise e => Raise e
      end
  | _ =>
      Raise (ValueError ("Target '" +:+ target_name +:+ "': '" +:+ field_name
                         +:+ "' doit etre une liste ou une chaine."))
  end.

Definition invalid_daily (target_name : string) : exn :=
  ValueError ("Target '" +:+ target_name +:+ "': horaire daily invalide, attendu HH:MM.").

Definition parse_schedule (raw_schedule : pyval) (target_name : string) : result Schedule :=
  let raw_schedule :=
    match raw_schedule with
    | PNone => PDict {[ "mode" := PStr "hourly" ]}
    | _ => raw_schedule
    end in
  match raw_schedule with
  | PDict raw_schedule =>
      let mode :=
        str_lower (str_strip (py_str (dict_get_default raw_schedule "mode" (PStr "hourly")))) in
      if String.eqb mode "hourly" then
        match py_int (dict_get_default raw_schedule "interval_seconds" (PInt 3600)) with
        | Raise e => Raise e
        | Ok interval_seconds =>
            if interval_seconds <=? 0 then
              Raise (ValueError ("Target '" +:+ target_name
                                 +:+ "': 'interval_seconds' doit etre > 0."))
            else Ok (Hourly interval_seconds)
        end
      else if String.eqb mode "daily" then
        let time_value :=
          str_strip (py_str (dict_get_default raw_schedule "time" (PStr EmptyString))) in
        if negb (String.length time_value =? 5)%nat
           || negb (bool_decide (String.get 2 time_value = Some ":"%char))
        then Raise (invalid_daily target_name)
        else
          match int_of_str (str_slice 0 2 time_value) with
          | Raise e => Raise e
          | Ok hour =>
              match int_of_str (str_slice 3 5 time_value) with
              | Raise e => Raise e
              | Ok minute =>
                  if (hour <? 0) || (23 <? hour) || (minute <? 0) || (59 <? minute)
                  then Raise (invalid_daily target_name)
                  else Ok (Daily (format_d 2 hour +:+ ":" +:+ format_d 2 minute)
                                 (hour * 60 + minute))
              end
          end
      else
        Raise (ValueError ("Target '" +:+ target_name +:+ "': mode schedule inconnu '"
                           +:+ mode +:+ "', attendu 'hourly' ou 'daily'."))
  | _ => Raise (ValueError ("Target '" +:+ target_name +:+ "': 'schedule' doit etre un objet."))
  end.

(** The body of the loop of [load_monitor_config] for the target at
    position [index] (from 1). *)
Definition parse_target (index : Z) (target : pyval) : result Target :=
  match target with
  | PDict target =>
      let fallback := "target_" +:+ str_of_int index in
      let target_name :=
        str_or (str_strip (py_str (dict_get_default target "name" (PStr EmptyString)))) fallback in
      let target_id :=
        str_or (str_strip (py_str (dict_get_default target "id" (PStr EmptyString)))) fallback in
      let url := str_strip (py_str (dict_get_default target "url" (PStr EmptyString))) in
      if negb (nonempty url) then
        Raise (ValueError ("Target '" +:+ target_name +:+ "': 'url' est obligatoire."))
      else
        match parse_string_list (dict_get target "out_of_stock_terms")
                "out_of_stock_terms" target_name with
        | Raise e => Raise e
        | Ok [] =>
            Raise (ValueError ("Target '" +:+ target_name
                               +:+ "': 'out_of_stock_terms' doit contenir au moins une valeur."))
        | Ok out_of_stock_terms =>
            match parse_schedule (dict_get target "schedule") target_name with
            | Raise e => Raise e
            | Ok schedule =>
                match parse_string_list (dict_get target "emails_on_out_of_stock")
                        "emails_on_out_of_stock" target_name with
                | Raise e => Raise e
                | Ok emails_on_out_of_stock =>
                    match parse_string_list (dict_get target "emails_on_in_stock")
                            "emails_on_in_stock" target_name with
                    | Raise e => Raise e
                    | Ok emails_on_in_stock =>
                        Ok {| target_id := target_id;
                              target_name := target_name;
                              url := url;
                              out_of_stock_terms := out_of_stock_terms;
                              schedule := schedule;
                              emails_on_out_of_stock := emails_on_out_of_stock;
                              emails_on_in_stock := emails_on_in_stock;
                              notify_on_same_state :=
                                truthy (dict_get_default target "notify_on_same_state"
                                          (PBool false)) |}
                    end
                end
            end
        end
  | _ => Raise (ValueError ("Target #" +:+ str_of_int index +:+ ": format invalide."))
  end.

Fixpoint parse_targets (index : Z) (raw_targets : list pyval) : result (list Target) :=
  match raw_targets with
  | [] => Ok []
  | target :: rest =>
      match parse_target index target with
      | Raise e => Raise e
      | Ok t =>
          match parse_targets (index + 1) rest with
          | Raise e => Raise e
          | Ok ts => Ok (t :: ts)
          end
      end
  end.

Definition load_monitor_config (path : string) : M Config :=
  let* text := read_file path in
  match text with
  | None =>
      lift (Raise (FileNotFoundError ("Fichier de configuration introuvable: " +:+ path
                                      +:+ ". Creez-le a partir du .example.")))
  | Some text =>
      let* raw := lift (json_load text) in
      match raw with
      | PDict raw =>
          match dict_get raw "targets" with
          | PList ((_ :: _) as raw_targets) =>
              let* targets := lift (parse_targets 1 raw_targets) in
              ret {| targets := targets |}
          | _ =>
              lift (Raise (ValueError
                             "La configuration doit contenir 'targets' (liste non vide)."))
          end
      | _ => lift (Raise (ValueError "La configuration doit etre un objet JSON."))
      end
  end.

(** ** The state *)

Definition parse_iso_datetime (raw_value : pyval) : option datetime.datetime :=
  match raw_value with
  | PStr raw_value =>
      if nonempty raw_value then datetime.fromisoformat raw_value else None
  | _ => None
  end.

(** [{"targets": {}}] *)
Definition fresh_state : gmap string pyval := {[ "targets" := PDict ∅ ]}.

Definition load_state (path : string) : M (gmap string pyval) :=
  let* text := read_file path in
  match text with
  | None => ret fresh_state
  | Some text =>
      match json_load text with
      | Raise exc =>
          log ("STATE: lecture impossible (" +:+ exn_msg exc +:+ "), recreation de l'etat.") ;;
          ret fresh_state
      | Ok (PDict state) =>
          match dict_get state "targets" with
          | PDict _ => ret state
          | _ => ret (<[ "targets" := PDict ∅ ]> state)
          end
      | Ok _ => ret fresh_state
      end
  end.

(** The text goes to the temporary file beside [path], which then replaces
    [path].  Creating the parent directories has no counterpart in a world
    of file contents. *)
Definition save_state (path : string) (state : gmap string pyval) : M unit := fun w =>
  let tmp_path := path +:+ ".tmp" in
  let payload := json_dumps (PDict state) +:+ newline in
  let written := <[ tmp_path := payload ]> (files w) in
  let replaced := <[ path := payload ]> (delete tmp_path written) in
  (Ok tt, {| files := replaced; trace := trace w |}).

(** ** The network *)

Definition fetch_html (url : string) : M string := fun w =>
  (urlopen_read (length (trace w)) url,
   {| files := files w; trace := trace w ++ [EvFetch url] |}).

(** The SMTP session of [send_email]: the exception it raised, if any. *)
Definition smtp_session (msg : EmailMessage) : M (option exn) := fun w =>
  (Ok (smtp_send_message (length (trace w)) msg),
   {| files := files w; trace := trace w ++ [EvSmtp msg] |}).

Definition missing_settings : list string :=
  (if nonempty SMTP_HOST then [] else ["SMTP_HOST"])
  ++ (if SMTP_PORT =? 0 then ["SMTP_PORT"] else [])
  ++ (if nonempty SMTP_USER then [] else ["SMTP_USER"])
  ++ (if nonempty SMTP_PASS then [] else ["SMTP_PASS"])
  ++ (if nonempty EMAIL_FROM then [] else ["EMAIL_FROM"]).

(** The message is built before the [try] statement: an exception of
    [email_message] leaves [send_email], while one of the SMTP session is
    caught and logged. *)
Definition send_email (subject body : string) (recipients : list string) : M bool :=
  emit (EvSendEmail subject body recipients) ;;
  let missing := missing_settings in
  match missing with
  | _ :: _ =>
      log ("EMAIL: configuration SMTP incomplete: " +:+ str_join ", " missing) ;;
      ret false
  | [] =>
      match recipients with
      | [] => ret true
      | _ :: _ =>
          let* msg := lift (email_message subject EMAIL_FROM
                              (str_join ", " recipients) body) in
          let* failure := smtp_session msg in
          match failure with
          | None =>
              log ("EMAIL: notification envoyee a " +:+ str_join ", " recipients) ;;
              ret true
          | Some exc =>
              log ("EMAIL: echec d'envoi: " +:+ exn_msg exc) ;;
              ret false
          end
      end
  end.

(** ** Classification, schedule and check of a target *)

Fixpoint detect_stock_state (html : string) (out_of_stock_terms : list string)
  : string * string :=
  let lower_html := str_lower html in
  match out_of_stock_terms with
  | [] => ("in_stock", EmptyString)
  | marker :: rest =>
      if str_contains (str_lower marker) lower_html
      then ("out_of_stock", marker)
      else detect_stock_state html rest
  end.

(** [total_seconds()] is a float, which [>=] compares with the integer
    [interval_seconds]. *)
Definition is_target_due (target : Target) (target_state : gmap string pyval)
    (now : datetime.datetime) : result bool :=
  let schedule := schedule target in
  let last_check := parse_iso_datetime (dict_get target_state "last_check_at") in
  match schedule with
  | Hourly interval_seconds =>
      match last_check with
      | None => Ok true
      | Some last_check =>
          match datetime.sub now last_check with
          | Raise e => Raise e
          | Ok elapsed =>
              let elapsed_seconds := datetime.total_seconds elapsed in
              Ok (float_ge_int elapsed_seconds interval_seconds)
          end
      end
  | Daily _ schedule_minute_of_day =>
      let minute_of_day := datetime.hour now * 60 + datetime.minute now in
      if minute_of_day <? schedule_minute_of_day then Ok false
      else
        match last_check with
        | None => Ok true
        | Some last_check =>
            Ok (datetime.date_ltb (datetime.date last_check) (datetime.date now))
        end
  end.

(** The state after a check that could not fetch the page. *)
Definition record_failure (target_state : gmap string pyval) (now : datetime.datetime)
  : gmap string pyval :=
  <[ "last_check_at" := PStr (datetime.isoformat_seconds now) ]>
    (<[ "last_state" := PStr "unknown" ]> target_state).

(** The state after a check that classified the page. *)
Definition record_check (target_state : gmap string pyval)
    (current_state marker : string) (now : datetime.datetime) : gmap string pyval :=
  <[ "last_check_at" := PStr (datetime.isoformat_seconds now) ]>
    (<[ "last_marker" := PStr marker ]>
       (<[ "last_state" := PStr current_state ]> target_state)).

(** [evaluate_target] changes [target_state] in place; the model returns the
    changed dictionary beside the result. *)
Definition evaluate_target (target : Target) (target_state : gmap string pyval)
    (now : datetime.datetime) : M (bool * gmap string pyval) :=
  let target_name := target_name target in
  let url := url target in
  let previous_state := dict_get target_state "last_state" in
  log ("[" +:+ target_name +:+ "] verification de " +:+ url) ;;
  let* fetched := attempt (fetch_html url) in
  match fetched with
  | Raise exc =>
      log ("[" +:+ target_name +:+ "] ERREUR HTTP: " +:+ exn_msg exc) ;;
      ret (false, record_failure target_state now)
  | Ok html =>
      let '(current_state, marker) := detect_stock_state html (out_of_stock_terms target) in
      let* recipients :=
        if String.eqb current_state "out_of_stock" then
          log ("[" +:+ target_name +:+ "] HORS STOCK - terme detecte: " +:+ marker) ;;
          ret (emails_on_out_of_stock target)
        else
          log ("[" +:+ target_name +:+ "] EN STOCK - aucun terme out_of_stock detecte") ;;
          ret (emails_on_in_stock target) in
      let should_notify :=
        notify_on_same_state target || py_ne_str previous_state current_state in
      (if should_notify then
         match recipients with
         | _ :: _ =>
             let subject_state :=
               if String.eqb current_state "in_stock" then "EN STOCK" else "HORS STOCK" in
             let marker_line := if nonempty marker then marker else "aucun" in
             let body :=
               "Cible: " +:+ target_name +:+ newline
               +:+ "URL: " +:+ url +:+ newline
               +:+ "Etat: " +:+ subject_state +:+ newline
               +:+ "Terme detecte: " +:+ marker_line +:+ newline
               +:+ "Date: " +:+ datetime.isoformat_seconds now +:+ newline in
             send_email ("[Stock Monitor] " +:+ subject_state +:+ " - " +:+ target_name)
               body recipients ;;
             ret tt
         | [] =>
             log ("[" +:+ target_name +:+ "] Aucun destinataire configure pour l'etat "
                  +:+ current_state +:+ ".")
         end
       else
         log ("[" +:+ target_name +:+ "] Etat inchange (" +:+ current_state
              +:+ "), pas de notification.")) ;;
      ret (true, record_check target_state current_state marker now)
  end.

(** ** The cycle *)

(** The loop of [run_cycle] over the targets of the configuration.
    [targets_state] is the dictionary under ["targets"] of the state, and
    the dictionary of a target is an entry of it: what [evaluate_target]
    changes is stored back under the identifier of the target. *)
Fixpoint check_targets (force_run : bool) (now : datetime.datetime)
    (targets : list Target) (targets_state : gmap string pyval) (checked_count : Z)
  : M (gmap string pyval * Z) :=
  match targets with
  | [] => ret (targets_state, checked_count)
  | target :: rest =>
      let target_id := target_id target in
      let entry := default (PDict ∅) (targets_state !! target_id) in
      let targets_state := <[ target_id := entry ]> targets_state in
      let* target_state := lift (as_dict entry "get") in
      let* due :=
        if force_run then ret true else lift (is_target_due target target_state now) in
      if negb due then check_targets force_run now rest targets_state checked_count
      else
        let* (_, target_state) := evaluate_target target target_state now in
        check_targets force_run now rest
          (<[ target_id := PDict target_state ]> targets_state) (checked_count + 1)
  end.

(** [clock] is the reading of the local clock that [datetime.now()]
    returns, a naive datetime. *)
Definition run_cycle (force_run : bool) (clock : datetime.datetime) : M Z :=
  let config_path := MONITOR_CONFIG_FILE in
  let state_path := MONITOR_STATE_FILE in
  let* loaded := attempt (load_monitor_config config_path) in
  match loaded with
  | Raise exc =>
      log ("CONFIG: echec de chargement de " +:+ config_path +:+ ": " +:+ exn_msg exc) ;;
      ret 2
  | Ok config =>
      let* state := load_state state_path in
      let targets_entry := default (PDict ∅) (state !! "targets") in
      let state := <[ "targets" := targets_entry ]> state in
      let* targets_state := lift (as_dict targets_entry "setdefault") in
      let now := datetime.now clock in
      let* (targets_state, checked_count) :=
        check_targets force_run now (targets config) targets_state 0 in
      let state :=
        <[ "updated_at" := PStr (datetime.isoformat_seconds now) ]>
          (<[ "targets" := PDict targets_state ]> state) in
      save_state state_path state ;;
      (if negb (checked_count =? 0)
       then log ("Cycle termine: " +:+ str_of_int checked_count +:+ " page(s) verifiee(s).")
       else ret tt) ;;
      ret 0
  end.

End Monitor.

(** ** The command line *)

(** The text that [main] prints for [--help]; [print] ends it with one more
    line feed. *)
Definition usage : string :=
  "Usage:" +:+ newline
  +:+ "  monitor_stock.py           # run planifie (respecte schedule)" +:+ newline
  +:+ "  monitor_stock.py --once    # force la verification de toutes les pages" +:+ newline.

(** [x in sys.argv] *)
Definition in_argv (x : string) (argv : list string) : bool := existsb (String.eqb x) argv.

(** How the process ends: what it printed on its standard output and the
    status that [sys.exit] was called with. *)
Record Exit := { printed : list string; status : Z }.

Section Main.
Context `{PyLib} `{Settings} `{Network}.

(** [main()] with [sys.argv = argv].  An exception of [run_cycle] is caught
    by nothing: it ends the process, and the model raises it. *)
Definition main (argv : list string) (clock : datetime.datetime) : M Exit :=
  if in_argv "--help" argv || in_argv "-h" argv then
    ret {| printed := [usage +:+ newline]; status := 0 |}
  else
    let force_run := in_argv "--once" argv || in_argv "-1" argv in
    let* code := run_cycle force_run clock in
    ret {| printed := []; status := code |}.

End Main.

(** ** The constants of the module

    When it is loaded the script reads its constants from the environment,
    a dictionary of strings.  The operations of [pathlib] stay open, like
    those of [PyLib]: a path is the string it prints as.  The set-up of the
    logger, which follows the constants of the log file, is left out. *)

Class PathLib := {
  (** the directory of the script *)
  PROJECT_DIR : string;
  (** [Path(s).expanduser()] *)
  expanduser : string -> string;
  (** [path.is_absolute()] *)
  is_absolute : string -> bool;
  (** [a / b] *)
  joinpath : string -> string -> string
}.

(** [os.environ.get(name, dflt)] *)
Definition environ_get (environ : gmap string string) (name dflt : string) : string :=
  default dflt (environ !! name).

(** The constants of the module: those of the log and of the timeout, and
    the settings that the functions of the script read. *)
Record Constants := {
  LOG_FILE : string;
  LOG_MAX_BYTES : Z;
  LOG_BACKUP_COUNT : Z;
  HTTP_TIMEOUT_SECONDS : Z;
  module_settings : Settings
}.

Section Environment.
Context `{PyLib} `{PathLib}.

(** [os.environ.get(name)] is [None] for a name that is not set, and
    [None or d] is [d] as [EmptyString or d] is. *)
Definition resolve_project_path (environ : gmap string string)
    (env_var_name default_relative_path : string) : string :=
  let raw_value :=
    str_strip (str_or (environ_get environ env_var_name EmptyString)
                 default_relative_path) in
  let path := expanduser raw_value in
  if negb (is_absolute path) then joinpath PROJECT_DIR path else path.

(** The assignments of the module, in their order: the first [int] that
    raises ends the loading of the script. *)
Definition load_constants (environ : gmap string string) : result Constants :=
  let log_file := resolve_project_path environ "LOG_FILE" "monitor.log" in
  match int_of_str (environ_get environ "LOG_MAX_BYTES" (str_of_int (5 * 1024 * 1024))) with
  | Raise e => Raise e
  | Ok log_max_bytes =>
  match int_of_str (environ_get environ "LOG_BACKUP_COUNT" "5") with
  | Raise e => Raise e
  | Ok log_backup_count =>
  let monitor_config_file :=
    resolve_project_path environ "MONITOR_CONFIG_FILE" "monitor_targets.json" in
  let monitor_state_file :=
    resolve_project_path environ "MONITOR_STATE_FILE" "monitor_state.json" in
  match int_of_str (environ_get environ "HTTP_TIMEOUT_SECONDS" "30") with
  | Raise e => Raise e
  | Ok http_timeout_seconds =>
  let smtp_host := environ_get environ "SMTP_HOST" EmptyString in
  match int_of_str (environ_get environ "SMTP_PORT" "587") with
  | Raise e => Raise e
  | Ok smtp_port =>
  let smtp_user := environ_get environ "SMTP_USER" EmptyString in
  let smtp_pass := environ_get environ "SMTP_PASS" EmptyString in
  let email_from := str_or (environ_get environ "EMAIL_FROM" EmptyString) smtp_user in
  let smtp_use_tls :=
    negb (existsb (String.eqb (environ_get environ "SMTP_USE_TLS" "1"))
            ["0"; "false"; "False"]) in
  Ok {| LOG_FILE := log_file;
        LOG_MAX_BYTES := log_max_bytes;
        LOG_BACKUP_COUNT := log_backup_count;
        HTTP_TIMEOUT_SECONDS := http_timeout_seconds;
        module_settings :=
          {| MONITOR_CONFIG_FILE := monitor_config_file;
             MONITOR_STATE_FILE := monitor_state_file;
             SMTP_HOST := smtp_host;
             SMTP_PORT := smtp_port;
             SMTP_USER := smtp_user;
             SMTP_PASS := smtp_pass;
             EMAIL_FROM := email_from;
             SMTP_USE_TLS := smtp_use_tls |} |}
  end end end end.

End Environment.

(** ** Notions used in the statements *)

(** [term] occurs somewhere in [content], letter case apart: the lowered
    term is a run of consecutive characters of the lowered content. *)
Definition occurs_in `{PyLib} (term content : string) : Prop :=
  exists before after, str_lower content = before +:+ str_lower term +:+ after.

(** The recipients that [evaluate_target] selects for a state. *)
Definition recipients_for (target : Target) (current_state : string) : list string :=
  if String.eqb current_state "out_of_stock"
  then emails_on_out_of_stock target
  else emails_on_in_stock target.

Definition is_send_email (e : event) : bool :=
  match e with
  | EvSendEmail _ _ _ => true
  | _ => false
  end.

(** A mail send was attempted: [send_email] was called. *)
Definition mail_attempted (events : list event) : bool := existsb is_send_email events.

(** The subject and the body of the mail that [evaluate_target] sends for
    a classified state. *)
Definition notification_subject (target : Target) (current_state : string) : string :=
  "[Stock Monitor] "
  +:+ (if String.eqb current_state "in_stock" then "EN STOCK" else "HORS STOCK")
  +:+ " - " +:+ target_name target.

Definition notification_body (target : Target) (current_state marker : string)
    (now : datetime.datetime) : string :=
  "Cible: " +:+ target_name target +:+ newline
  +:+ "URL: " +:+ url target +:+ newline
  +:+ "Etat: " +:+ (if String.eqb current_state "in_stock" then "EN STOCK" else "HORS STOCK")
  +:+ newline
  +:+ "Terme detecte: " +:+ (if nonempty marker then marker else "aucun") +:+ newline
  +:+ "Date: " +:+ datetime.isoformat_seconds now +:+ newline.

(** The exception that leaves [send_email], if any: the one of building the
    message, which is built when the settings are complete and there is a
    recipient. *)
Definition message_error `{PyLib} `{Settings} (subject body : string)
    (recipients : list string) : option exn :=
  match missing_settings, recipients with
  | [], _ :: _ =>
      match email_message subject EMAIL_FROM (str_join ", " recipients) body with
      | Raise exc => Some exc
      | Ok _ => None
      end
  | _, _ => None
  end.

(** The exception that leaves a check of [target] whose fetch returned
    [html], if any: that of [send_email], when the check calls it. *)
Definition check_error `{PyLib} `{Settings} (target : Target) (st : gmap string pyval)
    (now : datetime.datetime) (html : string) : option exn :=
  let current_state := fst (detect_stock_state html (out_of_stock_terms target)) in
  let marker := snd (detect_stock_state html (out_of_stock_terms target)) in
  if notify_on_same_state target || py_ne_str (dict_get st "last_state") current_state
  then message_error (notification_subject target current_state)
         (notification_body target current_state marker now)
         (recipients_for target current_state)
  else None.

(** The library accepts the mails of [target]: for both states, when the
    settings are complete and the state has recipients, the message with
    the subject of the state, the sender and the recipients is built,
    whatever its body. *)
Definition mail_accepted `{PyLib} `{Settings} (target : Target) : Prop :=
  forall current_state body,
    current_state = "out_of_stock" \/ current_state = "in_stock" ->
    missing_settings = [] ->
    recipients_for target current_state <> [] ->
    exists msg,
      email_message (notification_subject target current_state) EMAIL_FROM
        (str_join ", " (recipients_for target current_state)) body = Ok msg.

(** What [fetch_html] returns or raises when [evaluate_target] runs on the
    world [w]: the request follows the first log line. *)
Definition fetch_outcome `{Network} (target : Target) (w : World) : result string :=
  urlopen_read (S (length (trace w))) (url target).

(** The world [w] after the events [events]. *)
Definition after_events (w : World) (events : list event) : World :=
  {| files := files w; trace := trace w ++ events |}.

(** An entry of the stored state that the script can check at a naive
    [now]: a dictionary whose [last_check_at] is absent, unreadable or a
    naive timestamp. *)
Definition naive_entry (v : pyval) : bool :=
  match v with
  | PDict d =>
      match parse_iso_datetime (dict_get d "last_check_at") with
      | Some last_check =>
          match datetime.utcoffset last_check with
          | None => true
          | Some _ => false
          end
      | None => true
      end
  | _ => false
  end.

Definition naive_entries (targets_state : gmap string pyval) : Prop :=
  map_Forall (fun _ v => naive_entry v = true) targets_state.

(** The dictionary under ["targets"] of the state that [load_state] reads
    in the world [w]. *)
Definition stored_targets `{PyLib} (path : string) (w : World) : gmap string pyval :=
  match load_state path w with
  | (Ok state, _) =>
      match state !! "targets" with
      | Some (PDict targets_state) => targets_state
      | _ => ∅
      end
  | (Raise _, _) => ∅
  end.

(** No target of the list is due at [now]: the entry of each is a
    dictionary on which the schedule says no. *)
Definition none_due (now : datetime.datetime) (targets : list Target)
    (targets_state : gmap string pyval) : Prop :=
  forall target, In target targets ->
    exists st,
      default (PDict ∅) (targets_state !! target_id target) = PDict st
      /\ is_target_due target st now = Ok false.

(** A schedule as [parse_schedule] builds it: a positive interval, or a
    minute of the day with its time in the form HH:MM. *)
Definition well_formed_schedule (s : Schedule) : bool :=
  match s with
  | Hourly interval_seconds => 0 <? interval_seconds
  | Daily time minute_of_day =>
      (0 <=? minute_of_day) && (minute_of_day <=? 1439)
      && String.eqb time (format_d 2 (minute_of_day / 60) +:+ ":"
                          +:+ format_d 2 (minute_of_day mod 60))
  end.

(** A target as [load_monitor_config] builds it: an identifier, a name and
    a URL that are not empty, at least one term, no empty term and no empty
    recipient, and a well-formed schedule. *)
Definition well_formed_target (t : Target) : bool :=
  nonempty (target_id t) && nonempty (target_name t) && nonempty (url t)
  && match out_of_stock_terms t with [] => false | _ :: _ => true end
  && forallb nonempty (out_of_stock_terms t)
  && forallb nonempty (emails_on_out_of_stock t)
  && forallb nonempty (emails_on_in_stock t)
  && well_formed_schedule (schedule t).

(** The URLs that the events of a trace requested, in their order. *)
Definition fetched_urls (events : list event) : list string :=
  flat_map (fun e => match e with EvFetch url => [url] | _ => [] end) events.

Definition is_dict (v : pyval) : bool :=
  match v with
  | PDict _ => true
  | _ => false
  end.

(** An entry of the stored state on which a cycle can run: a dictionary,
    and for a cycle that asks the schedules one that a naive [now] can be
    compared with. *)
Definition checkable (force_run : bool) (v : pyval) : bool :=
  if force_run then is_dict v else naive_entry v.

Definition checkable_entries (force_run : bool) (targets_state : gmap string pyval) : Prop :=
  map_Forall (fun _ v => checkable force_run v = true) targets_state.

(** Every request of the URL of [target] raises. *)
Definition always_fails `{Network} (target : Target) : Prop :=
  forall n, exists exc, urlopen_read n (url target) = Raise exc.

(** What the loop of a cycle did at [now]: the targets it checked, in the
    order of the configuration, and the state it leaves. *)
Definition loop_outcome `{Network} (force_run : bool) (now : datetime.datetime)
    (targets : list Target) (targets_state targets_state' : gmap string pyval)
    (checked : list Target) (events : list event) : Prop :=
  checkable_entries force_run targets_state'
  /\ fetched_urls events = map url checked
  /\ sublist checked targets
  /\ (force_run = true -> checked = targets)
  /\ (forall id, ~ In id (map target_id targets) ->
        targets_state' !! id = targets_state !! id)
  /\ (forall t, In t targets ->
        exists st, targets_state' !! target_id t = Some (PDict st))
  /\ (forall id st,
        targets_state !! id = Some (PDict st) ->
        st !! "last_check_at" = Some (PStr (datetime.isoformat_seconds now)) ->
        exists st', targets_state' !! id = Some (PDict st')
                    /\ st' !! "last_check_at"
                       = Some (PStr (datetime.isoformat_seconds now)))
  /\ (forall t, In t checked ->
        exists st, targets_state' !! target_id t = Some (PDict st)
                   /\ st !! "last_check_at"
                      = Some (PStr (datetime.isoformat_seconds now)))
  /\ (force_run = false ->
      Forall (fun t => well_formed_schedule (schedule t) = true) targets ->
      NoDup (map target_id checked)
      /\ forall t st,
           In t checked -> targets_state !! target_id t = Some (PDict st) ->
           st !! "last_check_at" <> Some (PStr (datetime.isoformat_seconds now)))
  /\ (NoDup (map target_id targets) ->
      forall t, In t checked -> always_fails t ->
        exists st,
          default (PDict ∅) (targets_state !! target_id t) = PDict st
          /\ targets_state' !! target_id t = Some (PDict (record_failure st now))).

(** The entries of the state after the loop: each is the entry that was
    stored, an empty dictionary made for a target that had none, or a
    dictionary stamped with the time of the cycle; and no configured target
    is due any more. *)
Definition entries_outcome (now : datetime.datetime) (targets : list Target)
    (targets_state targets_state' : gmap string pyval) : Prop :=
  (forall key,
      targets_state' !! key = targets_state !! key
      \/ (exists st, targets_state' !! key = Some (PDict st)
                     /\ st !! "last_check_at"
                        = Some (PStr (datetime.isoformat_seconds now)))
      \/ (targets_state !! key = None /\ targets_state' !! key = Some (PDict ∅)))
  /\ (Forall (fun t => well_formed_schedule (schedule t) = true) targets ->
      forall t, In t targets ->
        exists st, targets_state' !! target_id t = Some (PDict st)
                   /\ is_target_due t st now = Ok false).

(** ** A concrete library for ASCII text

    An instance of [PyLib] on which the model runs: the functions of the
    library on ASCII strings, and JSON with integers as its only numbers.
    The examples and the witnesses of the theorems evaluate the script on
    it. *)

Module Ascii_lib.

Definition code (c : ascii) : nat := nat_of_ascii c.

Definition lower_char (c : ascii) : ascii :=
  if ((65 <=? code c) && (code c <=? 90))%nat then ascii_of_nat (code c + 32) else c.

Fixpoint lower (s : string) : string :=
  match s with
  | EmptyString => EmptyString
  | String c s' => String (lower_char c) (lower s')
  end.

(** Space, tab, line feed, vertical tab, form feed, carriage return. *)
Definition is_space (c : ascii) : bool :=
  ((code c =? 32) || ((9 <=? code c) && (code c <=? 13)))%nat.

Fixpoint lstrip (s : string) : string :=
  match s with
  | String c s' => if is_space c then lstrip s' else s
  | EmptyString => EmptyString
  end.

Fixpoint rstrip (s : string) : string :=
  match s with
  | EmptyString => EmptyString
  | String c s' =>
      match rstrip s' with
      | EmptyString => if is_space c then EmptyString else String c EmptyString
      | r => String c r
      end
  end.

Definition strip (s : string) : string := rstrip (lstrip s).

Fixpoint split_comma (s : string) : list string :=
  match s with
  | EmptyString => [EmptyString]
  | String c s' =>
      if Ascii.eqb c "," then EmptyString :: split_comma s'
      else match split_comma s' with
           | [] => [String c EmptyString]
           | x :: l => String c x :: l
           end
  end.

Fixpoint all_digits (s : string) : bool :=
  match s with
  | EmptyString => true
  | String c s' => match digit_val c with Some _ => all_digits s' | None => false end
  end.

Definition digits_value (s : string) : option Z :=
  if nonempty s && all_digits s
  then match parse_digits (String.length s) 0 s with
       | Some (n, _) => Some n
       | None => None
       end
  else None.

(** [int(s)]: blanks around an optional sign and decimal digits. *)
Definition int_of_string (s : string) : result Z :=
  let bad := ValueError ("invalid literal for int() with base 10: '" +:+ s +:+ "'") in
  let body := strip s in
  let '(negative, digits) :=
    match body with
    | String "-" r => (true, r)
    | String "+" r => (false, r)
    | _ => (false, body)
    end in
  match digits_value digits with
  | Some n => Ok (if negative then - n else n)
  | None => Raise bad
  end.

Definition quote : string := chr 34.
Definition backslash : string := chr 92.

Definition hex_digit (n : nat) : ascii :=
  if (n <? 10)%nat then ascii_of_nat (48 + n) else ascii_of_nat (87 + n).

Definition hex_val (c : ascii) : option nat :=
  let n := code c in
  if ((48 <=? n) && (n <=? 57))%nat then Some (n - 48)%nat
  else if ((97 <=? n) && (n <=? 102))%nat then Some (n - 87)%nat
  else if ((65 <=? n) && (n <=? 70))%nat then Some (n - 55)%nat
  else None.

(** A character inside a JSON string, as [json.dumps] writes it. *)
Definition json_escape_char (c : ascii) : string :=
  let n := code c in
  if (n =? 34)%nat then backslash +:+ quote
  else if (n =? 92)%nat then backslash +:+ backslash
  else if (n =? 10)%nat then backslash +:+ "n"
  else if (n =? 13)%nat then backslash +:+ "r"
  else if (n =? 9)%nat then backslash +:+ "t"
  else if (n =? 8)%nat then backslash +:+ "b"
  else if (n =? 12)%nat then backslash +:+ "f"
  else if (n <? 32)%nat then
    backslash +:+ "u00" +:+ String (hex_digit (n / 16)) (String (hex_digit (n mod 16)) EmptyString)
  else String c EmptyString.

Fixpoint json_escape (s : string) : string :=
  match s with
  | EmptyString => EmptyString
  | String c s' => json_escape_char c +:+ json_escape s'
  end.

Definition json_string (s : string) : string := quote +:+ json_escape s +:+ quote.

Fixpoint spaces (n : nat) : string :=
  match n with
  | O => EmptyString
  | S n' => String " " (spaces n')
  end.

Fixpoint insert_by_key (x : string * string) (l : list (string * string))
  : list (string * string) :=
  match l with
  | [] => [x]
  | y :: l' => if String.leb (fst x) (fst y) then x :: l else y :: insert_by_key x l'
  end.

Definition sort_by_key (l : list (string * string)) : list (string * string) :=
  fold_right insert_by_key [] l.

(** [repr(s)] of a string without quotes or backslashes in it. *)
Definition repr_string (s : string) : string := "'" +:+ s +:+ "'".

Fixpoint repr (v : pyval) : string :=
  match v with
  | PNone => "None"
  | PBool true => "True"
  | PBool false => "False"
  | PInt n => str_of_int n
  | PStr s => repr_string s
  | PList l => "[" +:+ str_join ", " (map repr l) +:+ "]"
  | PDict d =>
      "{" +:+ str_join ", "
                (map (fun kv => repr_string (fst kv) +:+ ": " +:+ snd kv)
                     (map_to_list (repr <$> d)))
      +:+ "}"
  end.

(** [json.dumps(v, indent=2, sort_keys=True)], [level] deep in the value. *)
Fixpoint json_encode (level : nat) (v : pyval) : string :=
  let inner := newline +:+ spaces (2 * S level) in
  let outer := newline +:+ spaces (2 * level) in
  match v with
  | PNone => "null"
  | PBool true => "true"
  | PBool false => "false"
  | PInt n => str_of_int n
  | PStr s => json_string s
  | PList [] => "[]"
  | PList l =>
      "[" +:+ inner +:+ str_join ("," +:+ inner) (map (json_encode (S level)) l)
      +:+ outer +:+ "]"
  | PDict d =>
      match sort_by_key (map_to_list (json_encode (S level) <$> d)) with
      | [] => "{}"
      | items =>
          "{" +:+ inner
          +:+ str_join ("," +:+ inner)
                (map (fun kv => json_string (fst kv) +:+ ": " +:+ snd kv) items)
          +:+ outer +:+ "}"
      end
  end.

Definition dumps (v : pyval) : string := json_encode 0 v.

Definition is_json_ws (c : ascii) : bool :=
  ((code c =? 32) || (code c =? 10) || (code c =? 13) || (code c =? 9))%nat.

Fixpoint skip_ws (s : string) : string :=
  match s with
  | String c s' => if is_json_ws c then skip_ws s' else s
  | EmptyString => EmptyString
  end.

(** The characters of a JSON string after its opening quote, up to the
    closing one. *)
Fixpoint parse_string_body (s : string) : option (string * string) :=
  match s with
  | EmptyString => None
  | String c s' =>
      if (code c =? 34)%nat then Some (EmptyString, s')
      else if (code c =? 92)%nat then
        match s' with
        | EmptyString => None
        | String e s'' =>
            let simple (ch : nat) :=
              match parse_string_body s'' with
              | Some (r, rest) => Some (String (ascii_of_nat ch) r, rest)
              | None => None
              end in
            if (code e =? 34)%nat then simple 34%nat
            else if (code e =? 92)%nat then simple 92%nat
            else if (code e =? 47)%nat then simple 47%nat
            else if Ascii.eqb e "n" then simple 10%nat
            else if Ascii.eqb e "r" then simple 13%nat
            else if Ascii.eqb e "t" then simple 9%nat
            else if Ascii.eqb e "b" then simple 8%nat
            else if Ascii.eqb e "f" then simple 12%nat
            else if Ascii.eqb e "u" then
              match s'' with
              | String h1 (String h2 (String h3 (String h4 s3))) =>
                  match hex_val h1, hex_val h2, hex_val h3, hex_val h4 with
                  | Some 0%nat, Some 0%nat, Some a, Some b =>
                      if (a <? 8)%nat then
                        match parse_string_body s3 with
                        | Some (r, rest) => Some (String (ascii_of_nat (a * 16 + b)) r, rest)
                        | None => None
                        end
                      else None
                  | _, _, _, _ => None
                  end
              | _ => None
              end
            else None
        end
      else if (code c <? 32)%nat then None
      else
        match parse_string_body s' with
        | Some (r, rest) => Some (String c r, rest)
        | None => None
        end
  end.

(** The decimal digits at the head of [s]. *)
Fixpoint take_digits (s : string) : string * string :=
  match s with
  | String c s' =>
      match digit_val c with
      | Some _ => let '(d, r) := take_digits s' in (String c d, r)
      | None => (EmptyString, s)
      end
  | EmptyString => (EmptyString, EmptyString)
  end.

(** An integer; a fraction or an exponent (a float) is refused. *)
Definition parse_number (s : string) : option (pyval * string) :=
  let '(negative, body) :=
    match s with
    | String "-" r => (true, r)
    | _ => (false, s)
    end in
  let '(digits, rest) := take_digits body in
  let leading_zero :=
    match digits with
    | String "0" (String _ _) => true
    | _ => false
    end in
  let is_float :=
    match rest with
    | String c _ => Ascii.eqb c "." || Ascii.eqb c "e" || Ascii.eqb c "E"
    | EmptyString => false
    end in
  if leading_zero || is_float then None
  else match digits_value digits with
       | Some n => Some (PInt (if negative then - n else n), rest)
       | None => None
       end.

(** The rest of [s] after the prefix [p], when [s] starts with [p]. *)
Fixpoint strip_prefix (p s : string) : option string :=
  match p, s with
  | EmptyString, _ => Some s
  | String a p', String b s' => if Ascii.eqb a b then strip_prefix p' s' else None
  | String _ _, EmptyString => None
  end.

Fixpoint parse_value (fuel : nat) (s : string) : option (pyval * string) :=
  match fuel with
  | O => None
  | S fuel =>
      match skip_ws s with
      | EmptyString => None
      | String c s' =>
          if Ascii.eqb c "{" then
            match skip_ws s' with
            | EmptyString => None
            | String c' rest =>
                if Ascii.eqb c' "}" then Some (PDict ∅, rest)
                else
                  match parse_members fuel s' with
                  | Some (d, rest) => Some (PDict d, rest)
                  | None => None
                  end
            end
          else if Ascii.eqb c "[" then
            match skip_ws s' with
            | EmptyString => None
            | String c' rest =>
                if Ascii.eqb c' "]" then Some (PList [], rest)
                else
                  match parse_elements fuel s' with
                  | Some (l, rest) => Some (PList l, rest)
                  | None => None
                  end
            end
          else if (code c =? 34)%nat then
            match parse_string_body s' with
            | Some (str, rest) => Some (PStr str, rest)
            | None => None
            end
          else
            match strip_prefix "null" (String c s') with
            | Some rest => Some (PNone, rest)
            | None =>
                match strip_prefix "true" (String c s') with
                | Some rest => Some (PBool true, rest)
                | None =>
                    match strip_prefix "false" (String c s') with
                    | Some rest => Some (PBool false, rest)
                    | None => parse_number (String c s')
                    end
                end
            end
      end
  end
with parse_elements (fuel : nat) (s : string) : option (list pyval * string) :=
  match fuel with
  | O => None
  | S fuel =>
      match parse_value fuel s with
      | None => None
      | Some (v, rest) =>
          match skip_ws rest with
          | EmptyString => None
          | String c rest' =>
              if Ascii.eqb c "]" then Some ([v], rest')
              else if Ascii.eqb c "," then
                match parse_elements fuel rest' with
                | Some (l, rest'') => Some (v :: l, rest'')
                | None => None
                end
              else None
          end
      end
  end
with parse_members (fuel : nat) (s : string) : option (gmap string pyval * string) :=
  match fuel with
  | O => None
  | S fuel =>
      match skip_ws s with
      | EmptyString => None
      | String c s' =>
          if negb (code c =? 34)%nat then None else
          match parse_string_body s' with
          | None => None
          | Some (key, rest) =>
              match skip_ws rest with
              | EmptyString => None
              | String c1 rest1 =>
                  if negb (Ascii.eqb c1 ":") then None else
                  match parse_value fuel rest1 with
                  | None => None
                  | Some (v, rest2) =>
                      match skip_ws rest2 with
                      | EmptyString => None
                      | String c2 rest3 =>
                          if Ascii.eqb c2 "}" then Some ({[ key := v ]}, rest3)
                          else if Ascii.eqb c2 "," then
                            match parse_members fuel rest3 with
                            | Some (d, rest4) => Some (<[ key := v ]> d, rest4)
                            | None => None
                            end
                          else None
                      end
                  end
              end
          end
      end
  end.

(** [json.load]: one value and nothing but blanks after it. *)
Definition loads (text : string) : result pyval :=
  match parse_value (2 * String.length text + 2) text with
  | Some (v, rest) =>
      match skip_ws rest with
      | EmptyString => Ok v
      | _ => Raise (Exn "JSONDecodeError" "Extra data")
      end
  | None => Raise (Exn "JSONDecodeError" "Expecting value")
  end.

(** *** Notions to state that [loads] reads what [dumps] writes *)

(** The number that a string of digits spells. *)
Definition digits_number (s : string) : option (Z * string) :=
  parse_digits (String.length s) 0 s.

Definition leading_zero (s : string) : bool :=
  match s with
  | String "0" (String _ _) => true
  | _ => false
  end.

Definition starts_with_digit (s : string) : bool :=
  match s with
  | String c _ => match digit_val c with Some _ => true | None => false end
  | EmptyString => false
  end.

(** What follows a value in the text that [json.dumps] writes: a comma, a
    line feed, or nothing. *)
Definition after_value (rest : string) : bool :=
  match rest with
  | EmptyString => true
  | String c _ => Ascii.eqb c "," || (code c =? 10)%nat
  end.

Fixpoint pyval_size (v : pyval) : nat :=
  match v with
  | PList l => S (foldr (fun x acc => pyval_size x + acc)%nat 0%nat l)
  | PDict d => S (map_fold (fun _ n acc => n + acc)%nat 0%nat (pyval_size <$> d))
  | _ => 1%nat
  end.

Fixpoint all_ws (s : string) : bool :=
  match s with
  | EmptyString => true
  | String c s' => is_json_ws c && all_ws s'
  end.

(** The first character of the text of a value: no blank, no closing
    bracket. *)
Definition value_start (s : string) : bool :=
  match s with
  | String c _ => negb (is_json_ws c) && negb (Ascii.eqb c "]") && negb (Ascii.eqb c "}")
  | EmptyString => false
  end.

(** The first character of the text of a number: a digit or the sign. *)
Definition number_start (s : string) : bool :=
  match s with
  | String c _ => Ascii.eqb c "-" || match digit_val c with Some _ => true | None => false end
  | EmptyString => false
  end.

(** What [parse_value] has to do for a value [v]: read back its text at
    every depth, after any blanks and before any text that may follow a
    value, with fuel for twice the text. *)
Definition reads_back (v : pyval) : Prop :=
  forall (level : nat) (ws rest : string) (fuel : nat),
    all_ws ws = true -> after_value rest = true ->
    (2 * String.length (ws +:+ json_encode level v +:+ rest) < fuel)%nat ->
    parse_value fuel (ws +:+ json_encode level v +:+ rest) = Some (v, rest).

Definition encode_item (lv : nat) (kv : string * pyval) : string :=
  json_string (fst kv) +:+ ": " +:+ json_encode lv (snd kv).

(** *** The message of a notification

    Under the default policy of [email.message] a header is refused when
    [splitlines()] cuts its value in more than one line.  The ASCII
    characters that end a line are LF, VT, FF, CR, FS, GS and RS, and CR LF
    ends one line; a value has more than one line when text follows the
    first of them.  The instance goes no further into the library: a
    header of one line is accepted as it is, which is what the library does
    for a subject and for addresses of the form [name@domain]. *)

Definition is_line_break (c : ascii) : bool :=
  ((10 <=? code c) && (code c <=? 13) || (28 <=? code c) && (code c <=? 30))%nat.

(** [len(s.splitlines()) > 1] *)
Fixpoint several_lines (s : string) : bool :=
  match s with
  | EmptyString => false
  | String c rest =>
      if is_line_break c then
        match rest with
        | EmptyString => false
        | String c' rest' =>
            if ((code c =? 13) && (code c' =? 10))%nat
            then nonempty rest'
            else true
        end
      else several_lines rest
  end.

Definition header_error : exn :=
  ValueError "Header values may not contain linefeed or carriage return characters".

Definition message (subject sender recipients body : string) : result EmailMessage :=
  if several_lines subject then Raise header_error
  else if several_lines sender then Raise header_error
  else if several_lines recipients then Raise header_error
  else Ok {| Subject := subject; From := sender; To := recipients; content := body |}.

Definition lib : PyLib := {|
  str_lower := lower;
  str_strip := strip;
  str_split_comma := split_comma;
  py_repr := repr;
  int_of_str := int_of_string;
  json_load := loads;
  json_dumps := dumps;
  email_message := message
|}.

End Ascii_lib.

(** ** A deployment to run the script on

    Settings, networks, targets and the files of a first run, for the
    examples and the witnesses. *)

Module Example.

Definition settings : Settings := {|
  MONITOR_CONFIG_FILE := "monitor_targets.json";
  MONITOR_STATE_FILE := "monitor_state.json";
  SMTP_HOST := "smtp.example.org";
  SMTP_PORT := 587;
  SMTP_USER := "monitor";
  SMTP_PASS := "secret";
  EMAIL_FROM := "monitor@example.org";
  SMTP_USE_TLS := true
|}.

Definition page : string := "<p>Produit en Rupture De Stock</p>".

(** Every page is [page] and every mail is delivered. *)
Definition online : Network := {|
  urlopen_read := fun _ _ => Ok page;
  smtp_send_message := fun _ _ => None
|}.

(** Every request times out and every SMTP session fails. *)
Definition offline : Network := {|
  urlopen_read := fun _ _ => Raise (Exn "URLError" "timed out");
  smtp_send_message := fun _ _ => Some (Exn "SMTPException" "connection refused")
|}.


Definition daily_target : Target := {|
  target_id := "console";
  target_name := "Console";
  url := "https://shop.example.org/console";
  out_of_stock_terms := ["rupture de stock"];
  schedule := Daily "09:00" 540;
  emails_on_out_of_stock := [];
  emails_on_in_stock := ["alice@example.org"];
  notify_on_same_state := false
|}.

Definition hourly_target : Target := {|
  target_id := "card";
  target_name := "Card";
  url := "https://shop.example.org/card";
  out_of_stock_terms := ["rupture de stock"; "epuise"];
  schedule := Hourly 3600;
  emails_on_out_of_stock := ["bob@example.org"];
  emails_on_in_stock := ["alice@example.org"; "bob@example.org"];
  notify_on_same_state := false
|}.

(** The configuration file that [load_monitor_config] reads the two
    targets from. *)
Definition config_value : pyval :=
  PDict {[
    "targets" := PList [
      PDict {[
        "id" := PStr "console";
        "name" := PStr "Console";
        "url" := PStr "https://shop.example.org/console";
        "out_of_stock_terms" := PList [PStr "rupture de stock"];
        "schedule" := PDict {[ "mode" := PStr "daily"; "time" := PStr "09:00" ]};
        "emails_on_in_stock" := PStr "alice@example.org"
      ]};
      PDict {[
        "id" := PStr "card";
        "name" := PStr "Card";
        "url" := PStr "https://shop.example.org/card";
        "out_of_stock_terms" := PStr "rupture de stock, epuise";
        "emails_on_out_of_stock" := PList [PStr "bob@example.org"];
        "emails_on_in_stock" := PList [PStr "alice@example.org"; PStr " bob@example.org "]
      ]}
    ]
  ]}.

Definition config_text : string := Ascii_lib.dumps config_value.

(** A first run: the configuration file and no state file. *)
Definition first_run : World := {|
  files := {[ "monitor_targets.json" := config_text ]};
  trace := []
|}.

(** A run without a configuration file. *)
Definition no_config : World := {| files := ∅; trace := [] |}.

(** 2024-05-01 09:05:00.250000 on the local clock. *)
Definition morning : datetime.datetime := datetime.mk 2024 5 1 9 5 0 250000 None.

(** 18:00 on the same day, and 09:05 on the next. *)
Definition evening : datetime.datetime := datetime.mk 2024 5 1 18 0 0 0 None.
Definition next_morning : datetime.datetime := datetime.mk 2024 5 2 9 5 0 0 None.

(** A state with a marker from an earlier check. *)
Definition out_of_stock_state : gmap string pyval :=
  {[ "last_state" := PStr "out_of_stock";
     "last_marker" := PStr "rupture de stock";
     "last_check_at" := PStr "2024-04-30T09:00:00" ]}.

(** A target whose name holds a line feed, which [strip()] removes at the
    ends of a name only, and the files of a first run on a configuration
    with this target. *)
Definition line_feed_target : Target := {|
  target_id := "card";
  target_name := "Card" +:+ newline +:+ "v2";
  url := "https://shop.example.org/card";
  out_of_stock_terms := ["rupture de stock"];
  schedule := Hourly 3600;
  emails_on_out_of_stock := ["bob@example.org"];
  emails_on_in_stock := [];
  notify_on_same_state := false
|}.

Definition line_feed_config : pyval :=
  PDict {[
    "targets" := PList [
      PDict {[
        "id" := PStr "card";
        "name" := PStr ("Card" +:+ newline +:+ "v2");
        "url" := PStr "https://shop.example.org/card";
        "out_of_stock_terms" := PStr "rupture de stock";
        "emails_on_out_of_stock" := PStr "bob@example.org"
      ]}
    ]
  ]}.

Definition line_feed_run : World := {|
  files := {[ "monitor_targets.json" := Ascii_lib.dumps line_feed_config ]};
  trace := []
|}.

(** A target to check every 20000000000 seconds, some 634 years. *)
Definition long_interval_target : Target := {|
  target_id := "archive";
  target_name := "Archive";
  url := "https://shop.example.org/archive";
  out_of_stock_terms := ["epuise"];
  schedule := Hourly 20000000000;
  emails_on_out_of_stock := [];
  emails_on_in_stock := [];
  notify_on_same_state := false
|}.

End Example.

(** * Proofs *)

(** ** Strings and decimal digits *)

Lemma append_cons (x : ascii) (a b : string) : String x a +:+ b = String x (a +:+ b).
Proof. reflexivity. Qed.

Lemma append_nil_l (a : string) : EmptyString +:+ a = a.
Proof. reflexivity. Qed.

Lemma append_assoc (a b c : string) : (a +:+ b) +:+ c = a +:+ (b +:+ c).
Proof. induction a as [|x a IH]; [reflexivity|]. rewrite !append_cons. now rewrite IH. Qed.

Lemma append_nil_r (a : string) : a +:+ EmptyString = a.
Proof. induction a as [|x a IH]; [reflexivity|]. rewrite append_cons. now rewrite IH. Qed.

Lemma length_append (a b : string) :
  String.length (a +:+ b) = (String.length a + String.length b)%nat.
Proof. induction a as [|x a IH]; [reflexivity|]. simpl. now rewrite IH. Qed.

Lemma digit_cases (k : Z) :
  0 <= k < 10 ->
  k = 0 \/ k = 1 \/ k = 2 \/ k = 3 \/ k = 4 \/ k = 5 \/ k = 6 \/ k = 7 \/ k = 8 \/ k = 9.
Proof. lia. Qed.

Ltac each_digit k H :=
  destruct (digit_cases k H) as [->|[->|[->|[->|[->|[->|[->|[->|[->| ->]]]]]]]]].

Lemma digit_val_digit_char (k : Z) : 0 <= k < 10 -> digit_val (digit_char k) = Some k.
Proof. intros Hk. each_digit k Hk; reflexivity. Qed.

Lemma low_digits_app (w : nat) : forall n acc,
  low_digits w n acc = low_digits w n EmptyString +:+ acc.
Proof.
  induction w as [|w IH]; intros n acc; simpl; [reflexivity|].
  rewrite IH. rewrite (IH _ (String _ EmptyString)).
  now rewrite append_assoc.
Qed.

Lemma length_low_digits (w : nat) : forall n acc,
  String.length (low_digits w n acc) = (w + String.length acc)%nat.
Proof.
  induction w as [|w IH]; intros n acc; simpl; [reflexivity|].
  rewrite IH. simpl. lia.
Qed.

Lemma parse_digits_snoc (w : nat) : forall a s,
  parse_digits (S w) a s =
  match parse_digits w a s with
  | Some (a', String c r) =>
      match digit_val c with
      | Some d => Some (a' * 10 + d, r)
      | None => None
      end
  | _ => None
  end.
Proof.
  induction w as [|w IH]; intros a s.
  - simpl. destruct s as [|c r]; [reflexivity|]. now destruct (digit_val c).
  - change (parse_digits (S (S w)) a s) with
      (match s with
       | String c s' =>
           match digit_val c with
           | Some d => parse_digits (S w) (a * 10 + d) s'
           | None => None
           end
       | EmptyString => None
       end).
    destruct s as [|c s']; [reflexivity|].
    simpl (parse_digits (S w) a (String c s')).
    destruct (digit_val c) as [d|]; [|reflexivity].
    apply IH.
Qed.

Lemma parse_digits_low_digits (w : nat) : forall n a rest,
  0 <= n < 10 ^ Z.of_nat w ->
  parse_digits w a (low_digits w n rest) = Some (a * 10 ^ Z.of_nat w + n, rest).
Proof.
  induction w as [|w IH]; intros n a rest Hn.
  - simpl in *. f_equal. f_equal. lia.
  - rewrite parse_digits_snoc.
    cbn [low_digits].
    rewrite Nat2Z.inj_succ, Z.pow_succ_r in * by lia.
    rewrite IH by (split; [apply Z.div_pos; lia | apply Z.div_lt_upper_bound; lia]).
    rewrite digit_val_digit_char by (apply Z.mod_pos_bound; lia).
    f_equal. f_equal.
    pose proof (Z.div_mod n 10). lia.
Qed.

Lemma format_d_low_digits (w : nat) (n : Z) :
  n < 10 ^ Z.of_nat w -> format_d w n = low_digits w n EmptyString.
Proof. intros Hn. unfold format_d. now rewrite (proj2 (Z.ltb_lt _ _) Hn). Qed.

Lemma parse_digits_format_d (w : nat) (n : Z) (rest : string) :
  0 <= n < 10 ^ Z.of_nat w ->
  parse_digits w 0 (format_d w n +:+ rest) = Some (n, rest).
Proof.
  intros Hn. rewrite format_d_low_digits by lia.
  rewrite <- low_digits_app. now rewrite parse_digits_low_digits.
Qed.

(** ** [isoformat] and [fromisoformat] *)

Section Datetime_facts.
Import datetime.

Lemma split_at_sign_none (s : string) : has_sign s = false -> split_at_sign s = (s, None).
Proof.
  induction s as [|c s IH]; simpl; [reflexivity|].
  intros [Hc Hs]%orb_false_iff. rewrite Hc, (IH Hs). reflexivity.
Qed.

Lemma split_at_sign_some (a : string) (c : ascii) (b : string) :
  has_sign a = false -> is_sign c = true ->
  split_at_sign (a +:+ String c b) = (a, Some (c, b)).
Proof.
  intros Ha Hc. induction a as [|x a IH].
  - simpl. now rewrite Hc.
  - simpl in Ha. apply orb_false_iff in Ha as [Hx Ha].
    rewrite append_cons. simpl. rewrite Hx, (IH Ha). reflexivity.
Qed.

Lemma is_sign_digit_char (k : Z) : 0 <= k < 10 -> is_sign (digit_char k) = false.
Proof. intros Hk. each_digit k Hk; reflexivity. Qed.

Lemma has_sign_low_digits (w : nat) : forall n acc,
  has_sign (low_digits w n acc) = has_sign acc.
Proof.
  induction w as [|w IH]; intros n acc; simpl; [reflexivity|].
  rewrite IH. cbn [has_sign]. rewrite is_sign_digit_char; [reflexivity|].
  apply Z.mod_pos_bound; lia.
Qed.

Lemma has_sign_append (a b : string) : has_sign (a +:+ b) = has_sign a || has_sign b.
Proof.
  induction a as [|x a IH]; [reflexivity|].
  rewrite append_cons. simpl. rewrite IH. now rewrite orb_assoc.
Qed.

Lemma has_sign_format_d (w : nat) (n : Z) :
  n < 10 ^ Z.of_nat w -> has_sign (format_d w n) = false.
Proof. intros Hn. rewrite format_d_low_digits by lia. apply has_sign_low_digits. Qed.

(** The three shapes of a time of day or of an offset. *)
Lemma parse_hh_mm (h m : Z) :
  0 <= h < 100 -> 0 <= m < 100 ->
  parse_hh_mm_ss_ff (format_d 2 h +:+ ":" +:+ format_d 2 m) = Some (h, m, 0, 0).
Proof.
  intros Hh Hm. unfold parse_hh_mm_ss_ff.
  rewrite parse_digits_format_d by (simpl; lia).
  rewrite append_cons, append_nil_l. simpl (negb _).
  cbv iota.
  rewrite <- (append_nil_r (format_d 2 m)).
  rewrite parse_digits_format_d by (simpl; lia).
  reflexivity.
Qed.

Lemma parse_hh_mm_ss (h m s : Z) :
  0 <= h < 100 -> 0 <= m < 100 -> 0 <= s < 100 ->
  parse_hh_mm_ss_ff (format_d 2 h +:+ ":" +:+ format_d 2 m +:+ ":" +:+ format_d 2 s)
  = Some (h, m, s, 0).
Proof.
  intros Hh Hm Hs. unfold parse_hh_mm_ss_ff.
  rewrite parse_digits_format_d by (simpl; lia).
  rewrite append_cons, append_nil_l. simpl (negb _). cbv iota.
  rewrite parse_digits_format_d by (simpl; lia).
  rewrite append_cons, append_nil_l. simpl (negb _). cbv iota.
  rewrite <- (append_nil_r (format_d 2 s)).
  rewrite parse_digits_format_d by (simpl; lia).
  reflexivity.
Qed.

Lemma parse_hh_mm_ss_ffffff (h m s us : Z) :
  0 <= h < 100 -> 0 <= m < 100 -> 0 <= s < 100 -> 0 <= us < 1000000 ->
  parse_hh_mm_ss_ff
    (format_d 2 h +:+ ":" +:+ format_d 2 m +:+ ":" +:+ format_d 2 s +:+ "." +:+ format_d 6 us)
  = Some (h, m, s, us).
Proof.
  intros Hh Hm Hs Hus. unfold parse_hh_mm_ss_ff.
  rewrite parse_digits_format_d by (simpl; lia).
  rewrite append_cons, append_nil_l. simpl (negb _). cbv iota.
  rewrite parse_digits_format_d by (simpl; lia).
  rewrite append_cons, append_nil_l. simpl (negb _). cbv iota.
  rewrite parse_digits_format_d by (simpl; lia).
  rewrite append_cons, append_nil_l. simpl (negb _). cbv iota.
  unfold parse_fraction.
  rewrite (format_d_low_digits 6) by (simpl; lia).
  rewrite length_low_digits. simpl (_ =? _)%nat. cbv iota.
  rewrite parse_digits_low_digits by (simpl; lia).
  reflexivity.
Qed.

Lemma parse_offset (o : Z) :
  - day_microseconds < o < day_microseconds ->
  exists sign tzstr,
    format_offset (Some o) = String sign tzstr
    /\ is_sign sign = true
    /\ (let n := String.length tzstr in ((n =? 5) || (n =? 8) || (n =? 15))%nat = true)
    /\ exists th tm ts tus,
         parse_hh_mm_ss_ff tzstr = Some (th, tm, ts, tus)
         /\ (if Ascii.eqb sign "-"
             then - ((th * 3600 + tm * 60 + ts) * 1000000 + tus)
             else (th * 3600 + tm * 60 + ts) * 1000000 + tus) = o.
Proof.
  unfold day_microseconds. intros Ho.
  unfold format_offset.
  set (a := Z.abs o).
  assert (Ha : 0 <= a < 86400000000) by (unfold a; lia).
  set (hh := a / 3600000000).
  set (r1 := a mod 3600000000).
  set (mm := r1 / 60000000).
  set (r2 := r1 mod 60000000).
  set (ss := r2 / 1000000).
  set (us := r2 mod 1000000).
  pose proof (Z.div_mod a 3600000000 ltac:(lia)) as E1.
  pose proof (Z.mod_pos_bound a 3600000000 ltac:(lia)) as B1.
  pose proof (Z.div_mod r1 60000000 ltac:(lia)) as E2.
  pose proof (Z.mod_pos_bound r1 60000000 ltac:(lia)) as B2.
  pose proof (Z.div_mod r2 1000000 ltac:(lia)) as E3.
  pose proof (Z.mod_pos_bound r2 1000000 ltac:(lia)) as B3.
  fold hh r1 in E1. fold r1 in B1. fold mm r2 in E2. fold r2 in B2.
  fold ss us in E3. fold us in B3.
  assert (Hhh : 0 <= hh < 24) by lia.
  assert (Hmm : 0 <= mm < 60) by lia.
  assert (Hss : 0 <= ss < 60) by lia.
  set (sign := if o <? 0 then "-"%char else "+"%char).
  assert (Hsign : is_sign sign = true) by (unfold sign; destruct (o <? 0); reflexivity).
  assert (Hval : forall th tm ts tus, (th * 3600 + tm * 60 + ts) * 1000000 + tus = a ->
            (if Ascii.eqb sign "-"
             then - ((th * 3600 + tm * 60 + ts) * 1000000 + tus)
             else (th * 3600 + tm * 60 + ts) * 1000000 + tus) = o).
  { intros th tm ts tus ->. unfold sign, a. destruct (Z.ltb_spec o 0); simpl; lia. }
  exists sign.
  eexists. split.
  { unfold sign. destruct (o <? 0); rewrite append_cons, append_nil_l; reflexivity. }
  split; [exact Hsign|].
  destruct (Z.eqb_spec r2 0) as [Hr2|Hr2].
  - rewrite append_nil_r. split.
    + cbn zeta. rewrite !length_append, !(format_d_low_digits 2) by (simpl; lia).
      rewrite !length_low_digits. reflexivity.
    + exists hh, mm, 0, 0. split; [apply parse_hh_mm; lia|].
      apply Hval. lia.
  - destruct (Z.eqb_spec us 0) as [Hus|Hus].
    + rewrite append_nil_r. split.
      * cbn zeta. rewrite !length_append, !(format_d_low_digits 2) by (simpl; lia).
        rewrite !length_low_digits. reflexivity.
      * exists hh, mm, ss, 0. split; [apply parse_hh_mm_ss; lia|].
        apply Hval. lia.
    + split.
      * cbn zeta. rewrite !length_append, !(format_d_low_digits 2) by (simpl; lia).
        rewrite (format_d_low_digits 6) by (simpl; lia).
        rewrite !length_low_digits. reflexivity.
      * exists hh, mm, ss, us. split; [apply parse_hh_mm_ss_ffffff; lia|].
        apply Hval. lia.
Qed.

Lemma parse_isoformat_time_format (h mi s : Z) (off : option Z) :
  0 <= h < 100 -> 0 <= mi < 100 -> 0 <= s < 100 -> valid_offset off = true ->
  parse_isoformat_time
    (format_d 2 h +:+ ":" +:+ format_d 2 mi +:+ ":" +:+ format_d 2 s +:+ format_offset off)
  = Some (h, mi, s, 0, off).
Proof.
  intros Hh Hmi Hs Hoff.
  assert (Hns : has_sign (format_d 2 h +:+ ":" +:+ format_d 2 mi +:+ ":" +:+ format_d 2 s) = false).
  { rewrite !has_sign_append, !has_sign_format_d by (simpl; lia). reflexivity. }
  unfold parse_isoformat_time.
  destruct off as [o|].
  - apply andb_true_iff in Hoff as [H1%Z.ltb_lt H2%Z.ltb_lt].
    destruct (parse_offset o (conj H1 H2))
      as (sign & tzstr & -> & Hsign & Hlen & th & tm & ts & tus & Hp & Ho).
    replace (format_d 2 h +:+ ":" +:+ format_d 2 mi +:+ ":" +:+ format_d 2 s +:+ String sign tzstr)
      with ((format_d 2 h +:+ ":" +:+ format_d 2 mi +:+ ":" +:+ format_d 2 s) +:+ String sign tzstr)
      by (now rewrite !append_assoc).
    rewrite split_at_sign_some by assumption.
    rewrite parse_hh_mm_ss by lia.
    cbn zeta in Hlen. rewrite Hlen. simpl negb. cbv iota.
    rewrite Hp, Ho. reflexivity.
  - simpl format_offset. rewrite append_nil_r.
    rewrite split_at_sign_none by assumption.
    rewrite parse_hh_mm_ss by lia. reflexivity.
Qed.

Lemma valid_truncate_seconds (d : datetime) : valid d = true -> valid (truncate_seconds d) = true.
Proof.
  destruct d as [y m dd h mi s us off]. unfold valid, truncate_seconds.
  cbn [year month day hour minute second microsecond utcoffset].
  rewrite !andb_true_iff. intuition.
Qed.

Lemma valid_bounds (d : datetime) :
  valid d = true ->
  1 <= year d <= 9999 /\ 1 <= month d <= 12 /\ 1 <= day d <= days_in_month (year d) (month d)
  /\ 0 <= hour d <= 23 /\ 0 <= minute d <= 59 /\ 0 <= second d <= 59
  /\ 0 <= microsecond d <= 999999 /\ valid_offset (utcoffset d) = true.
Proof.
  unfold valid. rewrite !andb_true_iff, !Z.leb_le. tauto.
Qed.

Lemma days_in_month_bound (y m : Z) : days_in_month y m <= 31.
Proof.
  unfold days_in_month. destruct ((m =? 2) && is_leap y); [lia|].
  destruct (Z.to_nat m) as [|[|[|[|[|[|[|[|[|[|[|[|[|[|k]]]]]]]]]]]]]]; simpl; try lia.
Qed.

(** Reading back what [isoformat] printed gives the datetime to the second. *)
Lemma fromisoformat_isoformat_seconds (d : datetime) :
  valid d = true ->
  fromisoformat (isoformat_seconds d) = Some (truncate_seconds d).
Proof.
  intros Hv. pose proof (valid_truncate_seconds d Hv) as Hvt.
  pose proof (days_in_month_bound (year d) (month d)) as Hdim.
  apply valid_bounds in Hv as (Hy & Hm & Hd & Hh & Hmi & Hs & Hus & Hoff).
  unfold fromisoformat, isoformat_seconds, parse_isoformat_date.
  rewrite parse_digits_format_d by (simpl; lia).
  rewrite append_cons, append_nil_l. simpl negb. cbv iota.
  rewrite parse_digits_format_d by (simpl; lia).
  rewrite append_cons, append_nil_l. simpl negb. cbv iota.
  rewrite parse_digits_format_d by (simpl; lia).
  rewrite append_cons, append_nil_l.
  rewrite parse_isoformat_time_format by (assumption || lia).
  fold (truncate_seconds d). now rewrite Hvt.
Qed.

Lemma date_ltb_irrefl (a : Z * Z * Z) : datetime.date_ltb a a = false.
Proof.
  destruct a as [[y m] d]. unfold datetime.date_ltb.
  rewrite !Z.ltb_irrefl, !Z.eqb_refl. reflexivity.
Qed.

Lemma date_ltb_spec (y1 m1 d1 y2 m2 d2 : Z) :
  datetime.date_ltb (y1, m1, d1) (y2, m2, d2) = true
  <-> y1 < y2 \/ (y1 = y2 /\ (m1 < m2 \/ (m1 = m2 /\ d1 < d2))).
Proof.
  unfold datetime.date_ltb.
  rewrite !orb_true_iff, !andb_true_iff, !orb_true_iff, !andb_true_iff,
    !Z.ltb_lt, !Z.eqb_eq. tauto.
Qed.

Lemma days_before_year_succ (y : Z) :
  days_before_year (y + 1) = days_before_year y + year_length y.
Proof.
  unfold days_before_year, year_length, is_leap. cbn zeta.
  replace (y + 1 - 1) with y by lia.
  destruct (Z.eqb_spec (y mod 4) 0) as [H4|H4];
    destruct (Z.eqb_spec (y mod 100) 0) as [H100|H100];
    destruct (Z.eqb_spec (y mod 400) 0) as [H400|H400];
    cbn [negb orb andb];
    Z.div_mod_to_equations; lia.
Qed.

Lemma year_length_pos (y : Z) : 365 <= year_length y.
Proof. unfold year_length. destruct (is_leap y); lia. Qed.

Lemma days_before_year_mono (y1 y2 : Z) :
  y1 < y2 -> days_before_year y1 + year_length y1 <= days_before_year y2.
Proof.
  intros Hlt. replace y2 with (y1 + 1 + (y2 - y1 - 1)) by lia.
  assert (Hk : 0 <= y2 - y1 - 1) by lia. revert Hk.
  generalize (y2 - y1 - 1) as k. intros k Hk. pattern k.
  apply natlike_ind; [| |exact Hk].
  - rewrite Z.add_0_r, days_before_year_succ. lia.
  - intros x Hx IH. replace (y1 + 1 + Z.succ x) with ((y1 + 1 + x) + 1) by lia.
    rewrite days_before_year_succ. pose proof (year_length_pos (y1 + 1 + x)). lia.
Qed.

Lemma month_cases (m : Z) :
  1 <= m <= 12 ->
  m = 1 \/ m = 2 \/ m = 3 \/ m = 4 \/ m = 5 \/ m = 6
  \/ m = 7 \/ m = 8 \/ m = 9 \/ m = 10 \/ m = 11 \/ m = 12.
Proof. lia. Qed.

Ltac each_month m H :=
  destruct (month_cases m H) as [->|[->|[->|[->|[->|[->|[->|[->|[->|[->|[->| ->]]]]]]]]]]].

(** The days of a month end where the next month begins. *)
Lemma days_before_month_next (y m : Z) :
  1 <= m <= 12 ->
  days_before_month y m + days_in_month y m
  = if m =? 12 then year_length y else days_before_month y (m + 1).
Proof.
  intros Hm. unfold days_before_month, days_in_month, year_length.
  each_month m Hm; destruct (is_leap y); reflexivity.
Qed.

Lemma days_before_month_mono (y m1 m2 : Z) :
  1 <= m1 -> m1 < m2 -> m2 <= 12 ->
  days_before_month y m1 + days_in_month y m1 <= days_before_month y m2.
Proof.
  intros H1 Hlt H2. unfold days_before_month, days_in_month.
  assert (Hm1 : 1 <= m1 <= 12) by lia. assert (Hm2 : 1 <= m2 <= 12) by lia.
  each_month m1 Hm1; each_month m2 Hm2; try lia; destruct (is_leap y); simpl; lia.
Qed.

Lemma day_of_year_bounds (y m d : Z) :
  1 <= m <= 12 -> 1 <= d <= days_in_month y m ->
  1 <= days_before_month y m + d <= year_length y.
Proof.
  intros Hm Hd. pose proof (days_before_month_next y m Hm) as Hn.
  assert (0 <= days_before_month y m).
  { unfold days_before_month. each_month m Hm; destruct (is_leap y); simpl; lia. }
  assert (days_before_month y m + days_in_month y m <= year_length y).
  { rewrite Hn. destruct (Z.eqb_spec m 12); [lia|].
    unfold days_before_month, year_length.
    each_month m Hm; try lia; destruct (is_leap y); simpl; lia. }
  lia.
Qed.

(** The order of the dates is the order of the days: an earlier date is an
    earlier day of the calendar. *)
Lemma date_ltb_toordinal (a b : datetime) :
  valid a = true -> valid b = true ->
  date_ltb (date a) (date b) = (toordinal a <? toordinal b).
Proof.
  intros Ha Hb.
  apply valid_bounds in Ha as (Hya & Hma & Hda & _).
  apply valid_bounds in Hb as (Hyb & Hmb & Hdb & _).
  pose proof (day_of_year_bounds _ _ _ Hma Hda) as Ba.
  pose proof (day_of_year_bounds _ _ _ Hmb Hdb) as Bb.
  unfold date, toordinal.
  apply eq_true_iff_eq. rewrite date_ltb_spec, Z.ltb_lt.
  destruct (Z.lt_trichotomy (year a) (year b)) as [Hy | [Hy | Hy]].
  - pose proof (days_before_year_mono _ _ Hy). split; [lia | intros _; now left].
  - rewrite Hy in *.
    destruct (Z.lt_trichotomy (month a) (month b)) as [Hm | [Hm | Hm]].
    + pose proof (days_before_month_mono (year b) (month a) (month b)
                    ltac:(lia) Hm ltac:(lia)).
      split; [lia | intros _; right; split; [reflexivity | now left]].
    + rewrite Hm in *. split; lia.
    + pose proof (days_before_month_mono (year b) (month b) (month a)
                    ltac:(lia) Hm ltac:(lia)).
      split; lia.
  - pose proof (days_before_year_mono _ _ Hy). split; lia.
Qed.

Lemma fromisoformat_valid (s : string) (d : datetime) :
  fromisoformat s = Some d -> valid d = true.
Proof.
  unfold fromisoformat.
  destruct (parse_isoformat_date s) as [[[[y m] dd] rest]|]; [|discriminate].
  destruct (match rest with
            | EmptyString => Some (0, 0, 0, 0, None)
            | String _ tstr => parse_isoformat_time tstr
            end) as [[[[[hh mm] ss] us] off]|]; [|discriminate].
  destruct (valid _) eqn:Hv; [|discriminate].
  now intros [= <-].
Qed.

End Datetime_facts.

(** ** The classifier *)

Lemma starts_with_spec (p s : string) :
  starts_with p s = true <-> exists after, s = p +:+ after.
Proof.
  revert s. induction p as [|a p IH]; intros s.
  - split; [intros _; now exists s | reflexivity].
  - destruct s as [|b s]; simpl.
    + split; [discriminate | intros [after Ha]; discriminate].
    + rewrite andb_true_iff, IH. split.
      * intros [Hab%Ascii.eqb_eq [after ->]]. subst b. now exists after.
      * intros [after Ha]. rewrite append_cons in Ha. injection Ha as -> ->.
        split; [apply Ascii.eqb_refl | now exists after].
Qed.

Lemma str_contains_spec (needle hay : string) :
  str_contains needle hay = true <-> exists before after, hay = before +:+ needle +:+ after.
Proof.
  induction hay as [|c hay IH].
  - simpl. rewrite orb_false_r, starts_with_spec. split.
    + intros [after Ha]. now exists EmptyString, after.
    + intros ([|x before] & after & Ha); [now exists after | discriminate].
  - simpl. rewrite orb_true_iff, starts_with_spec, IH. split.
    + intros [[after Ha] | (before & after & Ha)].
      * now exists EmptyString, after.
      * exists (String c before), after. now rewrite Ha.
    + intros ([|x before] & after & Ha).
      * left. now exists after.
      * right. rewrite append_cons in Ha. injection Ha as -> ->. now exists before, after.
Qed.

Section Classifier.
Context `{PyLib}.

Lemma occurs_in_spec (term content : string) :
  str_contains (str_lower term) (str_lower content) = true <-> occurs_in term content.
Proof. apply str_contains_spec. Qed.

Lemma detect_stock_state_cons (html marker : string) (rest : list string) :
  detect_stock_state html (marker :: rest) =
  if str_contains (str_lower marker) (str_lower html)
  then ("out_of_stock", marker)
  else detect_stock_state html rest.
Proof. reflexivity. Qed.

Lemma detect_stock_state_cases (html : string) (terms : list string) :
  (exists before marker after,
      terms = before ++ marker :: after
      /\ (forall t, In t before -> ~ occurs_in t html)
      /\ occurs_in marker html
      /\ detect_stock_state html terms = ("out_of_stock", marker))
  \/ ((forall t, In t terms -> ~ occurs_in t html)
      /\ detect_stock_state html terms = ("in_stock", EmptyString)).
Proof.
  induction terms as [|t terms IH].
  - right. split; [intros t [] | reflexivity].
  - rewrite detect_stock_state_cons.
    destruct (str_contains (str_lower t) (str_lower html)) eqn:Ht.
    + left. exists [], t, terms. repeat split.
      * intros u [].
      * now apply occurs_in_spec.
    + assert (Hnot : ~ occurs_in t html).
      { intros Ho%occurs_in_spec. congruence. }
      destruct IH as [(before & marker & after & -> & Hb & Hm & Hd) | [Hall Hd]].
      * left. exists (t :: before), marker, after. repeat split; try assumption.
        intros u [<- | Hu]; [assumption | now apply Hb].
      * right. split; [|assumption].
        intros u [<- | Hu]; [assumption | now apply Hall].
Qed.

End Classifier.

(** C3.  [detect_stock_state] searches the lowered content for the lowered
    terms in the order of the list: the result is [out_of_stock] with the
    first term of the list that occurs in the content, in the casing of the
    configuration, whatever terms come after it and wherever they stand in
    the text; it is [in_stock] with an empty marker when no term occurs.
    The four runs on ASCII text show the match despite the casing, the first
    term of the list winning over the first term of the text, a later term
    matching alone, and no match. *)
Theorem detect_stock_state_first_term_in_list_order :
  (forall (L : PyLib) (html : string) (terms : list string),
      (exists before marker after,
          terms = before ++ marker :: after
          /\ (forall t, In t before -> ~ occurs_in t html)
          /\ occurs_in marker html
          /\ detect_stock_state html terms = ("out_of_stock", marker))
      \/ ((forall t, In t terms -> ~ occurs_in t html)
          /\ detect_stock_state html terms = ("in_stock", EmptyString)))
  /\ @detect_stock_state Ascii_lib.lib
       "<p>Produit en Rupture De Stock</p>" ["rupture de stock"]
     = ("out_of_stock", "rupture de stock")
  /\ @detect_stock_state Ascii_lib.lib
       "<b>Epuise</b> ... <i>Rupture</i>" ["RUPTURE"; "epuise"]
     = ("out_of_stock", "RUPTURE")
  /\ @detect_stock_state Ascii_lib.lib
       "<b>Epuise</b>" ["RUPTURE"; "epuise"]
     = ("out_of_stock", "epuise")
  /\ @detect_stock_state Ascii_lib.lib
       "<b>Disponible</b>" ["RUPTURE"; "epuise"]
     = ("in_stock", EmptyString).
Proof.
  split; [intros L html terms; apply detect_stock_state_cases|].
  repeat split; vm_compute; reflexivity.
Qed.

(** ** The float of the elapsed time *)

Lemma round_half_even_ge (p q k : Z) :
  0 < q -> k * q <= p -> k <= round_half_even p q.
Proof.
  intros Hq Hk. unfold round_half_even.
  assert (Hfl : k <= p / q) by (apply Z.div_le_lower_bound; lia).
  destruct (_ <? _); [exact Hfl|].
  destruct (_ <? _); [lia|]. destruct (Z.even _); lia.
Qed.

Lemma round_half_even_lt (p q k : Z) :
  0 < q -> 2 * p < (2 * k - 1) * q -> round_half_even p q < k.
Proof.
  intros Hq Hk. unfold round_half_even.
  pose proof (Z.div_mod p q ltac:(lia)) as Hdm.
  pose proof (Z.mod_pos_bound p q Hq) as Hr.
  destruct (Z.ltb_spec (2 * (p mod q)) q) as [Hlow | Hhigh]; [nia|].
  assert (p / q + 1 < k) by nia.
  destruct (_ <? _); [lia|]. destruct (Z.even _); lia.
Qed.

(** The exponent that [round_ratio] chooses leaves a quotient of at least
    [2 ^ 52]. *)
Lemma round_ratio_spec (a d : Z) :
  0 < a -> 0 < d ->
  exists p q,
    scaled a d (exponent (round_ratio a d)) = (p, q)
    /\ 0 < q /\ 2 ^ 52 * q <= p
    /\ mantissa (round_ratio a d) = round_half_even p q.
Proof.
  intros Ha Hd.
  pose proof (Z.log2_spec a Ha) as [Hla1 Hla2].
  pose proof (Z.log2_spec d Hd) as [Hld1 Hld2].
  pose proof (Z.log2_nonneg a) as Hla0. pose proof (Z.log2_nonneg d) as Hld0.
  set (la := Z.log2 a) in *. set (ld := Z.log2 d) in *.
  assert (Hfirst : forall p1 q1, scaled a d (la - ld - 53) = (p1, q1) ->
                                 0 < q1 /\ 2 ^ 52 * q1 <= p1).
  { unfold scaled. intros p1 q1.
    destruct (Z.leb_spec 0 (la - ld - 53)) as [He | He]; intros [= <- <-].
    - assert (0 < 2 ^ (la - ld - 53)) by (apply Z.pow_pos_nonneg; lia).
      split; [nia|].
      replace la with (52 + (Z.succ ld + (la - ld - 53))) in Hla1 by lia.
      rewrite !Z.pow_add_r in Hla1 by lia. nia.
    - split; [exact Hd|].
      assert (0 < 2 ^ (- (la - ld - 53))) by (apply Z.pow_pos_nonneg; lia).
      assert (Hp : 2 ^ la * 2 ^ (- (la - ld - 53)) = 2 ^ 52 * 2 ^ Z.succ ld).
      { rewrite <- !Z.pow_add_r by lia. f_equal. lia. }
      nia. }
  unfold round_ratio. fold la ld.
  destruct (scaled a d (la - ld - 53)) as [p1 q1] eqn:Hs1.
  destruct (Hfirst p1 q1 eq_refl) as [Hq1 Hp1].
  destruct (Z.leb_spec (2 ^ 53 * q1) p1) as [Hbig | Hsmall].
  - destruct (scaled a d (la - ld - 53 + 1)) as [p q] eqn:Hs.
    cbn [mantissa exponent]. exists p, q. split; [exact Hs|].
    split; [|split; [|reflexivity]];
      revert Hs Hs1; unfold scaled;
      destruct (Z.leb_spec 0 (la - ld - 53)) as [He | He];
      destruct (Z.leb_spec 0 (la - ld - 53 + 1)) as [He' | He']; try lia;
      intros [= <- <-] [= <- <-].
    + assert (0 < 2 ^ (la - ld - 53 + 1)) by (apply Z.pow_pos_nonneg; lia). nia.
    + assert (0 < 2 ^ (la - ld - 53 + 1)) by (apply Z.pow_pos_nonneg; lia). nia.
    + exact Hd.
    + rewrite Z.pow_add_r by lia. change (2 ^ 1) with 2. nia.
    + replace (la - ld - 53 + 1) with 0 by lia.
      replace (- (la - ld - 53)) with 1 in Hbig by lia.
      change (2 ^ 0) with 1. change (2 ^ 1) with 2 in Hbig. lia.
    + replace (- (la - ld - 53)) with (1 + - (la - ld - 53 + 1)) in Hbig by lia.
      rewrite Z.pow_add_r in Hbig by lia. change (2 ^ 1) with 2 in Hbig. lia.
  - rewrite Hs1. cbn [mantissa exponent]. exists p1, q1. now repeat split.
Qed.

Lemma mantissa_round_ratio (a d : Z) :
  0 < a -> 0 < d -> 2 ^ 52 <= mantissa (round_ratio a d).
Proof.
  intros Ha Hd. destruct (round_ratio_spec a d Ha Hd) as (p & q & _ & Hq & Hp & ->).
  now apply round_half_even_ge.
Qed.

(** For an interval of at most [2 ^ 34] seconds the float comparison
    decides what the comparison of the microseconds with the interval
    decides. *)
Lemma total_seconds_ge (elapsed interval_seconds : Z) :
  0 < interval_seconds <= 2 ^ 34 ->
  float_ge_int (datetime.total_seconds elapsed) interval_seconds
  = (interval_seconds * 1000000 <=? elapsed).
Proof.
  intros [Hn1 Hn2]. unfold datetime.total_seconds, true_divide.
  destruct (Z.eqb_spec elapsed 0) as [-> | Hne].
  - unfold float_ge_int. cbn [exponent mantissa]. cbn [Z.leb Z.compare Z.pow Z.mul].
    symmetry. rewrite Z.mul_0_l. destruct (Z.leb_spec interval_seconds 0); [lia|].
    apply Z.leb_gt. lia.
  - destruct (Z.ltb_spec 0 elapsed) as [Hpos | Hneg].
    + destruct (round_ratio_spec elapsed 1000000 Hpos ltac:(lia))
        as (p & q & Hs & Hq & Hp & Hm).
      unfold float_ge_int. rewrite Hm. revert Hs. unfold scaled.
      destruct (Z.leb_spec 0 (exponent (round_ratio elapsed 1000000))) as [He | He];
        intros [= <- <-].
      * assert (Hpow : 0 < 2 ^ exponent (round_ratio elapsed 1000000))
          by (apply Z.pow_pos_nonneg; lia).
        assert (H52 : 2 ^ 52 <= round_half_even elapsed
                                  (1000000 * 2 ^ exponent (round_ratio elapsed 1000000)))
          by (apply round_half_even_ge; [lia | exact Hp]).
        change (2 ^ 52) with 4503599627370496 in *.
        change (2 ^ 34) with 17179869184 in *.
        transitivity true; [apply Z.leb_le; nia | symmetry; apply Z.leb_le; nia].
      * set (P := 2 ^ (- exponent (round_ratio elapsed 1000000))) in *.
        assert (HP : 0 < P) by (apply Z.pow_pos_nonneg; lia).
        destruct (Z.leb_spec (interval_seconds * 1000000) elapsed) as [Hge | Hlt].
        -- apply Z.leb_le. apply round_half_even_ge; [lia | nia].
        -- apply Z.leb_gt. apply round_half_even_lt; [lia|].
           assert (HP19 : 2 ^ 19 <= P).
           { destruct (Z.le_gt_cases 19 (- exponent (round_ratio elapsed 1000000)))
               as [Hbig | Hsmall].
             - unfold P. apply Z.pow_le_mono_r; lia.
             - exfalso.
               assert (P <= 2 ^ 18) by (unfold P; apply Z.pow_le_mono_r; lia).
               change (2 ^ 52) with 4503599627370496 in *.
               change (2 ^ 34) with 17179869184 in *.
               change (2 ^ 18) with 262144 in *. nia. }
           change (2 ^ 19) with 524288 in HP19. nia.
    + assert (Hpos : 0 < - elapsed) by lia.
      pose proof (mantissa_round_ratio (- elapsed) 1000000 Hpos ltac:(lia)) as Hm.
      change (2 ^ 52) with 4503599627370496 in Hm.
      unfold float_ge_int. cbn [mantissa exponent].
      transitivity false; [|symmetry; apply Z.leb_gt; lia].
      destruct (Z.leb_spec 0 (exponent (round_ratio (- elapsed) 1000000))) as [He | He].
      * assert (0 < 2 ^ exponent (round_ratio (- elapsed) 1000000))
          by (apply Z.pow_pos_nonneg; lia).
        apply Z.leb_gt. nia.
      * assert (0 < 2 ^ (- exponent (round_ratio (- elapsed) 1000000)))
          by (apply Z.pow_pos_nonneg; lia).
        apply Z.leb_gt. nia.
Qed.

(** A float below an integer is below every larger one. *)
Lemma float_ge_int_mono (f : pyfloat) (k k' : Z) :
  k <= k' -> float_ge_int f k = false -> float_ge_int f k' = false.
Proof.
  intros Hk. unfold float_ge_int. destruct (Z.leb_spec 0 (exponent f)) as [He | He].
  - rewrite !Z.leb_gt. lia.
  - assert (0 < 2 ^ (- exponent f)) by (apply Z.pow_pos_nonneg; lia).
    rewrite !Z.leb_gt. nia.
Qed.
(** ** The check of one target *)

Lemma parse_iso_datetime_isoformat (d : datetime.datetime) :
  datetime.valid d = true ->
  parse_iso_datetime (PStr (datetime.isoformat_seconds d))
  = Some (datetime.truncate_seconds d).
Proof.
  intros Hv. pose proof (fromisoformat_isoformat_seconds d Hv) as Hr.
  unfold parse_iso_datetime.
  destruct (datetime.isoformat_seconds d) as [|c s]; [discriminate Hr | exact Hr].
Qed.

Lemma parse_iso_datetime_valid (v : pyval) (d : datetime.datetime) :
  parse_iso_datetime v = Some d -> datetime.valid d = true.
Proof.
  unfold parse_iso_datetime. destruct v; try discriminate.
  destruct (nonempty s); [apply fromisoformat_valid | discriminate].
Qed.

Lemma record_failure_last_check_at (st : gmap string pyval) (now : datetime.datetime) :
  dict_get (record_failure st now) "last_check_at" = PStr (datetime.isoformat_seconds now).
Proof. unfold dict_get, record_failure. now rewrite lookup_insert_eq. Qed.

Lemma record_check_last_check_at (st : gmap string pyval) (cur marker : string)
    (now : datetime.datetime) :
  dict_get (record_check st cur marker now) "last_check_at"
  = PStr (datetime.isoformat_seconds now).
Proof. unfold dict_get, record_check. now rewrite lookup_insert_eq. Qed.

Section Check.
Context `{PyLib} `{Settings} `{Network}.

Lemma length_snoc {A} (l : list A) (x : A) : length (l ++ [x]) = S (length l).
Proof. rewrite length_app. simpl. lia. Qed.

(** *** Running the monad *)

Lemma bind_run {A B} (m : M A) (k : A -> M B) (w w' : World) (a : A) :
  m w = (Ok a, w') -> bind m k w = k a w'.
Proof. intros Hm. unfold bind. now rewrite Hm. Qed.

Lemma bind_ret {A B} (a : A) (k : A -> M B) (w : World) : bind (ret a) k w = k a w.
Proof. reflexivity. Qed.

Lemma bind_lift_ok {A B} (a : A) (k : A -> M B) (w : World) : bind (lift (Ok a)) k w = k a w.
Proof. reflexivity. Qed.

Lemma bind_log {B} (message : string) (k : unit -> M B) (w : World) :
  bind (log message) k w = k tt (after_events w [EvLog message]).
Proof. reflexivity. Qed.

Lemma bind_assoc {A B C} (m : M A) (f : A -> M B) (k : B -> M C) (w : World) :
  bind (bind m f) k w = bind m (fun a => bind (f a) k) w.
Proof. unfold bind. destruct (m w) as [[a|e] w']; reflexivity. Qed.

Lemma after_events_app (w : World) (e1 e2 : list event) :
  after_events (after_events w e1) e2 = after_events w (e1 ++ e2).
Proof. unfold after_events. simpl. now rewrite app_assoc. Qed.

Lemma after_events_nil (w : World) : after_events w [] = w.
Proof. destruct w. unfold after_events. simpl. now rewrite app_nil_r. Qed.

Lemma trace_after_events (w : World) (e : list event) :
  trace (after_events w e) = trace w ++ e.
Proof. reflexivity. Qed.

Lemma bind_fetch_html {B} (u : string) (k : result string -> M B) (w : World) :
  bind (attempt (fetch_html u)) k w
  = k (urlopen_read (length (trace w)) u) (after_events w [EvFetch u]).
Proof. reflexivity. Qed.

Lemma mail_attempted_app (e1 e2 : list event) :
  mail_attempted (e1 ++ e2) = mail_attempted e1 || mail_attempted e2.
Proof. apply existsb_app. Qed.

Lemma evaluate_target_fetch_failed (target : Target) (st : gmap string pyval)
    (now : datetime.datetime) (w : World) (exc : exn) :
  fetch_outcome target w = Raise exc ->
  evaluate_target target st now w =
  (Ok (false, record_failure st now),
   after_events w
     [EvLog ("[" +:+ target_name target +:+ "] verification de " +:+ url target);
      EvFetch (url target);
      EvLog ("[" +:+ target_name target +:+ "] ERREUR HTTP: " +:+ exn_msg exc)]).
Proof.
  unfold fetch_outcome. intros Hf.
  unfold evaluate_target.
  rewrite bind_log, bind_fetch_html.
  rewrite trace_after_events, length_snoc, Hf.
  rewrite bind_log. unfold ret. rewrite !after_events_app. reflexivity.
Qed.

Lemma bind_lift_raise {A B} (exc : exn) (k : A -> M B) (w : World) :
  bind (lift (Raise exc)) k w = (Raise exc, w).
Proof. reflexivity. Qed.

(** What [send_email] does: the call is recorded, then log lines and at most
    one SMTP session follow, and nothing is fetched.  It raises what
    building the message raises, and returns otherwise. *)
Lemma send_email_events (subject body : string) (recipients : list string) (w : World) :
  exists sent events,
    send_email subject body recipients w
    = (match message_error subject body recipients with
       | Some exc => Raise exc
       | None => Ok sent
       end,
       after_events w (EvSendEmail subject body recipients :: events))
    /\ mail_attempted events = false
    /\ fetched_urls events = [].
Proof.
  unfold send_email, message_error.
  change (emit (EvSendEmail subject body recipients))
    with (fun w => (Ok tt, after_events w [EvSendEmail subject body recipients])).
  unfold bind at 1.
  destruct missing_settings as [|m ms].
  - destruct recipients as [|r rs].
    + exists true, []. repeat split.
    + destruct (email_message subject EMAIL_FROM (str_join ", " (r :: rs)) body)
        as [msg|exc].
      * rewrite bind_lift_ok. unfold bind at 1, smtp_session.
        destruct (smtp_send_message _ msg) as [exc|].
        -- rewrite bind_log. unfold ret. eexists false, [_; _].
           split; [unfold after_events; simpl; rewrite <- !app_assoc; reflexivity|].
           split; reflexivity.
        -- rewrite bind_log. unfold ret. eexists true, [_; _].
           split; [unfold after_events; simpl; rewrite <- !app_assoc; reflexivity|].
           split; reflexivity.
      * rewrite bind_lift_raise. exists true, []. repeat split.
  - rewrite bind_log. unfold ret. eexists false, [_].
    split; [rewrite after_events_app; reflexivity|]. split; reflexivity.
Qed.

(** A check that fetched its page: three events, then the call of
    [send_email] and what it does, or one log line.  The check raises what
    [send_email] raises, and otherwise returns true with the state of
    [record_check]. *)
Lemma evaluate_target_classified (target : Target) (st : gmap string pyval)
    (now : datetime.datetime) (w : World) (html : string) :
  fetch_outcome target w = Ok html ->
  let current_state := fst (detect_stock_state html (out_of_stock_terms target)) in
  let marker := snd (detect_stock_state html (out_of_stock_terms target)) in
  let recipients := recipients_for target current_state in
  let should_notify :=
    notify_on_same_state target || py_ne_str (dict_get st "last_state") current_state in
  exists message events,
    evaluate_target target st now w
    = (match check_error target st now html with
       | Some exc => Raise exc
       | None => Ok (true, record_check st current_state marker now)
       end,
       after_events w
         ([EvLog ("[" +:+ target_name target +:+ "] verification de " +:+ url target);
           EvFetch (url target); EvLog message] ++ events))
    /\ if should_notify && match recipients with [] => false | _ :: _ => true end
       then exists rest,
           events = EvSendEmail (notification_subject target current_state)
                      (notification_body target current_state marker now) recipients :: rest
           /\ mail_attempted rest = false
           /\ fetched_urls rest = []
       else check_error target st now html = None
            /\ events
               = [EvLog (if should_notify
                         then "[" +:+ target_name target
                              +:+ "] Aucun destinataire configure pour l'etat "
                              +:+ current_state +:+ "."
                         else "[" +:+ target_name target +:+ "] Etat inchange ("
                              +:+ current_state +:+ "), pas de notification.")].
Proof.
  unfold fetch_outcome. intros Hf. cbn zeta.
  unfold evaluate_target, check_error.
  rewrite bind_log, bind_fetch_html.
  rewrite trace_after_events, length_snoc, Hf.
  destruct (detect_stock_state html (out_of_stock_terms target)) as [cur marker].
  cbn [fst snd]. unfold recipients_for.
  rewrite after_events_app. cbn [app].
  set (rcpts := if String.eqb cur "out_of_stock"
                then emails_on_out_of_stock target else emails_on_in_stock target).
  match goal with
  | |- context [bind (if String.eqb cur "out_of_stock" then ?a else ?b) ?k _] =>
      assert (Hstep : forall w0, exists message,
                bind (if String.eqb cur "out_of_stock" then a else b) k w0
                = k rcpts (after_events w0 [EvLog message]))
  end.
  { intros w0. unfold rcpts. destruct (String.eqb cur "out_of_stock");
      eexists; rewrite bind_assoc, bind_log, bind_ret; reflexivity. }
  destruct (Hstep (after_events w
             [EvLog ("[" +:+ target_name target +:+ "] verification de " +:+ url target);
              EvFetch (url target)])) as [m1 ->].
  clear Hstep. rewrite after_events_app. cbn [app]. exists m1.
  destruct (notify_on_same_state target || py_ne_str (dict_get st "last_state") cur).
  - destruct rcpts as [|r rs] eqn:Hr.
    + rewrite bind_log. unfold ret. rewrite after_events_app. cbn [app andb].
      unfold message_error. destruct missing_settings; eexists; now repeat split.
    + match goal with
      | |- context [send_email ?subject ?body ?rcpts0] =>
          destruct (send_email_events subject body rcpts0
                      (after_events w
                         [EvLog ("[" +:+ target_name target +:+ "] verification de "
                                 +:+ url target);
                          EvFetch (url target); EvLog m1]))
            as (sent & evs & Hsend & Hevs & Hfetch);
          change (message_error (notification_subject target cur)
                    (notification_body target cur marker now) (r :: rs))
            with (message_error subject body rcpts0)
      end.
      rewrite bind_assoc. unfold bind at 1. rewrite Hsend. cbn [andb].
      destruct (message_error _ _ _) as [exc|].
      * rewrite after_events_app. cbn [app].
        eexists. split; [reflexivity|]. now exists evs.
      * rewrite !bind_ret. unfold ret. rewrite after_events_app. cbn [app].
        eexists. split; [reflexivity|]. now exists evs.
  - rewrite bind_log. unfold ret. rewrite after_events_app. cbn [app andb].
    eexists. now repeat split.
Qed.

End Check.

Lemma py_ne_str_spec (v : pyval) (s : string) : py_ne_str v s = true <-> v <> PStr s.
Proof.
  destruct v; simpl; try (split; [discriminate | reflexivity]).
  rewrite negb_true_iff, String.eqb_neq. split; [congruence|].
  intros Hne ->. now apply Hne.
Qed.

Lemma dict_get_absent (d : gmap string pyval) (k : string) :
  d !! k = None -> dict_get d k = PNone.
Proof. unfold dict_get. now intros ->. Qed.

Lemma record_failure_lookup (st : gmap string pyval) (now : datetime.datetime) :
  record_failure st now !! "last_state" = Some (PStr "unknown")
  /\ record_failure st now !! "last_check_at" = Some (PStr (datetime.isoformat_seconds now))
  /\ (forall k, k <> "last_state" -> k <> "last_check_at" ->
        record_failure st now !! k = st !! k).
Proof.
  unfold record_failure. split; [|split].
  - rewrite lookup_insert_ne by discriminate. apply lookup_insert_eq.
  - apply lookup_insert_eq.
  - intros k H1 H2. rewrite !lookup_insert_ne by congruence. reflexivity.
Qed.

Lemma record_check_lookup (st : gmap string pyval) (cur marker : string)
    (now : datetime.datetime) :
  record_check st cur marker now !! "last_state" = Some (PStr cur)
  /\ record_check st cur marker now !! "last_marker" = Some (PStr marker)
  /\ record_check st cur marker now !! "last_check_at"
     = Some (PStr (datetime.isoformat_seconds now))
  /\ (forall k, k <> "last_state" -> k <> "last_marker" -> k <> "last_check_at" ->
        record_check st cur marker now !! k = st !! k).
Proof.
  unfold record_check. split; [|split; [|split]].
  - rewrite !lookup_insert_ne by discriminate. apply lookup_insert_eq.
  - rewrite lookup_insert_ne by discriminate. apply lookup_insert_eq.
  - apply lookup_insert_eq.
  - intros k H1 H2 H3. rewrite !lookup_insert_ne by congruence. reflexivity.
Qed.

Section Check_facts.
Context `{PyLib} `{Settings} `{Network}.

Lemma detect_stock_state_values (html : string) (terms : list string) :
  fst (detect_stock_state html terms) = "out_of_stock"
  \/ fst (detect_stock_state html terms) = "in_stock".
Proof.
  induction terms as [|t terms IH]; [now right|].
  rewrite detect_stock_state_cons.
  destruct (str_contains _ _); [now left | exact IH].
Qed.

(** A check returns when its fetch raises, and when its fetch returns a
    page and building a mail does not raise. *)
Lemma evaluate_target_returns (target : Target) (st : gmap string pyval)
    (now : datetime.datetime) (w : World) :
  (forall exc,
      fetch_outcome target w = Raise exc ->
      exists st' w', evaluate_target target st now w = (Ok (false, st'), w'))
  /\ (forall html,
        fetch_outcome target w = Ok html ->
        check_error target st now html = None ->
        exists st' w', evaluate_target target st now w = (Ok (true, st'), w')).
Proof.
  split.
  - intros exc Hf. eexists _, _. exact (evaluate_target_fetch_failed target st now w exc Hf).
  - intros html Hf Hnone.
    destruct (evaluate_target_classified target st now w html Hf) as (m & events & He & _).
    rewrite Hnone in He. eexists _, _. exact He.
Qed.

(** A check that returns leaves the time of the check in the state. *)
Lemma evaluate_target_stamps (target : Target) (st : gmap string pyval)
    (now : datetime.datetime) (w : World) (checked : bool) (st' : gmap string pyval)
    (w' : World) :
  evaluate_target target st now w = (Ok (checked, st'), w') ->
  dict_get st' "last_check_at" = PStr (datetime.isoformat_seconds now).
Proof.
  destruct (fetch_outcome target w) as [html|exc] eqn:Hf.
  - destruct (evaluate_target_classified target st now w html Hf) as (m & events & He & _).
    rewrite He. destruct (check_error target st now html); [discriminate|].
    intros [= _ <- _]. apply record_check_last_check_at.
  - rewrite (evaluate_target_fetch_failed target st now w exc Hf).
    intros [= _ <- _]. apply record_failure_last_check_at.
Qed.

(** The library accepts the mails of a target: no check of it raises. *)
Lemma mail_accepted_check_error (target : Target) (st : gmap string pyval)
    (now : datetime.datetime) (html : string) :
  mail_accepted target -> check_error target st now html = None.
Proof.
  intros Hacc. unfold check_error. destruct (_ || _); [|reflexivity].
  unfold message_error.
  destruct missing_settings as [|m ms] eqn:Hm; [|reflexivity].
  destruct (recipients_for target _) as [|r rs] eqn:Hr; [reflexivity|].
  rewrite <- Hr.
  destruct (Hacc (fst (detect_stock_state html (out_of_stock_terms target)))
              (notification_body target
                 (fst (detect_stock_state html (out_of_stock_terms target)))
                 (snd (detect_stock_state html (out_of_stock_terms target))) now))
    as [msg ->]; [|exact Hm | rewrite Hr; discriminate | reflexivity].
  apply detect_stock_state_values.
Qed.

End Check_facts.

(** ** The schedule *)

(** C1.  For a target with the schedule [Daily time minute_of_day], any
    state and any [now]: [is_target_due] returns false when the minute of
    the day of [now] is below [minute_of_day]; once the minute is reached
    it returns true when [last_check_at] is absent (or does not read as a
    timestamp), and otherwise returns true exactly when the date of
    [last_check_at] is strictly earlier than the date of [now] (an earlier
    day of the calendar).  A missed window is caught later the same day as
    long as no check has run that day: every check that returns, whether it
    fetched the page or the fetch raised, stamps the state, and the target
    is not due again at any time of the same date.  A check returns when
    its fetch raises, and when its fetch returns a page and building a mail
    does not raise. *)
Theorem daily_schedule_due (L : PyLib) (S : Settings) (N : Network)
    (target : Target) (time : string) (minute_of_day : Z) :
  schedule target = Daily time minute_of_day ->
  (forall st now,
      datetime.hour now * 60 + datetime.minute now < minute_of_day ->
      is_target_due target st now = Ok false)
  /\ (forall st now,
        minute_of_day <= datetime.hour now * 60 + datetime.minute now ->
        parse_iso_datetime (dict_get st "last_check_at") = None ->
        is_target_due target st now = Ok true)
  /\ (forall st now,
        minute_of_day <= datetime.hour now * 60 + datetime.minute now ->
        st !! "last_check_at" = None ->
        is_target_due target st now = Ok true)
  /\ (forall st now last_check,
        minute_of_day <= datetime.hour now * 60 + datetime.minute now ->
        parse_iso_datetime (dict_get st "last_check_at") = Some last_check ->
        is_target_due target st now
        = Ok (datetime.date_ltb (datetime.date last_check) (datetime.date now))
        /\ (is_target_due target st now = Ok true <->
            datetime.year last_check < datetime.year now
            \/ (datetime.year last_check = datetime.year now
                /\ (datetime.month last_check < datetime.month now
                    \/ (datetime.month last_check = datetime.month now
                        /\ datetime.day last_check < datetime.day now))))
        /\ (datetime.valid now = true ->
            is_target_due target st now
            = Ok (datetime.toordinal last_check <? datetime.toordinal now)))
  /\ (forall st now w checked st' w',
        datetime.valid now = true ->
        evaluate_target target st now w = (Ok (checked, st'), w') ->
        forall later,
          datetime.date later = datetime.date now ->
          is_target_due target st' later = Ok false)
  /\ (forall st now w exc,
        fetch_outcome target w = Raise exc ->
        exists st' w', evaluate_target target st now w = (Ok (false, st'), w'))
  /\ (forall st now w html,
        fetch_outcome target w = Ok html ->
        check_error target st now html = None ->
        exists st' w', evaluate_target target st now w = (Ok (true, st'), w')).
Proof.
  intros Hs.
  split; [|split; [|split; [|split; [|split; [|split]]]]].
  - intros st now Hlt. unfold is_target_due. rewrite Hs.
    now rewrite (proj2 (Z.ltb_lt _ _) Hlt).
  - intros st now Hge Hp. unfold is_target_due. rewrite Hs, Hp.
    now rewrite (proj2 (Z.ltb_ge _ _) Hge).
  - intros st now Hge Habs. unfold is_target_due. rewrite Hs.
    rewrite (dict_get_absent _ _ Habs).
    now rewrite (proj2 (Z.ltb_ge _ _) Hge).
  - intros st now last_check Hge Hp. unfold is_target_due. rewrite Hs.
    pose proof (parse_iso_datetime_valid _ _ Hp) as Hvl. rewrite Hp.
    rewrite (proj2 (Z.ltb_ge _ _) Hge).
    split; [reflexivity|].
    split; [|intros Hvn; now rewrite (date_ltb_toordinal last_check now Hvl Hvn)].
    pose proof (date_ltb_spec (datetime.year last_check) (datetime.month last_check)
                  (datetime.day last_check) (datetime.year now) (datetime.month now)
                  (datetime.day now)) as Hspec.
    unfold datetime.date.
    split; [intros [= Ht]; apply Hspec; exact Ht | intros Hlt; apply Hspec in Hlt; now rewrite Hlt].
  - intros st now w checked st' w' Hv He later Hd.
    pose proof (evaluate_target_stamps target st now w checked st' w' He) as Hl.
    unfold is_target_due. rewrite Hs, Hl, (parse_iso_datetime_isoformat now Hv).
    destruct (_ <? _); [reflexivity|].
    replace (datetime.date (datetime.truncate_seconds now)) with (datetime.date later)
      by (rewrite Hd; reflexivity).
    now rewrite date_ltb_irrefl.
  - intros st now w. apply evaluate_target_returns.
  - intros st now w. apply evaluate_target_returns.
Qed.

Lemma daily_schedule_due_witness :
  schedule Example.daily_target = Daily "09:00" 540
  /\ is_target_due Example.daily_target ∅ Example.morning = Ok true
  /\ is_target_due Example.daily_target ∅ (datetime.mk 2024 5 1 8 59 59 0 None) = Ok false
  /\ is_target_due Example.daily_target Example.out_of_stock_state Example.morning = Ok true
  /\ is_target_due Example.daily_target
       {[ "last_check_at" := PStr "2024-05-01T09:05:00" ]} Example.next_morning = Ok true
  /\ exists st' w',
       @evaluate_target Ascii_lib.lib Example.settings Example.online
         Example.daily_target ∅ Example.morning Example.first_run = (Ok (true, st'), w')
       /\ is_target_due Example.daily_target st' Example.evening = Ok false.
Proof.
  destruct (daily_schedule_due Ascii_lib.lib Example.settings Example.online
              Example.daily_target "09:00" 540 eq_refl)
    as (H1 & H2 & H3 & H4 & H5 & H6 & H7).
  split; [reflexivity|].
  split; [apply H3; [vm_compute; discriminate | reflexivity]|].
  split; [apply H1; reflexivity|].
  split.
  - destruct (H4 Example.out_of_stock_state Example.morning
                (datetime.mk 2024 4 30 9 0 0 0 None)) as (-> & _ & _);
      [vm_compute; discriminate | reflexivity | reflexivity].
  - split.
    { destruct (H4 {[ "last_check_at" := PStr "2024-05-01T09:05:00" ]} Example.next_morning
                  (datetime.mk 2024 5 1 9 5 0 0 None)) as (-> & _ & _);
        [vm_compute; discriminate | reflexivity | reflexivity]. }
    destruct (H7 ∅ Example.morning Example.first_run Example.page) as (st' & w' & He);
      [reflexivity | vm_compute; reflexivity |].
    exists st', w'. split; [exact He|].
    apply (H5 ∅ Example.morning Example.first_run true st' w' eq_refl He). reflexivity.
Defined.

(** The clause of C1 that a missed window is caught as long as no check
    has succeeded that day fails: at 09:05 the fetch of the first check of
    the day raises, and at 18:00 of the same day, past the time of the
    schedule and with no successful check so far, the target is not due. *)
Lemma daily_check_not_repeated_after_failed_fetch :
  schedule Example.daily_target = Daily "09:00" 540
  /\ @fetch_outcome Example.offline Example.daily_target Example.first_run
     = Raise (Exn "URLError" "timed out")
  /\ @evaluate_target Ascii_lib.lib Example.settings Example.offline
       Example.daily_target ∅ Example.morning Example.first_run
     = (Ok (false, record_failure ∅ Example.morning),
        after_events Example.first_run
          [EvLog "[Console] verification de https://shop.example.org/console";
           EvFetch "https://shop.example.org/console";
           EvLog "[Console] ERREUR HTTP: timed out"])
  /\ record_failure ∅ Example.morning !! "last_state" = Some (PStr "unknown")
  /\ datetime.date Example.evening = datetime.date Example.morning
  /\ 540 <= datetime.hour Example.evening * 60 + datetime.minute Example.evening
  /\ is_target_due Example.daily_target (record_failure ∅ Example.morning) Example.evening
     = Ok false.
Proof.
  split; [reflexivity|]. split; [reflexivity|]. split; [reflexivity|].
  split; [reflexivity|]. split; [reflexivity|]. split; [vm_compute; discriminate|].
  reflexivity.
Qed.

(** C2.  For a target with the schedule [Hourly interval_seconds], any
    state and any [now]: [is_target_due] returns true when [last_check_at]
    is absent (or does not read as a timestamp), and otherwise compares the
    float [total_seconds()] of [now - last_check_at] with the interval.
    For an interval of at most [2 ^ 34] seconds (some 544 years) it returns
    true exactly when [last_check_at] is absent or the elapsed time,
    counted in microseconds, is at least the interval.  The boundary is
    inclusive: an elapsed time equal to the interval is due, any smaller
    one is not.  The subtraction is that of [datetime]: it has no value
    between a naive and an aware datetime, and [is_target_due] then raises
    its [TypeError] and returns neither true nor false.  It has a value on
    the state that a check left, at naive datetimes. *)
Theorem hourly_schedule_due (L : PyLib) (S : Settings) (N : Network)
    (target : Target) (interval_seconds : Z) :
  schedule target = Hourly interval_seconds ->
  (0 < interval_seconds <= 2 ^ 34 ->
   forall st now,
     is_target_due target st now = Ok true <->
     parse_iso_datetime (dict_get st "last_check_at") = None
     \/ exists last_check elapsed,
          parse_iso_datetime (dict_get st "last_check_at") = Some last_check
          /\ datetime.sub now last_check = Ok elapsed
          /\ interval_seconds * 1000000 <= elapsed)
  /\ (forall st now,
        st !! "last_check_at" = None -> is_target_due target st now = Ok true)
  /\ (0 < interval_seconds <= 2 ^ 34 ->
      forall st now last_check elapsed,
        parse_iso_datetime (dict_get st "last_check_at") = Some last_check ->
        datetime.sub now last_check = Ok elapsed ->
        (elapsed = interval_seconds * 1000000 -> is_target_due target st now = Ok true)
        /\ (elapsed < interval_seconds * 1000000 -> is_target_due target st now = Ok false)
        /\ (interval_seconds * 1000000 <= elapsed -> is_target_due target st now = Ok true))
  /\ (forall st now last_check,
        parse_iso_datetime (dict_get st "last_check_at") = Some last_check ->
        is_target_due target st now
        = match datetime.sub now last_check with
          | Ok elapsed =>
              Ok (float_ge_int (datetime.total_seconds elapsed) interval_seconds)
          | Raise exc => Raise exc
          end)
  /\ (forall st checked_at w now checked st' w',
        datetime.valid checked_at = true ->
        datetime.utcoffset checked_at = None ->
        datetime.utcoffset now = None ->
        evaluate_target target st checked_at w = (Ok (checked, st'), w') ->
        exists elapsed,
          datetime.sub now (datetime.truncate_seconds checked_at) = Ok elapsed
          /\ is_target_due target st' now
             = Ok (float_ge_int (datetime.total_seconds elapsed) interval_seconds)
          /\ (0 < interval_seconds <= 2 ^ 34 ->
              is_target_due target st' now = Ok (interval_seconds * 1000000 <=? elapsed)))
  /\ (forall st now w exc,
        fetch_outcome target w = Raise exc ->
        exists st' w', evaluate_target target st now w = (Ok (false, st'), w'))
  /\ (forall st now w html,
        fetch_outcome target w = Ok html ->
        check_error target st now html = None ->
        exists st' w', evaluate_target target st now w = (Ok (true, st'), w')).
Proof.
  intros Hs.
  split; [|split; [|split; [|split; [|split; [|split]]]]].
  - intros Hb st now. unfold is_target_due. rewrite Hs.
    destruct (parse_iso_datetime (dict_get st "last_check_at")) as [lc|].
    + destruct (datetime.sub now lc) as [elapsed|e] eqn:Hsub.
      * cbv zeta. rewrite (total_seconds_ge elapsed interval_seconds Hb). split.
        -- intros [= Hle]. apply Z.leb_le in Hle. right. exists lc, elapsed.
           split; [reflexivity|]. split; [exact Hsub | exact Hle].
        -- intros [Hn | (lc' & elapsed' & [= <-] & Hsub' & Hle)]; [discriminate|].
           rewrite Hsub in Hsub'. injection Hsub' as <-.
           now rewrite (proj2 (Z.leb_le _ _) Hle).
      * split; [discriminate|].
        intros [Hn | (lc' & elapsed' & [= <-] & Hsub' & _)]; [discriminate|].
        rewrite Hsub in Hsub'. discriminate.
    + split; [now left | reflexivity].
  - intros st now Habs. unfold is_target_due. rewrite Hs.
    now rewrite (dict_get_absent _ _ Habs).
  - intros Hb st now lc elapsed Hp Hsub. unfold is_target_due.
    rewrite Hs, Hp, Hsub. cbv zeta.
    rewrite (total_seconds_ge elapsed interval_seconds Hb). split; [|split].
    + intros ->. now rewrite Z.leb_refl.
    + intros Hlt. now rewrite (proj2 (Z.leb_gt _ _) Hlt).
    + intros Hle. now rewrite (proj2 (Z.leb_le _ _) Hle).
  - intros st now lc Hp. unfold is_target_due. rewrite Hs, Hp.
    destruct (datetime.sub now lc); reflexivity.
  - intros st checked_at w now checked st' w' Hv Hn1 Hn2 He.
    pose proof (evaluate_target_stamps target st checked_at w checked st' w' He) as Hl.
    assert (Hsub : exists elapsed,
               datetime.sub now (datetime.truncate_seconds checked_at) = Ok elapsed).
    { unfold datetime.sub. rewrite Hn2. destruct checked_at; simpl in Hn1 |- *.
      rewrite Hn1. eexists. reflexivity. }
    destruct Hsub as [elapsed Hsub]. exists elapsed. split; [exact Hsub|].
    unfold is_target_due.
    rewrite Hs, Hl, (parse_iso_datetime_isoformat checked_at Hv), Hsub. cbv zeta.
    split; [reflexivity|]. intros Hb.
    now rewrite (total_seconds_ge elapsed interval_seconds Hb).
  - intros st now w. apply evaluate_target_returns.
  - intros st now w. apply evaluate_target_returns.
Qed.

Lemma hourly_schedule_due_witness :
  schedule Example.hourly_target = Hourly 3600
  /\ 0 < 3600 <= 2 ^ 34
  /\ is_target_due Example.hourly_target ∅ Example.morning = Ok true
  /\ is_target_due Example.hourly_target
       {[ "last_check_at" := PStr "2024-05-01T08:05:00" ]}
       (datetime.mk 2024 5 1 9 5 0 0 None) = Ok true
  /\ is_target_due Example.hourly_target
       {[ "last_check_at" := PStr "2024-05-01T08:05:00" ]}
       (datetime.mk 2024 5 1 9 5 1 0 None) = Ok true
  /\ is_target_due Example.hourly_target
       {[ "last_check_at" := PStr "2024-05-01T08:05:00" ]}
       (datetime.mk 2024 5 1 9 4 59 999999 None) = Ok false
  /\ exists st' w',
       @evaluate_target Ascii_lib.lib Example.settings Example.offline
         Example.hourly_target ∅ Example.morning Example.first_run = (Ok (false, st'), w')
       /\ is_target_due Example.hourly_target st' Example.evening = Ok true.
Proof.
  assert (Hb : 0 < 3600 <= 2 ^ 34) by (split; [reflexivity | vm_compute; discriminate]).
  destruct (hourly_schedule_due Ascii_lib.lib Example.settings Example.offline
              Example.hourly_target 3600 eq_refl) as (H1 & H2 & H3 & H4 & H5 & H6 & H7).
  split; [reflexivity|]. split; [exact Hb|].
  split; [apply H2; reflexivity|].
  split; [|split; [|split]].
  - apply (H3 Hb _ _ (datetime.mk 2024 5 1 8 5 0 0 None) 3600000000);
      [reflexivity | reflexivity | reflexivity].
  - apply (H3 Hb _ _ (datetime.mk 2024 5 1 8 5 0 0 None) 3601000000);
      [reflexivity | reflexivity | vm_compute; discriminate].
  - apply (H3 Hb _ _ (datetime.mk 2024 5 1 8 5 0 0 None) 3599999999);
      [reflexivity | reflexivity | reflexivity].
  - destruct (H6 ∅ Example.morning Example.first_run _ eq_refl) as (st' & w' & He).
    exists st', w'. split; [exact He|].
    destruct (H5 ∅ Example.morning Example.first_run Example.evening false st' w'
                eq_refl eq_refl eq_refl He) as (elapsed & Hsub & _ & Hdue).
    rewrite (Hdue Hb). injection Hsub as <-. reflexivity.
Defined.

(** The equivalence of C2 fails for an interval above [2 ^ 34] seconds: with
    an interval of 20000000000 seconds and a last check at 2024-05-01
    09:05:00, the target is due one microsecond before the interval has
    elapsed, the float of the elapsed seconds being rounded to the
    interval. *)
Lemma hourly_due_one_microsecond_early :
  schedule Example.long_interval_target = Hourly 20000000000
  /\ parse_iso_datetime (PStr "2024-05-01T09:05:00")
     = Some (datetime.mk 2024 5 1 9 5 0 0 None)
  /\ datetime.sub (datetime.mk 2658 2 8 20 38 19 999999 None)
       (datetime.mk 2024 5 1 9 5 0 0 None)
     = Ok (20000000000 * 1000000 - 1)
  /\ datetime.total_seconds (20000000000 * 1000000 - 1) = mkfloat 5242880000000000 (-18)
  /\ 5242880000000000 = 20000000000 * 2 ^ 18
  /\ is_target_due Example.long_interval_target
       {[ "last_check_at" := PStr "2024-05-01T09:05:00" ]}
       (datetime.mk 2658 2 8 20 38 19 999999 None)
     = Ok true.
Proof.
  split; [reflexivity|]. split; [reflexivity|]. split; [reflexivity|].
  split; [reflexivity|]. split; [reflexivity|]. reflexivity.
Qed.

(** ** Notification and state update *)

(** C4.  On a check whose fetch succeeded, [send_email] is called exactly
    when [notify_on_same_state] is set or the previous state differs from
    the classified one (an absent previous state always differs), and the
    recipients of the classified state are not empty: those of
    [emails_on_out_of_stock] for [out_of_stock], of [emails_on_in_stock]
    for [in_stock].  With no recipient nothing is sent, the check ends on a
    log line and returns normally.  The check returns true unless building
    the mail raises, which then leaves the check. *)
Theorem mail_attempted_iff (L : PyLib) (S : Settings) (N : Network)
    (target : Target) (st : gmap string pyval) (now : datetime.datetime)
    (w : World) (html : string) :
  fetch_outcome target w = Ok html ->
  let current_state := fst (detect_stock_state html (out_of_stock_terms target)) in
  let marker := snd (detect_stock_state html (out_of_stock_terms target)) in
  let previous_state := dict_get st "last_state" in
  let recipients := recipients_for target current_state in
  exists events,
    evaluate_target target st now w
    = (match check_error target st now html with
       | Some exc => Raise exc
       | None => Ok (true, record_check st current_state marker now)
       end, after_events w events)
    /\ (mail_attempted events = true <->
        (notify_on_same_state target = true \/ previous_state <> PStr current_state)
        /\ recipients <> [])
    /\ (st !! "last_state" = None -> previous_state <> PStr current_state)
    /\ (current_state = "out_of_stock" /\ recipients = emails_on_out_of_stock target
        \/ current_state = "in_stock" /\ recipients = emails_on_in_stock target)
    /\ (forall subject body rcpts,
          In (EvSendEmail subject body rcpts) events -> rcpts = recipients)
    /\ (mail_attempted events = false -> check_error target st now html = None)
    /\ (recipients = [] ->
        mail_attempted events = false
        /\ evaluate_target target st now w
           = (Ok (true, record_check st current_state marker now), after_events w events)
        /\ last events
           = Some (EvLog
                     (if notify_on_same_state target
                         || py_ne_str previous_state current_state
                      then "[" +:+ target_name target
                           +:+ "] Aucun destinataire configure pour l'etat "
                           +:+ current_state +:+ "."
                      else "[" +:+ target_name target +:+ "] Etat inchange ("
                           +:+ current_state +:+ "), pas de notification."))).
Proof.
  intros Hf. cbn zeta.
  destruct (evaluate_target_classified target st now w html Hf)
    as (m1 & events & He & Hev).
  cbn zeta in Hev.
  assert (Hm : mail_attempted events
               = (notify_on_same_state target
                  || py_ne_str (dict_get st "last_state")
                       (fst (detect_stock_state html (out_of_stock_terms target))))
                 && match recipients_for target
                            (fst (detect_stock_state html (out_of_stock_terms target)))
                    with [] => false | _ :: _ => true end).
  { destruct (_ && _).
    - destruct Hev as (rest & -> & _). reflexivity.
    - destruct Hev as (_ & ->). reflexivity. }
  assert (Hnone : mail_attempted events = false -> check_error target st now html = None).
  { rewrite Hm. intros Hfalse. rewrite Hfalse in Hev. exact (proj1 Hev). }
  eexists. split; [exact He|].
  split; [|split; [|split; [|split; [|split]]]].
  - rewrite mail_attempted_app, Hm. cbn [mail_attempted existsb is_send_email orb].
    rewrite andb_true_iff, orb_true_iff, py_ne_str_spec.
    destruct (recipients_for target _); split; intros [Hn Hc];
      (split; [exact Hn|]); congruence.
  - intros Habs. rewrite (dict_get_absent _ _ Habs). discriminate.
  - unfold recipients_for.
    destruct (detect_stock_state_values html (out_of_stock_terms target)) as [-> | ->];
      [left | right]; split; reflexivity.
  - intros subject body rcpts Hin. cbn [app In] in Hin.
    destruct Hin as [Hin|[Hin|[Hin|Hin]]]; try discriminate Hin.
    destruct (_ && _).
    + destruct Hev as (rest & -> & Hrest & _). destruct Hin as [Hin|Hin].
      * now injection Hin as _ _ <-.
      * exfalso. unfold mail_attempted in Hrest.
        assert (existsb is_send_email rest = true); [|congruence].
        apply existsb_exists. exists (EvSendEmail subject body rcpts). now split.
    + destruct Hev as (_ & ->). destruct Hin as [Hin|[]]. discriminate Hin.
  - rewrite mail_attempted_app. cbn [mail_attempted existsb is_send_email orb].
    exact Hnone.
  - intros Hnil.
    assert (Hfalse : mail_attempted events = false)
      by (rewrite Hm, Hnil; apply andb_false_r).
    rewrite mail_attempted_app. cbn [mail_attempted existsb is_send_email orb].
    split; [exact Hfalse|].
    rewrite (Hnone Hfalse) in He. split; [exact He|].
    rewrite Hnil, andb_false_r in Hev. destruct Hev as (_ & ->). reflexivity.
Qed.

Lemma mail_attempted_iff_witness :
  @fetch_outcome Example.online Example.hourly_target Example.first_run
  = Ok Example.page
  /\ exists checked_state events,
       @evaluate_target Ascii_lib.lib Example.settings Example.online
         Example.hourly_target ∅ Example.morning Example.first_run
       = (Ok (true, checked_state), after_events Example.first_run events)
       /\ mail_attempted events = true.
Proof.
  split; [reflexivity|].
  destruct (mail_attempted_iff Ascii_lib.lib Example.settings Example.online
              Example.hourly_target ∅ Example.morning Example.first_run Example.page eq_refl)
    as (events & He & Hm & _).
  eexists _, events. split; [exact He|].
  apply Hm. split; [right; vm_compute; discriminate | vm_compute; discriminate].
Defined.

(** C6.  The state update of a check that fetched its page is skipped when
    building the mail raises.  The name of the target holds a line feed;
    the page is fetched and classified, a notification is due, and the
    subject of the message is refused with a [ValueError], which leaves
    [evaluate_target] before it updates the state, and then [run_cycle]
    before it saves it: the state file is not written. *)
Theorem state_update_skipped_when_mail_raises :
  @fetch_outcome Example.online Example.line_feed_target Example.line_feed_run
  = Ok Example.page
  /\ @detect_stock_state Ascii_lib.lib Example.page
       (out_of_stock_terms Example.line_feed_target)
     = ("out_of_stock", "rupture de stock")
  /\ @load_monitor_config Ascii_lib.lib "monitor_targets.json" Example.line_feed_run
     = (Ok {| targets := [Example.line_feed_target] |}, Example.line_feed_run)
  /\ @evaluate_target Ascii_lib.lib Example.settings Example.online
       Example.line_feed_target ∅ Example.morning Example.line_feed_run
     = (Raise (ValueError
                 "Header values may not contain linefeed or carriage return characters"),
        after_events Example.line_feed_run
          [EvLog ("[" +:+ target_name Example.line_feed_target
                  +:+ "] verification de https://shop.example.org/card");
           EvFetch "https://shop.example.org/card";
           EvLog ("[" +:+ target_name Example.line_feed_target
                  +:+ "] HORS STOCK - terme detecte: rupture de stock");
           EvSendEmail ("[Stock Monitor] HORS STOCK - "
                        +:+ target_name Example.line_feed_target)
             (notification_body Example.line_feed_target "out_of_stock"
                "rupture de stock" Example.morning)
             ["bob@example.org"]])
  /\ exists w',
       @run_cycle Ascii_lib.lib Example.settings Example.online true Example.morning
         Example.line_feed_run
       = (Raise (ValueError
                   "Header values may not contain linefeed or carriage return characters"),
          w')
       /\ files w' = files Example.line_feed_run
       /\ files w' !! "monitor_state.json" = None.
Proof.
  split; [reflexivity|]. split; [reflexivity|].
  split; [vm_compute; reflexivity|]. split; [vm_compute; reflexivity|].
  eexists. split; [vm_compute; reflexivity|]. split; reflexivity.
Qed.

(** C10.  When the fetch raises, [evaluate_target] leaves [last_marker]
    as it was: a marker recorded by an earlier check stays in the state
    beside [last_state = "unknown"].  Only [last_state] and
    [last_check_at] change. *)
Theorem fetch_failure_keeps_last_marker (L : PyLib) (S : Settings) (N : Network)
    (target : Target) (st : gmap string pyval) (now : datetime.datetime)
    (w : World) (exc : exn) :
  fetch_outcome target w = Raise exc ->
  exists failed_state w',
    evaluate_target target st now w = (Ok (false, failed_state), w')
    /\ failed_state !! "last_marker" = st !! "last_marker"
    /\ failed_state !! "last_state" = Some (PStr "unknown")
    /\ (forall marker,
          st !! "last_marker" = Some (PStr marker) ->
          failed_state !! "last_marker" = Some (PStr marker)
          /\ failed_state !! "last_state" = Some (PStr "unknown"))
    /\ (forall k, k <> "last_state" -> k <> "last_check_at" ->
          failed_state !! k = st !! k).
Proof.
  intros Hf. eexists _, _.
  split; [exact (evaluate_target_fetch_failed target st now w exc Hf)|].
  destruct (record_failure_lookup st now) as (H1 & H2 & H3).
  assert (Hm : record_failure st now !! "last_marker" = st !! "last_marker")
    by (apply H3; discriminate).
  split; [exact Hm|]. split; [exact H1|]. split; [|exact H3].
  intros marker Hmarker. rewrite Hm. split; [exact Hmarker | exact H1].
Qed.

Lemma fetch_failure_keeps_last_marker_witness :
  @fetch_outcome Example.offline Example.hourly_target Example.first_run
  = Raise (Exn "URLError" "timed out")
  /\ exists failed_state w',
       @evaluate_target Ascii_lib.lib Example.settings Example.offline
         Example.hourly_target Example.out_of_stock_state Example.morning Example.first_run
       = (Ok (false, failed_state), w')
       /\ failed_state !! "last_marker" = Some (PStr "rupture de stock")
       /\ failed_state !! "last_state" = Some (PStr "unknown").
Proof.
  split; [reflexivity|].
  destruct (fetch_failure_keeps_last_marker Ascii_lib.lib Example.settings Example.offline
              Example.hourly_target Example.out_of_stock_state Example.morning
              Example.first_run _ eq_refl)
    as (failed_state & w' & He & _ & _ & Hm & _).
  exists failed_state, w'. split; [exact He|].
  apply Hm. reflexivity.
Defined.

(** ** The JSON printer and parser

    [loads] reads back the text that [dumps] writes for every value. *)

Section Json_facts.
Import Ascii_lib.

Lemma parse_string_body_escape_char (c : ascii) (rest : string) :
  parse_string_body (json_escape_char c +:+ rest)
  = match parse_string_body rest with
    | Some (r, rest') => Some (String c r, rest')
    | None => None
    end.
Proof.
  destruct c as [[] [] [] [] [] [] [] []]; reflexivity.
Qed.

Lemma parse_string_body_json_escape (s rest : string) :
  parse_string_body (json_escape s +:+ quote +:+ rest) = Some (s, rest).
Proof.
  induction s as [|c s IH].
  - reflexivity.
  - cbn [json_escape]. rewrite append_assoc, parse_string_body_escape_char, IH.
    reflexivity.
Qed.

Lemma num_digits_bound (n : Z) : 0 <= n -> n < 10 ^ Z.of_nat (S (num_digits n)).
Proof.
  intros Hn. unfold num_digits. destruct (Z.ltb_spec n 10) as [Hlt|Hge].
  - change (10 ^ Z.of_nat 2) with 100. lia.
  - set (L := Z.log2 n). set (k := (Z.to_nat L / 3)%nat).
    assert (HL : 0 <= L) by apply Z.log2_nonneg.
    destruct (Z.log2_spec n ltac:(lia)) as [_ Hup]. fold L in Hup.
    assert (Hk : L + 1 <= 3 * (Z.of_nat k + 1)).
    { unfold k. rewrite Nat2Z.inj_div, Z2Nat.id by lia. change (Z.of_nat 3) with 3.
      pose proof (Z.div_mod L 3 ltac:(lia)). pose proof (Z.mod_pos_bound L 3 ltac:(lia)). lia. }
    assert (H2 : 2 ^ Z.succ L <= 2 ^ (3 * (Z.of_nat k + 1)))
      by (apply Z.pow_le_mono_r; lia).
    rewrite Z.pow_mul_r in H2 by lia. change (2 ^ 3) with 8 in H2.
    assert (H8 : 8 ^ (Z.of_nat k + 1) <= 10 ^ (Z.of_nat k + 1))
      by (apply Z.pow_le_mono_l; lia).
    assert (H10 : 10 ^ (Z.of_nat k + 1) <= 10 ^ Z.of_nat (S (S k)))
      by (apply Z.pow_le_mono_r; lia).
    lia.
Qed.

Lemma all_digits_low_digits (w : nat) : forall n acc,
  all_digits (low_digits w n acc) = all_digits acc.
Proof.
  induction w as [|w IH]; intros n acc; [reflexivity|].
  cbn [low_digits]. rewrite IH. cbn [all_digits].
  rewrite digit_val_digit_char by (apply Z.mod_pos_bound; lia). reflexivity.
Qed.

Lemma digit_val_zero (c : ascii) : Ascii.eqb c "0" = true -> digit_val c = Some 0.
Proof. intros Hc%Ascii.eqb_eq. now subst c. Qed.

Lemma leading_zero_spec (c : ascii) (s : string) :
  leading_zero (String c s) = Ascii.eqb c "0" && nonempty s.
Proof.
  destruct s as [|c' s'].
  - rewrite andb_false_r. destruct c as [[] [] [] [] [] [] [] []]; reflexivity.
  - rewrite andb_true_r. destruct c as [[] [] [] [] [] [] [] []]; reflexivity.
Qed.

Lemma strip_zeros_spec (s : string) :
  all_digits s = true -> nonempty s = true ->
  all_digits (strip_zeros s) = true
  /\ nonempty (strip_zeros s) = true
  /\ leading_zero (strip_zeros s) = false
  /\ digits_number (strip_zeros s) = digits_number s.
Proof.
  induction s as [|c s IH]; [discriminate|].
  intros Hd _. cbn [strip_zeros].
  destruct (Ascii.eqb c "0") eqn:Hc.
  - destruct s as [|c' s'].
    + repeat split; try assumption. now rewrite leading_zero_spec, andb_false_r.
    + assert (Hd' : all_digits (String c' s') = true).
      { cbn [all_digits] in Hd. rewrite (digit_val_zero c Hc) in Hd. exact Hd. }
      destruct (IH Hd' eq_refl) as (H1 & H2 & H3 & H4).
      repeat split; try assumption.
      rewrite H4. unfold digits_number.
      change (String.length (String c (String c' s'))) with (S (String.length (String c' s'))).
      cbn [parse_digits]. rewrite (digit_val_zero c Hc). reflexivity.
  - repeat split; try assumption. now rewrite leading_zero_spec, Hc.
Qed.

Lemma decimal_spec (n : Z) :
  0 <= n ->
  all_digits (decimal n) = true
  /\ nonempty (decimal n) = true
  /\ leading_zero (decimal n) = false
  /\ digits_number (decimal n) = Some (n, EmptyString).
Proof.
  intros Hn. unfold decimal.
  set (w := S (num_digits n)).
  assert (Hd : all_digits (low_digits w n EmptyString) = true)
    by now rewrite all_digits_low_digits.
  assert (Hne : nonempty (low_digits w n EmptyString) = true).
  { unfold nonempty. destruct (low_digits w n EmptyString) eqn:E; [|reflexivity].
    pose proof (length_low_digits w n EmptyString) as Hl. rewrite E in Hl. discriminate. }
  destruct (strip_zeros_spec _ Hd Hne) as (H1 & H2 & H3 & H4).
  repeat split; try assumption.
  rewrite H4. unfold digits_number.
  rewrite length_low_digits. simpl (String.length EmptyString). rewrite Nat.add_0_r.
  rewrite parse_digits_low_digits by (split; [lia | now apply num_digits_bound]).
  reflexivity.
Qed.

Lemma take_digits_app (s rest : string) :
  all_digits s = true -> starts_with_digit rest = false ->
  take_digits (s +:+ rest) = (s, rest).
Proof.
  intros Hs Hr. induction s as [|c s IH].
  - rewrite append_nil_l. destruct rest as [|c r]; [reflexivity|].
    cbn [take_digits]. cbn [starts_with_digit] in Hr.
    destruct (digit_val c); [discriminate | reflexivity].
  - cbn [all_digits] in Hs. rewrite append_cons. cbn [take_digits].
    destruct (digit_val c); [|discriminate]. now rewrite (IH Hs).
Qed.

Lemma digits_value_spec (s : string) (n : Z) :
  all_digits s = true -> nonempty s = true -> digits_number s = Some (n, EmptyString) ->
  digits_value s = Some n.
Proof.
  intros Hd Hne Hn. unfold digits_value. rewrite Hd, Hne. cbn [andb].
  unfold digits_number in Hn. now rewrite Hn.
Qed.

Lemma after_value_not_digit (rest : string) :
  after_value rest = true -> starts_with_digit rest = false.
Proof.
  destruct rest as [|c r]; [reflexivity|]. cbn [after_value starts_with_digit].
  destruct c as [[] [] [] [] [] [] [] []]; try discriminate; reflexivity.
Qed.

Lemma parse_number_nonneg (n : Z) (rest : string) :
  0 <= n -> after_value rest = true ->
  parse_number (decimal n +:+ rest) = Some (PInt n, rest).
Proof.
  intros Hn Hr. destruct (decimal_spec n Hn) as (Hd & Hne & Hlz & Hv).
  unfold parse_number.
  destruct (decimal n) as [|c s] eqn:E; [discriminate|].
  assert (Hc : exists d, digit_val c = Some d).
  { cbn [all_digits] in Hd. destruct (digit_val c); [now eexists | discriminate]. }
  rewrite append_cons.
  assert (Hsign : (match String c (s +:+ rest) with
                   | String "-" r => (true, r)
                   | _ => (false, String c (s +:+ rest))
                   end) = (false, String c (s +:+ rest))).
  { destruct Hc as [d Hc]. destruct c as [[] [] [] [] [] [] [] []]; try reflexivity.
    discriminate Hc. }
  rewrite Hsign. rewrite <- append_cons.
  rewrite take_digits_app by (assumption || now apply after_value_not_digit).
  fold (leading_zero (String c s)). rewrite Hlz.
  assert (Hfloat : (match rest with
                    | String c0 _ => Ascii.eqb c0 "." || Ascii.eqb c0 "e" || Ascii.eqb c0 "E"
                    | EmptyString => false
                    end) = false).
  { destruct rest as [|c0 r]; [reflexivity|]. cbn [after_value] in Hr.
    destruct c0 as [[] [] [] [] [] [] [] []]; try discriminate; reflexivity. }
  rewrite Hfloat. cbn [orb]. cbv iota.
  rewrite (digits_value_spec _ n Hd Hne Hv). reflexivity.
Qed.

Lemma parse_number_str_of_int (n : Z) (rest : string) :
  after_value rest = true ->
  parse_number (str_of_int n +:+ rest) = Some (PInt n, rest).
Proof.
  intros Hr. unfold str_of_int. destruct (Z.ltb_spec n 0) as [Hneg|Hpos].
  - assert (Hn : 0 <= - n) by lia.
    destruct (decimal_spec (- n) Hn) as (Hd & Hne & Hlz & Hv).
    rewrite append_cons. unfold parse_number.
    rewrite take_digits_app by (assumption || now apply after_value_not_digit).
    fold (leading_zero (decimal (- n))). rewrite Hlz.
    assert (Hfloat : (match rest with
                      | String c0 _ => Ascii.eqb c0 "." || Ascii.eqb c0 "e" || Ascii.eqb c0 "E"
                      | EmptyString => false
                      end) = false).
    { destruct rest as [|c0 r]; [reflexivity|]. cbn [after_value] in Hr.
      destruct c0 as [[] [] [] [] [] [] [] []]; try discriminate; reflexivity. }
    rewrite Hfloat. cbn [orb]. cbv iota.
    rewrite (digits_value_spec _ (- n) Hd Hne Hv). f_equal. f_equal. f_equal. lia.
  - now apply parse_number_nonneg.
Qed.

Lemma pyval_size_elem (l : list pyval) (x : pyval) :
  In x l -> (pyval_size x < pyval_size (PList l))%nat.
Proof.
  cbn [pyval_size]. induction l as [|y l IH]; [intros []|].
  intros [-> | Hx]; cbn [foldr]; [lia|]. specialize (IH Hx). lia.
Qed.

Lemma pyval_size_item (d : gmap string pyval) (k : string) (v : pyval) :
  In (k, v) (map_to_list d) -> (pyval_size v < pyval_size (PDict d))%nat.
Proof.
  cbn [pyval_size]. rewrite map_fold_fmap, map_fold_foldr.
  induction (map_to_list d) as [|[k' v'] l IH]; [intros []|].
  intros [[= -> ->] | Hx]; cbn [foldr uncurry]; simpl; [lia|]. specialize (IH Hx). lia.
Qed.

Lemma skip_ws_app (ws s : string) : all_ws ws = true -> skip_ws (ws +:+ s) = skip_ws s.
Proof.
  induction ws as [|c ws IH]; [reflexivity|]. cbn [all_ws].
  intros [Hc Hws]%andb_true_iff. rewrite append_cons. cbn [skip_ws]. rewrite Hc. auto.
Qed.

Lemma skip_ws_value_start (s : string) : value_start s = true -> skip_ws s = s.
Proof.
  destruct s as [|c s]; [discriminate|]. cbn [value_start skip_ws].
  destruct (is_json_ws c); [discriminate | reflexivity].
Qed.

Lemma all_ws_spaces (n : nat) : all_ws (spaces n) = true.
Proof. induction n as [|n IH]; [reflexivity | exact IH]. Qed.

Lemma all_ws_indent (n : nat) : all_ws (newline +:+ spaces n) = true.
Proof. change (newline +:+ spaces n) with (String (ascii_of_nat 10) (spaces n)).
  cbn [all_ws]. now rewrite all_ws_spaces. Qed.

Lemma parse_value_eq (fuel : nat) (s : string) :
  parse_value (S fuel) s =
  match skip_ws s with
  | EmptyString => None
  | String c s' =>
      if Ascii.eqb c "{" then
        match skip_ws s' with
        | EmptyString => None
        | String c' rest =>
            if Ascii.eqb c' "}" then Some (PDict ∅, rest)
            else
              match parse_members fuel s' with
              | Some (d, rest) => Some (PDict d, rest)
              | None => None
              end
        end
      else if Ascii.eqb c "[" then
        match skip_ws s' with
        | EmptyString => None
        | String c' rest =>
            if Ascii.eqb c' "]" then Some (PList [], rest)
            else
              match parse_elements fuel s' with
              | Some (l, rest) => Some (PList l, rest)
              | None => None
              end
        end
      else if (code c =? 34)%nat then
        match parse_string_body s' with
        | Some (str, rest) => Some (PStr str, rest)
        | None => None
        end
      else
        match strip_prefix "null" (String c s') with
        | Some rest => Some (PNone, rest)
        | None =>
            match strip_prefix "true" (String c s') with
            | Some rest => Some (PBool true, rest)
            | None =>
                match strip_prefix "false" (String c s') with
                | Some rest => Some (PBool false, rest)
                | None => parse_number (String c s')
                end
            end
        end
  end.
Proof. reflexivity. Qed.

Lemma parse_elements_eq (fuel : nat) (s : string) :
  parse_elements (S fuel) s =
  match parse_value fuel s with
  | None => None
  | Some (v, rest) =>
      match skip_ws rest with
      | EmptyString => None
      | String c rest' =>
          if Ascii.eqb c "]" then Some ([v], rest')
          else if Ascii.eqb c "," then
            match parse_elements fuel rest' with
            | Some (l, rest'') => Some (v :: l, rest'')
            | None => None
            end
          else None
      end
  end.
Proof. reflexivity. Qed.

Lemma parse_members_eq (fuel : nat) (s : string) :
  parse_members (S fuel) s =
  match skip_ws s with
  | EmptyString => None
  | String c s' =>
      if negb (code c =? 34)%nat then None else
      match parse_string_body s' with
      | None => None
      | Some (key, rest) =>
          match skip_ws rest with
          | EmptyString => None
          | String c1 rest1 =>
              if negb (Ascii.eqb c1 ":") then None else
              match parse_value fuel rest1 with
              | None => None
              | Some (v, rest2) =>
                  match skip_ws rest2 with
                  | EmptyString => None
                  | String c2 rest3 =>
                      if Ascii.eqb c2 "}" then Some ({[ key := v ]}, rest3)
                      else if Ascii.eqb c2 "," then
                        match parse_members fuel rest3 with
                        | Some (d, rest4) => Some (<[ key := v ]> d, rest4)
                        | None => None
                        end
                      else None
                  end
              end
          end
      end
  end.
Proof. reflexivity. Qed.

Lemma parse_value_number (fuel : nat) (s : string) :
  number_start s = true -> parse_value (S fuel) s = parse_number s.
Proof.
  destruct s as [|c s]; [discriminate|]. intros Hs. rewrite parse_value_eq.
  cbn [number_start] in Hs.
  destruct c as [[] [] [] [] [] [] [] []]; try discriminate Hs; reflexivity.
Qed.

Lemma number_start_value_start (s : string) : number_start s = true -> value_start s = true.
Proof.
  destruct s as [|c s]; [discriminate|]. cbn [number_start value_start].
  destruct c as [[] [] [] [] [] [] [] []]; try discriminate; reflexivity.
Qed.

Lemma number_start_str_of_int (n : Z) (rest : string) :
  number_start (str_of_int n +:+ rest) = true.
Proof.
  unfold str_of_int. destruct (Z.ltb_spec n 0) as [Hneg|Hpos]; [reflexivity|].
  destruct (decimal_spec n Hpos) as (Hd & Hne & _).
  destruct (decimal n) as [|c s]; [discriminate|].
  rewrite append_cons. cbn [number_start all_digits] in *.
  destruct (digit_val c); [apply orb_true_r | discriminate].
Qed.

Lemma value_start_json_string (s rest : string) :
  value_start (json_string s +:+ rest) = true.
Proof. reflexivity. Qed.

Lemma after_value_indent (n : nat) (rest : string) :
  after_value ((newline +:+ spaces n) +:+ rest) = true.
Proof. reflexivity. Qed.

Lemma after_value_comma (rest : string) : after_value ("," +:+ rest) = true.
Proof. reflexivity. Qed.

Lemma skip_ws_indent (n : nat) (rest : string) :
  skip_ws ((newline +:+ spaces n) +:+ rest) = skip_ws rest.
Proof. apply skip_ws_app, all_ws_indent. Qed.

Lemma value_start_encode (level : nat) (v : pyval) (rest : string) :
  value_start (json_encode level v +:+ rest) = true.
Proof.
  destruct v as [|[]|n|s|l|d]; try reflexivity.
  - apply number_start_value_start, number_start_str_of_int.
  - destruct l; reflexivity.
  - cbn [json_encode].
    destruct (sort_by_key (map_to_list (json_encode (S level) <$> d))); reflexivity.
Qed.

Lemma str_join_cons (sep x y : string) (l : list string) :
  str_join sep (x :: y :: l) = x +:+ sep +:+ str_join sep (y :: l).
Proof. reflexivity. Qed.

(** The elements of a list, after the opening bracket. *)
Lemma parse_elements_encode (lv : nat) (inner outer rest : string) (l : list pyval) :
  all_ws inner = true -> all_ws outer = true ->
  (forall r, after_value (outer +:+ r) = true) ->
  (forall x, In x l -> reads_back x) ->
  l <> [] ->
  forall fuel,
    (2 * String.length (inner +:+ str_join ("," +:+ inner) (map (json_encode lv) l)
              +:+ outer +:+ "]" +:+ rest) + 1 < fuel)%nat ->
    parse_elements fuel
      (inner +:+ str_join ("," +:+ inner) (map (json_encode lv) l)
       +:+ outer +:+ "]" +:+ rest)
    = Some (l, rest).
Proof.
  intros Hin Hout Hafter IH Hne. induction l as [|v l IHl]; [now destruct Hne|].
  intros fuel Hfuel. destruct fuel as [|fuel]; [lia|].
  rewrite parse_elements_eq.
  destruct l as [|v2 l].
  - cbn [map str_join] in *.
    rewrite (IH v (or_introl eq_refl) lv inner _ fuel Hin (Hafter _)) by lia.
    rewrite (skip_ws_app outer _ Hout). reflexivity.
  - cbn [map] in *. rewrite str_join_cons in *.
    rewrite !append_assoc in *.
    rewrite (IH v (or_introl eq_refl) lv inner _ fuel Hin (after_value_comma _)) by lia.
    change (skip_ws ("," +:+ ?x)) with (String ","%char x).
    change (Ascii.eqb "," "]") with false. change (Ascii.eqb "," ",") with true.
    cbv iota.
    rewrite IHl; [reflexivity | | discriminate |].
    + intros x Hx. apply IH. now right.
    + rewrite !length_append in *. cbn [String.length] in *. lia.
Qed.

Lemma parse_value_ws (fuel : nat) (ws s : string) :
  all_ws ws = true -> parse_value fuel (ws +:+ s) = parse_value fuel s.
Proof.
  intros Hws. destruct fuel as [|fuel]; [reflexivity|].
  now rewrite !parse_value_eq, skip_ws_app.
Qed.

Lemma value_start_inv (s : string) :
  value_start s = true ->
  exists c s', s = String c s' /\ skip_ws s = String c s'
               /\ Ascii.eqb c "]" = false /\ Ascii.eqb c "}" = false.
Proof.
  intros Hs. pose proof (skip_ws_value_start s Hs) as Hskip.
  destruct s as [|c s]; [discriminate|]. exists c, s.
  cbn [value_start] in Hs.
  apply andb_true_iff in Hs as [[_ H1]%andb_true_iff H2].
  apply negb_true_iff in H1, H2. auto.
Qed.

(** One member of an object, after the opening brace or a comma. *)
Lemma parse_members_step (fuel : nat) (inner key body : string) :
  all_ws inner = true ->
  parse_members (S fuel) (inner +:+ json_string key +:+ ": " +:+ body)
  = match parse_value fuel (" " +:+ body) with
    | None => None
    | Some (v, rest2) =>
        match skip_ws rest2 with
        | EmptyString => None
        | String c2 rest3 =>
            if Ascii.eqb c2 "}" then Some ({[ key := v ]}, rest3)
            else if Ascii.eqb c2 "," then
              match parse_members fuel rest3 with
              | Some (d, rest4) => Some (<[ key := v ]> d, rest4)
              | None => None
              end
            else None
        end
    end.
Proof.
  intros Hin. rewrite parse_members_eq, (skip_ws_app inner _ Hin).
  unfold json_string. rewrite !append_assoc.
  change (skip_ws (quote +:+ ?x)) with (String (ascii_of_nat 34) x).
  cbv iota. change (negb (code (ascii_of_nat 34) =? 34)%nat) with false. cbv iota.
  rewrite parse_string_body_json_escape. reflexivity.
Qed.

(** The members of an object, after the opening brace. *)
Lemma parse_members_encode (lv : nat) (inner outer rest : string)
    (items : list (string * pyval)) :
  all_ws inner = true -> all_ws outer = true ->
  (forall r, after_value (outer +:+ r) = true) ->
  (forall x, In x items -> reads_back (snd x)) ->
  items <> [] ->
  forall fuel,
    (2 * String.length (inner +:+ str_join ("," +:+ inner) (map (encode_item lv) items)
              +:+ outer +:+ "}" +:+ rest) + 1 < fuel)%nat ->
    parse_members fuel
      (inner +:+ str_join ("," +:+ inner) (map (encode_item lv) items)
       +:+ outer +:+ "}" +:+ rest)
    = Some (list_to_map items, rest).
Proof.
  intros Hin Hout Hafter IH Hne. induction items as [|[k v] l IHl]; [now destruct Hne|].
  intros fuel Hfuel. destruct fuel as [|fuel]; [lia|].
  destruct l as [|x2 l].
  - cbn [map str_join] in *. unfold encode_item in *. cbn [fst snd] in *.
    rewrite !append_assoc in *.
    rewrite (parse_members_step fuel inner k _ Hin).
    rewrite (IH (k, v) (or_introl eq_refl) lv " " _ fuel eq_refl (Hafter _)).
    + rewrite (skip_ws_app outer _ Hout). reflexivity.
    + rewrite !length_append in *. cbn [String.length fst snd] in *. lia.
  - cbn [map] in *. rewrite str_join_cons in *.
    unfold encode_item at 1 in Hfuel. unfold encode_item at 1. cbn [fst snd] in *.
    rewrite !append_assoc in *.
    rewrite (parse_members_step fuel inner k _ Hin).
    rewrite (IH (k, v) (or_introl eq_refl) lv " " _ fuel eq_refl (after_value_comma _)).
    + change (skip_ws ("," +:+ ?x)) with (String ","%char x).
      change (Ascii.eqb "," "}") with false. change (Ascii.eqb "," ",") with true.
      cbv iota.
      rewrite IHl; [reflexivity | | discriminate |].
      * intros x Hx. apply IH. now right.
      * rewrite !length_append in *. cbn [String.length fst snd] in *. lia.
    + rewrite !length_append in *. cbn [String.length fst snd] in *. lia.
Qed.

Lemma insert_by_key_perm (x : string * string) (l : list (string * string)) :
  Permutation (insert_by_key x l) (x :: l).
Proof.
  induction l as [|y l IH]; [reflexivity|]. cbn [insert_by_key].
  destruct (String.leb (fst x) (fst y)); [reflexivity|].
  rewrite IH. apply perm_swap.
Qed.

Lemma sort_by_key_perm (l : list (string * string)) : Permutation (sort_by_key l) l.
Proof.
  induction l as [|x l IH]; [reflexivity|]. unfold sort_by_key in *. cbn [fold_right].
  rewrite insert_by_key_perm. now constructor.
Qed.

Lemma fmap_map {A B : Type} (f : A -> B) (l : list A) : f <$> l = map f l.
Proof. induction l as [|x l IH]; [reflexivity|]. cbn. now rewrite <- IH. Qed.

(** The sorted items of an object are the texts of a reordering of its
    items. *)
Lemma sorted_items (lv : nat) (d : gmap string pyval) :
  exists items : list (string * pyval),
    sort_by_key (map_to_list (json_encode lv <$> d))
    = map (fun kv => (fst kv, json_encode lv (snd kv))) items
    /\ Permutation (map_to_list d) items.
Proof.
  pose proof (sort_by_key_perm (map_to_list (json_encode lv <$> d))) as Hp.
  rewrite map_to_list_fmap, fmap_map in Hp.
  apply Permutation_map_inv in Hp as (items & Heq & Hperm).
  exists items. split; [|exact Hperm]. rewrite map_to_list_fmap, (fmap_map (prod_map id (json_encode lv))), Heq.
  apply map_ext. now intros [k v].
Qed.

Lemma list_to_map_items (d : gmap string pyval) (items : list (string * pyval)) :
  Permutation (map_to_list d) items -> list_to_map items = d.
Proof.
  intros Hperm.
  transitivity (list_to_map (map_to_list d) : gmap string pyval);
    [|apply list_to_map_to_list].
  apply list_to_map_proper; [|now symmetry].
  rewrite <- Hperm. apply NoDup_fst_map_to_list.
Qed.

Lemma value_start_join (lv : nat) (sep r : string) (x : pyval) (l : list pyval) :
  value_start (str_join sep (map (json_encode lv) (x :: l)) +:+ r) = true.
Proof.
  destruct l as [|y l]; cbn [map].
  - apply value_start_encode.
  - rewrite str_join_cons, append_assoc. apply value_start_encode.
Qed.

Lemma value_start_join_items (lv : nat) (sep r : string) (x : string * pyval)
    (l : list (string * pyval)) :
  value_start (str_join sep (map (encode_item lv) (x :: l)) +:+ r) = true.
Proof. destruct l as [|y l]; reflexivity. Qed.

(** A list that is not empty, from its opening bracket. *)
Lemma parse_value_list (lv : nat) (inner outer rest : string) (l : list pyval) (fuel : nat) :
  all_ws inner = true -> all_ws outer = true ->
  (forall r, after_value (outer +:+ r) = true) ->
  (forall x, In x l -> reads_back x) ->
  l <> [] ->
  (2 * String.length ("[" +:+ inner +:+ str_join ("," +:+ inner) (map (json_encode lv) l)
            +:+ outer +:+ "]" +:+ rest) < S fuel)%nat ->
  parse_value (S fuel)
    ("[" +:+ inner +:+ str_join ("," +:+ inner) (map (json_encode lv) l)
     +:+ outer +:+ "]" +:+ rest)
  = Some (PList l, rest).
Proof.
  intros Hin Hout Hafter IH Hne Hfuel. rewrite parse_value_eq.
  change (skip_ws ("[" +:+ ?x)) with (String "["%char x). cbv iota.
  change (Ascii.eqb "[" "{") with false. change (Ascii.eqb "[" "[") with true. cbv iota.
  rewrite (skip_ws_app inner _ Hin).
  destruct l as [|x l]; [now destruct Hne|].
  destruct (value_start_inv _ (value_start_join lv ("," +:+ inner) (outer +:+ "]" +:+ rest) x l))
    as (c & s' & _ & -> & -> & _).
  rewrite (parse_elements_encode lv inner outer rest (x :: l) Hin Hout Hafter IH Hne);
    [reflexivity|].
  change (String.length ("[" +:+ ?x)) with (S (String.length x)) in Hfuel. lia.
Qed.

(** An object that is not empty, from its opening brace. *)
Lemma parse_value_dict (lv : nat) (inner outer rest : string)
    (items : list (string * pyval)) (fuel : nat) :
  all_ws inner = true -> all_ws outer = true ->
  (forall r, after_value (outer +:+ r) = true) ->
  (forall x, In x items -> reads_back (snd x)) ->
  items <> [] ->
  (2 * String.length ("{" +:+ inner +:+ str_join ("," +:+ inner) (map (encode_item lv) items)
            +:+ outer +:+ "}" +:+ rest) < S fuel)%nat ->
  parse_value (S fuel)
    ("{" +:+ inner +:+ str_join ("," +:+ inner) (map (encode_item lv) items)
     +:+ outer +:+ "}" +:+ rest)
  = Some (PDict (list_to_map items), rest).
Proof.
  intros Hin Hout Hafter IH Hne Hfuel. rewrite parse_value_eq.
  change (skip_ws ("{" +:+ ?x)) with (String "{"%char x). cbv iota.
  change (Ascii.eqb "{" "{") with true. cbv iota.
  rewrite (skip_ws_app inner _ Hin).
  destruct items as [|x l]; [now destruct Hne|].
  destruct (value_start_inv _
              (value_start_join_items lv ("," +:+ inner) (outer +:+ "}" +:+ rest) x l))
    as (c & s' & _ & -> & _ & ->).
  rewrite (parse_members_encode lv inner outer rest (x :: l) Hin Hout Hafter IH Hne);
    [reflexivity|].
  change (String.length ("{" +:+ ?x)) with (S (String.length x)) in Hfuel. lia.
Qed.

Lemma json_encode_list (level : nat) (x : pyval) (l : list pyval) (rest : string) :
  let inner := newline +:+ spaces (2 * S level) in
  let outer := newline +:+ spaces (2 * level) in
  json_encode level (PList (x :: l)) +:+ rest
  = "[" +:+ inner +:+ str_join ("," +:+ inner) (map (json_encode (S level)) (x :: l))
    +:+ outer +:+ "]" +:+ rest.
Proof.
  intros inner outer.
  change (json_encode level (PList (x :: l)))
    with ("[" +:+ inner +:+ str_join ("," +:+ inner) (map (json_encode (S level)) (x :: l))
          +:+ outer +:+ "]").
  clearbody inner outer. now rewrite !append_assoc.
Qed.

Lemma json_encode_dict (level : nat) (d : gmap string pyval) (rest : string) :
  let inner := newline +:+ spaces (2 * S level) in
  let outer := newline +:+ spaces (2 * level) in
  exists items : list (string * pyval),
    Permutation (map_to_list d) items /\
    json_encode level (PDict d) +:+ rest
    = match items with
      | [] => "{}" +:+ rest
      | _ => "{" +:+ inner +:+ str_join ("," +:+ inner) (map (encode_item (S level)) items)
             +:+ outer +:+ "}" +:+ rest
      end.
Proof.
  intros inner outer.
  destruct (sorted_items (S level) d) as (items & Heq & Hperm).
  exists items. split; [exact Hperm|].
  cbn [json_encode]. rewrite Heq. destruct items as [|x l]; [reflexivity|].
  cbn [map]. fold inner outer. rewrite map_map.
  change (map (fun x0 : string * pyval => json_string (fst (fst x0, json_encode (S level) (snd x0)))
                 +:+ ": " +:+ snd (fst x0, json_encode (S level) (snd x0))) l)
    with (map (encode_item (S level)) l).
  change (json_string (fst (fst x, json_encode (S level) (snd x)))
          +:+ ": " +:+ snd (fst x, json_encode (S level) (snd x)))
    with (encode_item (S level) x).
  clearbody inner outer. now rewrite !append_assoc.
Qed.

(** [parse_value] reads back the text of every value. *)
Lemma reads_back_all (n : nat) : forall v, (pyval_size v < n)%nat -> reads_back v.
Proof.
  induction n as [|n IHn]; [lia|].
  intros v Hsize level ws rest fuel Hws Hrest Hfuel.
  rewrite (parse_value_ws _ _ _ Hws).
  assert (Hfuel' : (2 * String.length (json_encode level v +:+ rest) < fuel)%nat)
    by (rewrite !length_append in *; lia).
  clear Hfuel. destruct fuel as [|fuel]; [lia|].
  destruct v as [|[]|i|s|l|d].
  - reflexivity.
  - reflexivity.
  - reflexivity.
  - cbn [json_encode]. rewrite parse_value_number by apply number_start_str_of_int.
    now apply parse_number_str_of_int.
  - cbn [json_encode]. unfold json_string. rewrite !append_assoc, parse_value_eq.
    change (skip_ws (quote +:+ ?x)) with (String (ascii_of_nat 34) x).
    cbv iota. change (Ascii.eqb (ascii_of_nat 34) "{") with false.
    change (Ascii.eqb (ascii_of_nat 34) "[") with false.
    change (code (ascii_of_nat 34) =? 34)%nat with true. cbv iota.
    now rewrite parse_string_body_json_escape.
  - destruct l as [|x l]; [reflexivity|].
    rewrite json_encode_list in *.
    apply parse_value_list; try apply all_ws_indent; try easy.
    intros y Hy. apply IHn. pose proof (pyval_size_elem _ _ Hy). lia.
  - destruct (json_encode_dict level d rest) as (items & Hperm & Heq).
    rewrite Heq in *. rewrite <- (list_to_map_items d items Hperm).
    destruct items as [|x l]; [reflexivity|].
    apply parse_value_dict; try apply all_ws_indent; try easy.
    intros [k y] Hy. apply IHn.
    assert (Hin : In (k, y) (map_to_list d)).
    { apply (Permutation_in _ (Permutation_sym Hperm) Hy). }
    pose proof (pyval_size_item _ _ _ Hin). cbn [snd]. lia.
Qed.

Lemma all_read_back (v : pyval) : reads_back v.
Proof. apply (reads_back_all (S (pyval_size v))). lia. Qed.

(** [json.load] reads back what [json.dumps] wrote, followed by a line
    feed. *)
Lemma loads_dumps (v : pyval) : loads (dumps v +:+ newline) = Ok v.
Proof.
  unfold loads, dumps.
  rewrite (all_read_back v 0%nat "" newline _ eq_refl eq_refl) by (rewrite append_nil_l; lia).
  reflexivity.
Qed.

End Json_facts.

(** ** The state store *)

Section Store.
Context `{PyLib}.

Lemma fresh_state_targets : fresh_state !! "targets" = Some (PDict ∅).
Proof. reflexivity. Qed.

(** [load_state] returns whatever the file holds: at most one log line is
    written, no file changes, and the state has a dictionary under
    ["targets"]. *)
Lemma load_state_returns (path : string) (w : World) :
  exists state events targets_state,
    load_state path w = (Ok state, after_events w events)
    /\ state !! "targets" = Some (PDict targets_state)
    /\ mail_attempted events = false.
Proof.
  unfold load_state, bind, read_file, ret.
  destruct (files w !! path) as [text|].
  - destruct (json_load text) as [v|exc].
    + destruct v as [| | | | |state];
        try (exists fresh_state, [], ∅; rewrite after_events_nil; now repeat split).
      unfold dict_get. destruct (state !! "targets") as [v|] eqn:Ht; simpl.
      * destruct v as [| | | | |ts];
          try (eexists _, [], ∅; rewrite after_events_nil;
               split; [reflexivity|]; split; [apply lookup_insert_eq | reflexivity]).
        exists state, [], ts. rewrite after_events_nil. now repeat split.
      * eexists _, [], ∅. rewrite after_events_nil.
        split; [reflexivity|]. split; [apply lookup_insert_eq | reflexivity].
    + eexists fresh_state, [_], ∅. split; [reflexivity|]. now split.
  - exists fresh_state, [], ∅. rewrite after_events_nil. now repeat split.
Qed.

Lemma save_state_run (path : string) (state : gmap string pyval) (w : World) :
  save_state path state w =
  (Ok tt,
   {| files := <[ path := json_dumps (PDict state) +:+ newline ]>
                 (delete (path +:+ ".tmp")
                    (<[ path +:+ ".tmp" := json_dumps (PDict state) +:+ newline ]> (files w)));
      trace := trace w |}).
Proof. reflexivity. Qed.

End Store.

(** C8.  [load_state] fails soft: when the file is missing, when its text
    is not JSON ([json.load] raises) and when the JSON value is not an
    object, it returns the fresh state [{"targets": {}}]; and it never
    raises: it always returns a state with a dictionary under ["targets"],
    and changes no file. *)
Theorem load_state_fails_soft (L : PyLib) (path : string) (w : World) :
  (files w !! path = None -> load_state path w = (Ok fresh_state, w))
  /\ (forall text exc,
        files w !! path = Some text -> json_load text = Raise exc ->
        exists message,
          load_state path w = (Ok fresh_state, after_events w [EvLog message]))
  /\ (forall text value,
        files w !! path = Some text -> json_load text = Ok value ->
        (forall d, value <> PDict d) ->
        load_state path w = (Ok fresh_state, w))
  /\ fresh_state = {[ "targets" := PDict ∅ ]}
  /\ (exists state w' targets_state,
        load_state path w = (Ok state, w')
        /\ state !! "targets" = Some (PDict targets_state)
        /\ files w' = files w).
Proof.
  split; [|split; [|split; [|split]]].
  - intros Hnone. unfold load_state, bind, read_file, ret. now rewrite Hnone.
  - intros text exc Htext Hexc. eexists.
    unfold load_state, bind, read_file, ret. rewrite Htext, Hexc. reflexivity.
  - intros text value Htext Hvalue Hnd.
    unfold load_state, bind, read_file, ret. rewrite Htext, Hvalue.
    destruct value; try reflexivity. now destruct (Hnd d).
  - reflexivity.
  - destruct (load_state_returns path w) as (state & events & ts & Hl & Ht & _).
    exists state, (after_events w events), ts. now repeat split.
Qed.

Lemma load_state_fails_soft_witness :
  @load_state Ascii_lib.lib "monitor_state.json" Example.first_run
  = (Ok fresh_state, Example.first_run)
  /\ (exists message,
        @load_state Ascii_lib.lib "monitor_state.json"
          {| files := {[ "monitor_state.json" := "{ not json" ]}; trace := [] |}
        = (Ok fresh_state,
           after_events {| files := {[ "monitor_state.json" := "{ not json" ]}; trace := [] |}
             [EvLog message]))
  /\ @load_state Ascii_lib.lib "monitor_state.json"
       {| files := {[ "monitor_state.json" := "[1, 2]" ]}; trace := [] |}
     = (Ok fresh_state, {| files := {[ "monitor_state.json" := "[1, 2]" ]}; trace := [] |}).
Proof.
  split; [|split].
  - apply (load_state_fails_soft Ascii_lib.lib "monitor_state.json" Example.first_run).
    reflexivity.
  - apply (proj1 (proj2 (load_state_fails_soft Ascii_lib.lib "monitor_state.json" _))
             "{ not json" (Exn "JSONDecodeError" "Expecting value")); reflexivity.
  - apply (proj1 (proj2 (proj2 (load_state_fails_soft Ascii_lib.lib "monitor_state.json" _)))
             "[1, 2]" (PList [PInt 1; PInt 2])); [reflexivity | reflexivity | discriminate].
Defined.

(** C9.  For a state that JSON can carry ([json.load] reads back what
    [json.dumps] wrote for it) and that has a dictionary under ["targets"],
    [save_state] to a path followed by [load_state] from the same path
    returns the state itself. *)
Theorem save_then_load (L : PyLib) (path : string) (state : gmap string pyval)
    (w : World) :
  json_load (json_dumps (PDict state) +:+ newline) = Ok (PDict state) ->
  (exists targets_state, state !! "targets" = Some (PDict targets_state)) ->
  exists w',
    save_state path state w = (Ok tt, w')
    /\ files w' !! path = Some (json_dumps (PDict state) +:+ newline)
    /\ load_state path w' = (Ok state, w').
Proof.
  intros Hjson [ts Hts]. eexists. split; [apply save_state_run|].
  split; [apply lookup_insert_eq|].
  unfold load_state, bind, read_file, ret. cbn [files].
  rewrite lookup_insert_eq, Hjson.
  unfold dict_get. rewrite Hts. reflexivity.
Qed.

Lemma save_then_load_witness :
  let state : gmap string pyval :=
    {[ "targets" := PDict {[ "card" := PDict Example.out_of_stock_state; "console" := PDict ∅ ]};
       "updated_at" := PStr "2024-04-30T09:00:00" ]} in
  exists w',
    @save_state Ascii_lib.lib "monitor_state.json" state Example.first_run = (Ok tt, w')
    /\ @load_state Ascii_lib.lib "monitor_state.json" w' = (Ok state, w').
Proof.
  cbn zeta.
  destruct (save_then_load Ascii_lib.lib "monitor_state.json"
              {[ "targets" := PDict {[ "card" := PDict Example.out_of_stock_state;
                                       "console" := PDict ∅ ]};
                 "updated_at" := PStr "2024-04-30T09:00:00" ]}
              Example.first_run)
    as (w' & Hs & _ & Hl).
  - vm_compute. reflexivity.
  - eexists. reflexivity.
  - exists w'. split; [exact Hs | exact Hl].
Defined.

(** ** The cycle *)

Lemma valid_now (clock : datetime.datetime) :
  datetime.valid clock = true ->
  datetime.valid (datetime.now clock) = true
  /\ datetime.utcoffset (datetime.now clock) = None.
Proof.
  intros Hv. split; [|reflexivity].
  destruct clock as [y m d h mi s us off]. unfold datetime.valid, datetime.now in *.
  simpl in *. rewrite !andb_true_iff in *. intuition.
Qed.

Lemma naive_entry_empty : naive_entry (PDict ∅) = true.
Proof. reflexivity. Qed.

Lemma naive_entry_checked (st : gmap string pyval) (now : datetime.datetime) :
  datetime.valid now = true -> datetime.utcoffset now = None ->
  dict_get st "last_check_at" = PStr (datetime.isoformat_seconds now) ->
  naive_entry (PDict st) = true.
Proof.
  intros Hv Hn Hl. unfold naive_entry.
  rewrite Hl, (parse_iso_datetime_isoformat now Hv).
  destruct now; simpl in *. now rewrite Hn.
Qed.

(** The schedule of a target can be evaluated at a naive [now] on every
    naive entry. *)
Lemma is_target_due_returns (target : Target) (st : gmap string pyval)
    (now : datetime.datetime) :
  naive_entry (PDict st) = true -> datetime.utcoffset now = None ->
  exists due, is_target_due target st now = Ok due.
Proof.
  unfold naive_entry, is_target_due. intros Hn Hnow.
  destruct (parse_iso_datetime (dict_get st "last_check_at")) as [lc|].
  - destruct (schedule target) as [interval|time m].
    + unfold datetime.sub. rewrite Hnow.
      destruct (datetime.utcoffset lc); [discriminate | eexists; reflexivity].
    + destruct (_ <? _); eexists; reflexivity.
  - destruct (schedule target) as [interval|time m]; [eexists; reflexivity|].
    destruct (_ <? _); eexists; reflexivity.
Qed.

Lemma naive_entry_is_dict (v : pyval) :
  naive_entry v = true -> exists d, v = PDict d.
Proof. destruct v; try discriminate. intros _. now eexists. Qed.

Section Cycle.
Context `{PyLib} `{Settings} `{Network}.

Lemma load_monitor_config_world (path : string) (w : World) :
  snd (load_monitor_config path w) = w.
Proof.
  unfold load_monitor_config, bind, read_file, lift, ret.
  destruct (files w !! path) as [text|]; [|reflexivity].
  destruct (json_load text) as [raw|exc]; [|reflexivity].
  destruct raw as [| | | | |raw]; try reflexivity.
  destruct (dict_get raw "targets") as [| | | |l|]; try reflexivity.
  destruct l as [|t l]; [reflexivity|].
  destruct (parse_targets 1 (t :: l)); reflexivity.
Qed.

Lemma check_targets_cons (force_run : bool) (now : datetime.datetime)
    (target : Target) (rest : list Target) (targets_state : gmap string pyval)
    (checked_count : Z) (w : World) :
  check_targets force_run now (target :: rest) targets_state checked_count w =
  (let entry := default (PDict ∅) (targets_state !! target_id target) in
   let targets_state := <[ target_id target := entry ]> targets_state in
   let* target_state := lift (as_dict entry "get") in
   let* due :=
     if force_run then ret true else lift (is_target_due target target_state now) in
   if negb due then check_targets force_run now rest targets_state checked_count
   else
     let* (_, target_state) := evaluate_target target target_state now in
     check_targets force_run now rest
       (<[ target_id target := PDict target_state ]> targets_state) (checked_count + 1)) w.
Proof. reflexivity. Qed.


Lemma run_cycle_config_error (force_run : bool) (clock : datetime.datetime)
    (w : World) (exc : exn) (w1 : World) :
  load_monitor_config MONITOR_CONFIG_FILE w = (Raise exc, w1) ->
  run_cycle force_run clock w =
  (Ok 2,
   after_events w
     [EvLog ("CONFIG: echec de chargement de " +:+ MONITOR_CONFIG_FILE +:+ ": "
             +:+ exn_msg exc)]).
Proof.
  intros Hl. pose proof (load_monitor_config_world MONITOR_CONFIG_FILE w) as Hw.
  rewrite Hl in Hw. simpl in Hw. subst w1.
  unfold run_cycle. unfold bind at 1. unfold attempt. rewrite Hl.
  rewrite bind_log. reflexivity.
Qed.

End Cycle.

Section Cycle_facts.
Context `{PyLib} `{Settings} `{Network}.

Lemma bind_ok_inv {A B} (m : M A) (k : A -> M B) (w w' : World) (b : B) :
  bind m k w = (Ok b, w') -> exists a w1, m w = (Ok a, w1) /\ k a w1 = (Ok b, w').
Proof.
  unfold bind. destruct (m w) as [[a|e] w1]; [|discriminate].
  intros Hk. now exists a, w1.
Qed.

(** When no target is due the loop does nothing: no event, no check. *)
Lemma check_targets_none_due (now : datetime.datetime) (targets : list Target) :
  forall (targets_state : gmap string pyval) (checked_count : Z) (w : World),
    none_due now targets targets_state ->
    exists targets_state',
      check_targets false now targets targets_state checked_count w
      = (Ok (targets_state', checked_count), w).
Proof.
  induction targets as [|target rest IH]; intros ts n w Hnd.
  - now exists ts.
  - rewrite check_targets_cons. cbn zeta.
    destruct (Hnd target (or_introl eq_refl)) as (st & Hst & Hdue).
    rewrite Hst. cbn [as_dict]. rewrite bind_lift_ok.
    rewrite Hdue. cbv iota. rewrite bind_lift_ok. cbn [negb].
    apply IH. intros t Ht.
    destruct (Hnd t (or_intror Ht)) as (st' & Hst' & Hdue').
    exists st'. split; [|exact Hdue'].
    destruct (decide (target_id target = target_id t)) as [Heq|Hne].
    + rewrite Heq, lookup_insert_eq. simpl. rewrite <- Heq in Hst'. congruence.
    + now rewrite lookup_insert_ne.
Qed.

Lemma run_cycle_none_due (clock : datetime.datetime) (w : World) (config : Config)
    (w1 : World) :
  load_monitor_config MONITOR_CONFIG_FILE w = (Ok config, w1) ->
  none_due (datetime.now clock) (targets config) (stored_targets MONITOR_STATE_FILE w) ->
  exists w',
    run_cycle false clock w = (Ok 0, w')
    /\ trace w' = trace (snd (load_state MONITOR_STATE_FILE w))
    /\ exists text, files w' !! MONITOR_STATE_FILE = Some text.
Proof.
  intros Hl Hnd. pose proof (load_monitor_config_world MONITOR_CONFIG_FILE w) as Hw.
  rewrite Hl in Hw. simpl in Hw. subst w1.
  unfold run_cycle. unfold bind at 1. unfold attempt. rewrite Hl.
  destruct (load_state_returns MONITOR_STATE_FILE w) as (state & ev1 & ts & Hs & Hst & _).
  unfold stored_targets in Hnd. rewrite Hs, Hst in Hnd.
  rewrite (bind_run _ _ _ _ _ Hs). rewrite Hst.
  change (default (PDict ∅) (Some (PDict ts))) with (PDict ts).
  cbn [as_dict]. rewrite bind_lift_ok.
  destruct (check_targets_none_due (datetime.now clock) (targets config) ts 0
              (after_events w ev1) Hnd) as (ts' & Hc).
  rewrite (bind_run _ _ _ _ _ Hc).
  unfold bind at 1. rewrite save_state_run.
  change (negb (0 =? 0)) with false. cbv iota. rewrite bind_ret. unfold ret.
  eexists. split; [reflexivity|]. rewrite Hs.
  split; [reflexivity|]. eexists. apply lookup_insert_eq.
Qed.

(** A cycle that returns normally returns 2 when the configuration could
    not be loaded, and 0 otherwise. *)
Lemma run_cycle_exit_codes (force_run : bool) (clock : datetime.datetime)
    (w : World) (code : Z) (w' : World) :
  run_cycle force_run clock w = (Ok code, w') ->
  (code = 2 /\ exists exc, fst (load_monitor_config MONITOR_CONFIG_FILE w) = Raise exc)
  \/ (code = 0 /\ exists config, fst (load_monitor_config MONITOR_CONFIG_FILE w) = Ok config).
Proof.
  unfold run_cycle. unfold bind at 1. unfold attempt.
  destruct (load_monitor_config MONITOR_CONFIG_FILE w) as [[config|exc] w1] eqn:Hl.
  - intros Hr. right. split; [|now exists config].
    apply bind_ok_inv in Hr as (state & w2 & _ & Hr).
    apply bind_ok_inv in Hr as (ts & w3 & _ & Hr).
    apply bind_ok_inv in Hr as ([ts' n'] & w4 & _ & Hr).
    apply bind_ok_inv in Hr as (u & w5 & _ & Hr).
    apply bind_ok_inv in Hr as (u' & w6 & _ & Hr).
    unfold ret in Hr. congruence.
  - rewrite bind_log. unfold ret. intros [= <- _]. left. split; [reflexivity|].
    now exists exc.
Qed.

End Cycle_facts.

Lemma fetched_urls_app (e1 e2 : list event) :
  fetched_urls (e1 ++ e2) = fetched_urls e1 ++ fetched_urls e2.
Proof. apply flat_map_app. Qed.

Lemma checkable_is_dict (force_run : bool) (v : pyval) :
  checkable force_run v = true -> exists d, v = PDict d.
Proof.
  destruct force_run; cbn [checkable]; [|apply naive_entry_is_dict].
  destruct v; try discriminate. intros _. now eexists.
Qed.

(** A target whose last check is stamped with [now] is not due at [now]. *)
Lemma stamped_not_due (target : Target) (st : gmap string pyval) (now : datetime.datetime) :
  datetime.valid now = true -> datetime.utcoffset now = None ->
  well_formed_schedule (schedule target) = true ->
  dict_get st "last_check_at" = PStr (datetime.isoformat_seconds now) ->
  is_target_due target st now = Ok false.
Proof.
  intros Hv Hn Hwf Hst. unfold is_target_due.
  rewrite Hst, (parse_iso_datetime_isoformat now Hv).
  destruct (schedule target) as [interval|time m].
  - cbn [well_formed_schedule] in Hwf. apply Z.ltb_lt in Hwf.
    pose proof (valid_bounds now Hv) as Hb.
    destruct now as [y mo d h mi s us off]. cbn in Hn. subst off.
    unfold datetime.sub, datetime.truncate_seconds, datetime.toordinal,
      datetime.time_microseconds. cbn [datetime.year datetime.month datetime.day
      datetime.hour datetime.minute datetime.second datetime.microsecond datetime.utcoffset].
    cbn [datetime.year datetime.month datetime.day
      datetime.hour datetime.minute datetime.second datetime.microsecond datetime.utcoffset] in Hb.
    cbv zeta. f_equal. apply (float_ge_int_mono _ 1 interval); [lia|].
    rewrite total_seconds_ge by (split; [lia | vm_compute; discriminate]).
    apply Z.leb_gt. lia.
  - destruct (_ <? _); [reflexivity|].
    replace (datetime.date (datetime.truncate_seconds now)) with (datetime.date now)
      by reflexivity.
    now rewrite date_ltb_irrefl.
Qed.

Lemma naive_checkable (force_run : bool) (targets_state : gmap string pyval) :
  naive_entries targets_state -> checkable_entries force_run targets_state.
Proof.
  intros Hn key v Hv. specialize (Hn key v Hv). cbn in Hn.
  destruct force_run; cbn [checkable]; [|exact Hn].
  destruct (naive_entry_is_dict v Hn) as [d ->]. reflexivity.
Qed.

Section Run.
Context `{PyLib} `{Settings} `{Network}.

(** A check of a target whose mails the library accepts returns.  It
    requests the URL of its target once and nothing else, stamps the state
    with the time of the check, and returns whether the page was fetched;
    when the fetch raised the state is that of [record_failure]. *)
Lemma evaluate_target_run (target : Target) (st : gmap string pyval)
    (now : datetime.datetime) (w : World) :
  mail_accepted target ->
  exists checked st' events,
    evaluate_target target st now w = (Ok (checked, st'), after_events w events)
    /\ st' !! "last_check_at" = Some (PStr (datetime.isoformat_seconds now))
    /\ fetched_urls events = [url target]
    /\ checked = match fetch_outcome target w with Ok _ => true | Raise _ => false end
    /\ (forall k, k <> "last_state" -> k <> "last_marker" -> k <> "last_check_at" ->
          st' !! k = st !! k)
    /\ (forall exc, fetch_outcome target w = Raise exc -> st' = record_failure st now).
Proof.
  intros Hmail. destruct (fetch_outcome target w) as [html|exc] eqn:Hf.
  - destruct (evaluate_target_classified target st now w html Hf)
      as (m1 & events & He & Hev).
    cbn zeta in Hev. rewrite (mail_accepted_check_error target st now html Hmail) in He.
    eexists _, _, _. split; [exact He|].
    split; [apply record_check_lookup|].
    split; [|split; [reflexivity|split; [apply record_check_lookup | discriminate]]].
    rewrite fetched_urls_app.
    destruct (_ && _).
    + destruct Hev as (rest & -> & _ & Hrest).
      change (fetched_urls (EvSendEmail ?a ?b ?c :: rest)) with (fetched_urls rest).
      now rewrite Hrest.
    + destruct Hev as (_ & ->). reflexivity.
  - eexists _, _, _. split; [exact (evaluate_target_fetch_failed target st now w exc Hf)|].
    split; [apply record_failure_lookup|]. split; [reflexivity|]. split; [reflexivity|].
    split; [|reflexivity].
    intros k Hk1 _ Hk3. now apply record_failure_lookup.
Qed.

(** The loop of the cycle: which targets it checks and what it leaves in
    the state. *)
Lemma check_targets_loop (force_run : bool) (now : datetime.datetime)
    (targets : list Target) :
  datetime.valid now = true -> datetime.utcoffset now = None ->
  Forall mail_accepted targets ->
  forall (targets_state : gmap string pyval) (checked_count : Z) (w : World),
    checkable_entries force_run targets_state ->
    exists targets_state' checked events,
      check_targets force_run now targets targets_state checked_count w
      = (Ok (targets_state', checked_count + Z.of_nat (length checked)),
         after_events w events)
      /\ loop_outcome force_run now targets targets_state targets_state' checked events.
Proof.
  unfold loop_outcome.
  intros Hv Hn. induction targets as [|target rest IH]; intros Hmail ts n w Hts.
  - exists ts, [], []. rewrite after_events_nil.
    replace (n + Z.of_nat (length (@nil Target))) with n by (cbn [length]; lia).
    split; [reflexivity|]. split; [exact Hts|]. split; [reflexivity|].
    split; [constructor|]. split; [reflexivity|]. split; [reflexivity|].
    split; [intros t []|]. split; [intros id st Hid Hst; now exists st|].
    split; [intros t []|].
    split; [intros _ _; split; [constructor | intros t st []] | intros _ t []].
  - pose proof (List.Forall_inv Hmail) as Hmail0.
    pose proof (List.Forall_inv_tail Hmail) as Hmailr.
    rewrite check_targets_cons. cbn zeta.
    set (id0 := target_id target).
    set (entry := default (PDict ∅) (ts !! id0)).
    assert (Hentry : checkable force_run entry = true).
    { unfold entry. destruct (ts !! id0) as [v|] eqn:Hlk; cbn [default from_option id].
      - exact (Hts _ _ Hlk).
      - now destruct force_run. }
    destruct (checkable_is_dict force_run entry Hentry) as [st Hst].
    assert (Hts1 : checkable_entries force_run (<[ id0 := entry ]> ts))
      by (now apply map_Forall_insert_2).
    assert (Hsame : forall id, (<[ id0 := entry ]> ts) !! id = Some entry /\ id = id0
                               \/ (<[ id0 := entry ]> ts) !! id = ts !! id).
    { intros id. destruct (decide (id = id0)) as [-> | Hne].
      - left. now rewrite lookup_insert_eq.
      - right. now rewrite lookup_insert_ne. }
    assert (Hkeep : forall id d, ts !! id = Some (PDict d) ->
                                 (<[ id0 := entry ]> ts) !! id = Some (PDict d)).
    { intros id d Hid. destruct (decide (id = id0)) as [-> | Hne].
      - rewrite lookup_insert_eq. unfold entry. now rewrite Hid.
      - now rewrite lookup_insert_ne. }
    rewrite Hst in *. cbn [as_dict]. rewrite bind_lift_ok.
    assert (Hd : exists due,
               (if force_run then ret true else lift (is_target_due target st now)) w
               = (Ok due, w)
               /\ (force_run = true -> due = true)
               /\ (force_run = false -> is_target_due target st now = Ok due)).
    { destruct force_run.
      - exists true. now repeat split.
      - destruct (is_target_due_returns target st now Hentry Hn) as [due Hdue].
        exists due. unfold lift. rewrite Hdue. now repeat split. }
    destruct Hd as (due & Hd & Hforce & Hgated). rewrite (bind_run _ _ _ _ _ Hd).
    destruct due; cbn [negb].
    + destruct (evaluate_target_run target st now w Hmail0)
        as (checked & st' & events & He & Hl & Hfetch & _ & _ & Hfailed).
      rewrite (bind_run _ _ _ _ _ He).
      assert (Hts2 : checkable_entries force_run
                       (<[ id0 := PDict st' ]> (<[ id0 := PDict st ]> ts))).
      { apply map_Forall_insert_2; [|exact Hts1].
        destruct force_run; [reflexivity|]. apply (naive_entry_checked st' now Hv Hn).
        unfold dict_get. now rewrite Hl. }
      destruct (IH Hmailr (<[ id0 := PDict st' ]> (<[ id0 := PDict st ]> ts))
                  (n + 1) (after_events w events) Hts2)
        as (ts' & checked' & events' & Hc & Hts' & Hf' & Hsub & Hall & Hother & Hdict
            & Hstamp & Hchecked & Hnodup & Hfail).
      exists ts', (target :: checked'), (events ++ events').
      rewrite Hc, after_events_app. cbn [length].
      replace (n + 1 + Z.of_nat (length checked')) with (n + Z.of_nat (S (length checked')))
        by lia.
      split; [reflexivity|]. split; [exact Hts'|].
      split; [rewrite fetched_urls_app, Hfetch, Hf'; reflexivity|].
      split; [now constructor|].
      split; [intros Hf; now rewrite (Hall Hf)|].
      assert (Hid0 : exists d, ts' !! id0 = Some (PDict d)
                               /\ d !! "last_check_at"
                                  = Some (PStr (datetime.isoformat_seconds now))).
      { apply (Hstamp id0 st'); [apply lookup_insert_eq | exact Hl]. }
      split; [|split; [|split; [|split; [|split]]]].
      * intros id Hid. cbn [map In] in Hid.
        rewrite (Hother id) by tauto.
        rewrite !lookup_insert_ne by (intros Heq; apply Hid; left; exact Heq).
        reflexivity.
      * intros t [<- | Ht]; [|now apply Hdict].
        destruct Hid0 as (d & Hd0 & _). now exists d.
      * intros id d Hid Hdl.
        destruct (decide (id = id0)) as [-> | Hne]; [exact Hid0|].
        apply (Hstamp id d); [|exact Hdl].
        now rewrite !lookup_insert_ne by congruence.
      * intros t [<- | Ht]; [exact Hid0 | now apply Hchecked].
      * intros Hf Hwf. pose proof (List.Forall_inv Hwf) as Hwf0.
        pose proof (List.Forall_inv_tail Hwf) as Hwfr.
        destruct (Hnodup Hf Hwfr) as [Hnd Hfresh].
        assert (Hnot : ~ In id0 (map target_id checked')).
        { intros Hin. apply in_map_iff in Hin as (t & Hidt & Ht).
          apply (Hfresh t st' Ht); [|exact Hl].
          rewrite Hidt. apply lookup_insert_eq. }
        split; [cbn [map]; constructor; [rewrite list_elem_of_In; exact Hnot | exact Hnd]|].
        intros t d [<- | Ht] Hlk.
        -- intros Hdl. fold id0 in Hlk.
           assert (Hentry' : entry = PDict d) by (unfold entry; now rewrite Hlk).
           rewrite Hst in Hentry'. injection Hentry' as <-.
           rewrite (stamped_not_due target st now Hv Hn Hwf0) in Hgated.
           ++ specialize (Hgated Hf). discriminate Hgated.
           ++ unfold dict_get. now rewrite Hdl.
        -- apply (Hfresh t d Ht).
           assert (Hne : target_id t <> id0).
           { intros Heq. apply Hnot. apply in_map_iff. now exists t. }
           rewrite !lookup_insert_ne by (intros Heq; apply Hne; now symmetry).
           exact Hlk.
      * intros Hdistinct t Ht Halways. cbn [map] in Hdistinct.
        apply NoDup_cons in Hdistinct as [Hfirst Hdistinct].
        rewrite list_elem_of_In in Hfirst.
        destruct Ht as [<- | Ht].
        -- exists st. fold id0. split; [exact Hst|].
           rewrite (Hother id0 Hfirst), lookup_insert_eq.
           destruct (Halways (S (length (trace w)))) as [exc Hexc].
           now rewrite (Hfailed exc Hexc).
        -- destruct (Hfail Hdistinct t Ht Halways) as (d & Hd1 & Hd2).
           exists d. split; [|exact Hd2].
           assert (Hne : target_id t <> id0).
           { intros Heq. apply Hfirst. apply in_map_iff. exists t.
             split; [exact Heq|]. apply list_elem_of_In.
             apply (sublist_subseteq _ _ Hsub). now apply list_elem_of_In. }
           now rewrite !lookup_insert_ne in Hd1 by (intros Heq; apply Hne; now symmetry).
    + destruct (IH Hmailr (<[ id0 := PDict st ]> ts) n w Hts1)
        as (ts' & checked' & events' & Hc & Hts' & Hf' & Hsub & Hall & Hother & Hdict
            & Hstamp & Hchecked & Hnodup & Hfail).
      exists ts', checked', events'. rewrite Hc.
      split; [reflexivity|]. split; [exact Hts'|]. split; [exact Hf'|].
      split; [now constructor|].
      split; [intros Hf; specialize (Hforce Hf); discriminate Hforce|].
      split; [|split; [|split; [|split; [|split]]]].
      * intros id Hid. cbn [map In] in Hid.
        rewrite (Hother id) by tauto.
        rewrite lookup_insert_ne by (intros Heq; apply Hid; left; exact Heq).
        reflexivity.
      * intros t [<- | Ht]; [|now apply Hdict].
        destruct (in_dec string_dec id0 (map target_id rest)) as [Hin | Hnin].
        -- apply in_map_iff in Hin as (t & Hidt & Ht). fold id0. rewrite <- Hidt.
           now apply Hdict.
        -- fold id0. rewrite (Hother id0 Hnin), lookup_insert_eq. now exists st.
      * intros id d Hid Hdl. apply (Hstamp id d); [|exact Hdl].
        now apply Hkeep.
      * exact Hchecked.
      * intros Hf Hwf. pose proof (List.Forall_inv Hwf) as Hwf0.
        pose proof (List.Forall_inv_tail Hwf) as Hwfr.
        destruct (Hnodup Hf Hwfr) as [Hnd Hfresh]. split; [exact Hnd|].
        intros t d Ht Hlk. apply (Hfresh t d Ht). now apply Hkeep.
      * intros Hdistinct t Ht Halways. cbn [map] in Hdistinct.
        apply NoDup_cons in Hdistinct as [Hfirst Hdistinct].
        rewrite list_elem_of_In in Hfirst.
        destruct (Hfail Hdistinct t Ht Halways) as (d & Hd1 & Hd2).
        exists d. split; [|exact Hd2].
        assert (Hne : target_id t <> id0).
        { intros Heq. apply Hfirst. apply in_map_iff. exists t.
          split; [exact Heq|]. apply list_elem_of_In.
          apply (sublist_subseteq _ _ Hsub). now apply list_elem_of_In. }
        now rewrite lookup_insert_ne in Hd1 by (intros Heq; apply Hne; now symmetry).
Qed.

Lemma check_targets_entries (force_run : bool) (now : datetime.datetime)
    (targets : list Target) :
  datetime.valid now = true -> datetime.utcoffset now = None ->
  Forall mail_accepted targets ->
  forall (targets_state : gmap string pyval) (checked_count : Z) (w : World)
         (targets_state' : gmap string pyval) (checked_count' : Z) (w' : World),
    checkable_entries force_run targets_state ->
    check_targets force_run now targets targets_state checked_count w
    = (Ok (targets_state', checked_count'), w') ->
    entries_outcome now targets targets_state targets_state'.
Proof.
  unfold entries_outcome.
  intros Hv Hn. induction targets as [|target rest IH]; intros Hmail ts n w ts' n' w' Hts.
  - intros [= <- _ _]. split; [intros key; now left | intros _ t []].
  - pose proof (List.Forall_inv Hmail) as Hmail0.
    pose proof (List.Forall_inv_tail Hmail) as Hmailr.
    rewrite check_targets_cons. cbn zeta.
    set (id0 := target_id target).
    set (entry := default (PDict ∅) (ts !! id0)).
    assert (Hentry : checkable force_run entry = true).
    { unfold entry. destruct (ts !! id0) as [v|] eqn:Hlk; cbn [default from_option id].
      - exact (Hts _ _ Hlk).
      - now destruct force_run. }
    destruct (checkable_is_dict force_run entry Hentry) as [st Hst].
    assert (Hts1 : checkable_entries force_run (<[ id0 := entry ]> ts))
      by (now apply map_Forall_insert_2).
    assert (Hfirst : ts !! id0 = Some (PDict st) \/ ts !! id0 = None /\ st = ∅).
    { unfold entry in Hst. destruct (ts !! id0) as [v|]; cbn [default from_option id] in Hst.
      - left. now rewrite Hst.
      - right. split; [reflexivity|]. now injection Hst as <-. }
    rewrite Hst in *. cbn [as_dict]. rewrite bind_lift_ok.
    assert (Hd : exists due,
               (if force_run then ret true else lift (is_target_due target st now)) w
               = (Ok due, w)
               /\ (due = false -> is_target_due target st now = Ok false)).
    { destruct force_run.
      - exists true. split; [reflexivity | discriminate].
      - destruct (is_target_due_returns target st now Hentry Hn) as [due Hdue].
        exists due. unfold lift. rewrite Hdue. split; [reflexivity|]. now intros ->. }
    destruct Hd as (due & Hd & Hdue). rewrite (bind_run _ _ _ _ _ Hd).
    destruct due; cbn [negb].
    + destruct (evaluate_target_run target st now w Hmail0)
        as (checked & st' & events & He & Hl & _).
      rewrite (bind_run _ _ _ _ _ He). intros Hc.
      assert (Hts2 : checkable_entries force_run
                       (<[ id0 := PDict st' ]> (<[ id0 := PDict st ]> ts))).
      { apply map_Forall_insert_2; [|exact Hts1].
        destruct force_run; [reflexivity|]. apply (naive_entry_checked st' now Hv Hn).
        unfold dict_get. now rewrite Hl. }
      destruct (IH Hmailr _ _ _ _ _ _ Hts2 Hc) as [Hchange Hdone].
      assert (Hid0 : exists d, ts' !! id0 = Some (PDict d)
                               /\ d !! "last_check_at"
                                  = Some (PStr (datetime.isoformat_seconds now))).
      { destruct (Hchange id0) as [Hsame | [Hstamped | [Hnone _]]].
        - rewrite lookup_insert_eq in Hsame. now exists st'.
        - exact Hstamped.
        - rewrite lookup_insert_eq in Hnone. discriminate Hnone. }
      split.
      * intros key. destruct (decide (key = id0)) as [-> | Hne].
        -- right. left. exact Hid0.
        -- destruct (Hchange key) as [Hsame | [Hstamped | [Hnone Hempty]]].
           ++ left. rewrite Hsame. now rewrite !lookup_insert_ne by congruence.
           ++ right. left. exact Hstamped.
           ++ right. right. split; [|exact Hempty].
              now rewrite !lookup_insert_ne in Hnone by congruence.
      * intros Hwf t [<- | Ht].
        -- destruct Hid0 as (d & Hd0 & Hdl). exists d. split; [exact Hd0|].
           apply (stamped_not_due target d now Hv Hn (List.Forall_inv Hwf)).
           unfold dict_get. now rewrite Hdl.
        -- exact (Hdone (List.Forall_inv_tail Hwf) t Ht).
    + intros Hc. destruct (IH Hmailr _ _ _ _ _ _ Hts1 Hc) as [Hchange Hdone].
      split.
      * intros key. destruct (decide (key = id0)) as [-> | Hne].
        -- destruct (Hchange id0) as [Hsame | [Hstamped | [Hnone _]]].
           ++ rewrite lookup_insert_eq in Hsame.
              destruct Hfirst as [Hf | [Hf ->]].
              ** left. now rewrite Hsame, Hf.
              ** right. right. now split.
           ++ right. left. exact Hstamped.
           ++ rewrite lookup_insert_eq in Hnone. discriminate Hnone.
        -- destruct (Hchange key) as [Hsame | [Hstamped | [Hnone Hempty]]].
           ++ left. rewrite Hsame. now rewrite lookup_insert_ne by congruence.
           ++ right. left. exact Hstamped.
           ++ right. right. split; [|exact Hempty].
              now rewrite lookup_insert_ne in Hnone by congruence.
      * intros Hwf t [<- | Ht].
        -- fold id0. destruct (Hchange id0) as [Hsame | [Hstamped | [Hnone _]]].
           ++ rewrite lookup_insert_eq in Hsame. exists st. split; [exact Hsame|].
              now apply Hdue.
           ++ destruct Hstamped as (d & Hd0 & Hdl). exists d. split; [exact Hd0|].
              apply (stamped_not_due target d now Hv Hn (List.Forall_inv Hwf)).
              unfold dict_get. now rewrite Hdl.
           ++ rewrite lookup_insert_eq in Hnone. discriminate Hnone.
        -- exact (Hdone (List.Forall_inv_tail Hwf) t Ht).
Qed.

Lemma check_targets_run (force_run : bool) (now : datetime.datetime)
    (targets : list Target) :
  datetime.valid now = true -> datetime.utcoffset now = None ->
  Forall mail_accepted targets ->
  forall (targets_state : gmap string pyval) (checked_count : Z) (w : World),
    checkable_entries force_run targets_state ->
    exists targets_state' checked events,
      check_targets force_run now targets targets_state checked_count w
      = (Ok (targets_state', checked_count + Z.of_nat (length checked)),
         after_events w events)
      /\ loop_outcome force_run now targets targets_state targets_state' checked events
      /\ entries_outcome now targets targets_state targets_state'.
Proof.
  intros Hv Hn Hmail ts n w Hts.
  destruct (check_targets_loop force_run now targets Hv Hn Hmail ts n w Hts)
    as (ts' & checked & events & Hc & Hout).
  exists ts', checked, events. split; [exact Hc|]. split; [exact Hout|].
  exact (check_targets_entries force_run now targets Hv Hn Hmail _ _ _ _ _ _ Hts Hc).
Qed.

End Run.

Section Cycle_run.
Context `{PyLib} `{Settings} `{Network}.

Lemma after_events_inj (w : World) (e1 e2 : list event) :
  after_events w e1 = after_events w e2 -> e1 = e2.
Proof.
  intros Hw. apply (f_equal trace) in Hw. rewrite !trace_after_events in Hw.
  now apply app_inv_head in Hw.
Qed.

Lemma load_state_run (path : string) (w : World) :
  exists state events targets_state,
    load_state path w = (Ok state, after_events w events)
    /\ state !! "targets" = Some (PDict targets_state)
    /\ stored_targets path w = targets_state
    /\ fetched_urls events = []
    /\ mail_attempted events = false.
Proof.
  destruct (load_state_returns path w) as (state & events & ts & Hl & Ht & Hm).
  exists state, events, ts. split; [exact Hl|]. split; [exact Ht|].
  split; [unfold stored_targets; now rewrite Hl, Ht|]. split; [|exact Hm].
  assert (Hcases : events = [] \/ exists message, events = [EvLog message]).
  { revert Hl. unfold load_state, bind, read_file, ret.
    assert (Hnil : forall s, (Ok s, w) = (Ok state, after_events w events) -> events = []).
    { intros s Heq. apply (f_equal snd) in Heq. cbn [snd] in Heq.
      rewrite <- (after_events_nil w) in Heq at 1. symmetry.
      exact (after_events_inj _ _ _ Heq). }
    destruct (files w !! path) as [text|]; [|intros Hl; left; exact (Hnil _ Hl)].
    destruct (json_load text) as [v|exc].
    - destruct v as [| | | | |d]; try (intros Hl; left; exact (Hnil _ Hl)).
      destruct (dict_get d "targets"); intros Hl; left; exact (Hnil _ Hl).
    - intros Heq. right. apply (f_equal snd) in Heq. cbn [snd] in Heq.
      eexists. symmetry. apply (after_events_inj w). exact Heq. }
  destruct Hcases as [-> | [message ->]]; reflexivity.
Qed.

(** A cycle whose configuration loads, on a stored state with checkable
    entries: what it reads, which targets it checks, and what it writes. *)
Lemma run_cycle_run (force_run : bool) (clock : datetime.datetime)
    (w : World) (config : Config) (w1 : World) :
  load_monitor_config MONITOR_CONFIG_FILE w = (Ok config, w1) ->
  datetime.valid clock = true ->
  checkable_entries force_run (stored_targets MONITOR_STATE_FILE w) ->
  Forall mail_accepted (targets config) ->
  exists state0 events0 targets_state' (checked : list Target) events,
    load_state MONITOR_STATE_FILE w = (Ok state0, after_events w events0)
    /\ fetched_urls events0 = []
    /\ state0 !! "targets" = Some (PDict (stored_targets MONITOR_STATE_FILE w))
    /\ loop_outcome force_run (datetime.now clock) (targets config)
         (stored_targets MONITOR_STATE_FILE w) targets_state' checked events
    /\ entries_outcome (datetime.now clock) (targets config)
         (stored_targets MONITOR_STATE_FILE w) targets_state'
    /\ run_cycle force_run clock w
       = (Ok 0,
          let state :=
            <[ "updated_at" := PStr (datetime.isoformat_seconds (datetime.now clock)) ]>
              (<[ "targets" := PDict targets_state' ]> state0) in
          let payload := json_dumps (PDict state) +:+ newline in
          {| files := <[ MONITOR_STATE_FILE := payload ]>
                        (delete (MONITOR_STATE_FILE +:+ ".tmp")
                           (<[ MONITOR_STATE_FILE +:+ ".tmp" := payload ]> (files w)));
             trace := trace w ++ events0 ++ events
                      ++ match checked with
                         | [] => []
                         | _ :: _ =>
                             [EvLog ("Cycle termine: "
                                     +:+ str_of_int (Z.of_nat (length checked))
                                     +:+ " page(s) verifiee(s).")]
                         end |}).
Proof.
  intros Hl Hv Hts Hmail.
  pose proof (load_monitor_config_world MONITOR_CONFIG_FILE w) as Hw.
  rewrite Hl in Hw. simpl in Hw. subst w1.
  destruct (valid_now clock Hv) as [Hvn Hnn].
  destruct (load_state_run MONITOR_STATE_FILE w)
    as (state0 & ev0 & ts & Hs & Hst & Hstored & Hf0 & _).
  rewrite Hstored in *.
  destruct (check_targets_run force_run (datetime.now clock) (targets config) Hvn Hnn
              Hmail ts 0 (after_events w ev0) Hts)
    as (ts' & checked & events & Hc & Hout & Hentries).
  rewrite Z.add_0_l in Hc.
  exists state0, ev0, ts', checked, events.
  split; [exact Hs|]. split; [exact Hf0|]. split; [exact Hst|]. split; [exact Hout|].
  split; [exact Hentries|].
  unfold run_cycle. unfold bind at 1. unfold attempt. rewrite Hl.
  rewrite (bind_run _ _ _ _ _ Hs). rewrite Hst.
  change (default (PDict ∅) (Some (PDict ts))) with (PDict ts).
  cbn [as_dict]. rewrite bind_lift_ok.
  rewrite (bind_run _ _ _ _ _ Hc).
  unfold bind at 1. rewrite save_state_run.
  rewrite insert_insert_eq. cbv zeta.
  destruct checked as [|t checked].
  - change (negb (Z.of_nat (length (@nil Target)) =? 0)) with false. cbv iota.
    rewrite bind_ret. unfold ret, after_events. cbn [files trace].
    now rewrite <- !app_assoc, app_nil_r.
  - replace (negb (Z.of_nat (length (t :: checked)) =? 0)) with true
      by (symmetry; apply negb_true_iff, Z.eqb_neq; cbn [length]; lia).
    cbv iota. rewrite bind_log. unfold ret, after_events. cbn [files trace].
    now rewrite <- !app_assoc.
Qed.

End Cycle_run.

(** The library of ASCII text accepts the mails of the two targets of the
    example. *)
Lemma example_mail_accepted :
  Forall (@mail_accepted Ascii_lib.lib Example.settings)
    [Example.daily_target; Example.hourly_target].
Proof.
  repeat constructor; intros current_state body [-> | ->] Hm Hr;
    first [exfalso; apply Hr; reflexivity | eexists; reflexivity].
Qed.



(** C7.  When the configuration cannot be loaded (the file is missing, its
    text is not JSON, or the validation of its value fails), [run_cycle]
    returns 2 after one log line and changes no file: the state is neither
    loaded nor saved.  When the configuration is loaded and the library
    accepts the mails of its targets, the cycle returns 0; when no target
    is due it returns 0 and fetches nothing; and a cycle that returns at
    all returns 2 or 0, 2 exactly when the configuration could not be
    loaded. *)
Theorem config_error_exit_code (L : PyLib) (S : Settings) (N : Network)
    (force_run : bool) (clock : datetime.datetime) (w : World) :
  (forall exc w1,
      load_monitor_config MONITOR_CONFIG_FILE w = (Raise exc, w1) ->
      exists w',
        run_cycle force_run clock w = (Ok 2, w')
        /\ files w' = files w
        /\ trace w' = trace w ++ [EvLog ("CONFIG: echec de chargement de "
                                          +:+ MONITOR_CONFIG_FILE +:+ ": " +:+ exn_msg exc)])
  /\ (files w !! MONITOR_CONFIG_FILE = None ->
      exists exc, load_monitor_config MONITOR_CONFIG_FILE w = (Raise exc, w))
  /\ (forall text exc,
        files w !! MONITOR_CONFIG_FILE = Some text -> json_load text = Raise exc ->
        load_monitor_config MONITOR_CONFIG_FILE w = (Raise exc, w))
  /\ (forall text value,
        files w !! MONITOR_CONFIG_FILE = Some text -> json_load text = Ok value ->
        (forall raw l, value = PDict raw -> dict_get raw "targets" = PList l ->
                       l = [] \/ exists exc, parse_targets 1 l = Raise exc) ->
        exists exc, load_monitor_config MONITOR_CONFIG_FILE w = (Raise exc, w))
  /\ (forall config w1,
        load_monitor_config MONITOR_CONFIG_FILE w = (Ok config, w1) ->
        datetime.valid clock = true ->
        naive_entries (stored_targets MONITOR_STATE_FILE w) ->
        Forall mail_accepted (targets config) ->
        exists w', run_cycle force_run clock w = (Ok 0, w'))
  /\ (forall config w1,
        load_monitor_config MONITOR_CONFIG_FILE w = (Ok config, w1) ->
        none_due (datetime.now clock) (targets config)
          (stored_targets MONITOR_STATE_FILE w) ->
        exists w',
          run_cycle false clock w = (Ok 0, w')
          /\ trace w' = trace (snd (load_state MONITOR_STATE_FILE w)))
  /\ (forall code w',
        run_cycle force_run clock w = (Ok code, w') ->
        (code = 2 /\ exists exc, fst (load_monitor_config MONITOR_CONFIG_FILE w) = Raise exc)
        \/ (code = 0
            /\ exists config, fst (load_monitor_config MONITOR_CONFIG_FILE w) = Ok config)).
Proof.
  split; [|split; [|split; [|split; [|split; [|split]]]]].
  - intros exc w1 Hl. eexists.
    split; [exact (run_cycle_config_error force_run clock w exc w1 Hl)|].
    split; reflexivity.
  - intros Hnone. eexists.
    unfold load_monitor_config, bind, read_file, lift. rewrite Hnone. reflexivity.
  - intros text exc Htext Hexc.
    unfold load_monitor_config, bind, read_file, lift. rewrite Htext, Hexc. reflexivity.
  - intros text value Htext Hvalue Hbad.
    unfold load_monitor_config, bind, read_file, lift, ret. rewrite Htext, Hvalue.
    destruct value as [| | | | |raw]; try (eexists; reflexivity).
    destruct (dict_get raw "targets") as [| | | |l|] eqn:Ht; try (eexists; reflexivity).
    destruct (Hbad raw l eq_refl Ht) as [-> | [exc Hexc]]; [eexists; reflexivity|].
    destruct l as [|t l]; [eexists; reflexivity|]. rewrite Hexc. eexists; reflexivity.
  - intros config w1 Hl Hv Hts Hmail.
    destruct (run_cycle_run force_run clock w config w1 Hl Hv
                (naive_checkable force_run _ Hts) Hmail)
      as (state0 & ev0 & ts' & checked & events & _ & _ & _ & _ & _ & Hr).
    eexists. exact Hr.
  - intros config w1 Hl Hnd.
    destruct (run_cycle_none_due clock w config w1 Hl Hnd) as (w' & Hr & Ht & _).
    now exists w'.
  - intros code w'. apply run_cycle_exit_codes.
Qed.

Lemma config_error_exit_code_witness :
  (exists w',
      @run_cycle Ascii_lib.lib Example.settings Example.online false Example.morning
        Example.no_config = (Ok 2, w')
      /\ files w' = files Example.no_config)
  /\ (exists w',
        @run_cycle Ascii_lib.lib Example.settings Example.online false
          (datetime.mk 2024 5 1 8 0 0 0 None)
          {| files := {[ "monitor_targets.json" :=
                           Ascii_lib.dumps
                             (PDict {[ "targets" :=
                                         PList [PDict {[ "url" := PStr "https://shop.example.org/";
                                                         "out_of_stock_terms" := PStr "epuise";
                                                         "schedule" := PDict {[ "mode" := PStr "daily";
                                                                                "time" := PStr "09:00" ]} ]}] ]}) ]};
             trace := [] |}
        = (Ok 0, w')
        /\ trace w' = [])
  /\ (exists w',
        @run_cycle Ascii_lib.lib Example.settings Example.online true Example.morning
          Example.first_run = (Ok 0, w')).
Proof.
  split; [|split].
  - destruct (config_error_exit_code Ascii_lib.lib Example.settings Example.online
                false Example.morning Example.no_config) as (H1 & H2 & _).
    destruct (H2 eq_refl) as [exc Hl].
    destruct (H1 exc _ Hl) as (w' & Hr & Hf & _).
    exists w'. split; [exact Hr | exact Hf].
  - match goal with
    | |- exists w', run_cycle false ?clock ?w = _ /\ _ =>
        destruct (config_error_exit_code Ascii_lib.lib Example.settings Example.online
                    false clock w) as (_ & _ & _ & _ & _ & H6 & _)
    end.
    edestruct H6 as (w' & Hr & Ht).
    + vm_compute. reflexivity.
    + intros target [<- | []]. eexists. split; vm_compute; reflexivity.
    + exists w'. split; [exact Hr | exact Ht].
  - destruct (config_error_exit_code Ascii_lib.lib Example.settings Example.online
                true Example.morning Example.first_run) as (_ & _ & _ & _ & H5 & _).
    eapply H5.
    + vm_compute. reflexivity.
    + reflexivity.
    + apply (bool_decide_unpack _). vm_compute. exact I.
    + exact example_mail_accepted.
Defined.


(** * Further properties of the script

    Properties of the functions around the claims above: the loading of
    the configuration, the mail, the loop of the cycle and what it leaves
    on disk, the command line and the constants of the module. *)

Section Config_facts.
Context `{PyLib}.

Lemma strip_items_strings (field_name target_name : string) (items : list string) :
  strip_items field_name target_name (map PStr items) = Ok (map str_strip items).
Proof.
  induction items as [|item items IH]; [reflexivity|].
  cbn [map strip_items]. now rewrite IH.
Qed.

Lemma strip_items_not_string (field_name target_name : string) (l : list pyval) (v : pyval) :
  In v l -> (forall s, v <> PStr s) ->
  strip_items field_name target_name l
  = Raise (ValueError ("Target '" +:+ target_name +:+ "': '" +:+ field_name
                       +:+ "' doit contenir uniquement des chaines.")).
Proof.
  intros Hin Hns. induction l as [|x l IH]; [destruct Hin|].
  destruct Hin as [-> | Hin].
  - destruct v; try reflexivity. now destruct (Hns s).
  - specialize (IH Hin). destruct x; try reflexivity.
    cbn [strip_items]. now rewrite IH.
Qed.

Lemma filter_nonempty (l : list string) :
  Forall (fun item => item <> EmptyString) (List.filter nonempty l).
Proof.
  apply List.Forall_forall. intros x [_ Hx]%filter_In.
  unfold nonempty in Hx. apply negb_true_iff in Hx. now apply String.eqb_neq in Hx.
Qed.

Lemma parse_string_list_nonempty (v : pyval) (field_name target_name : string)
    (values : list string) :
  parse_string_list v field_name target_name = Ok values ->
  Forall (fun item => item <> EmptyString) values.
Proof.
  destruct v as [| | |s|l|]; cbn [parse_string_list]; try discriminate.
  - intros [= <-]. constructor.
  - intros [= <-]. apply filter_nonempty.
  - destruct (strip_items field_name target_name l); [|discriminate].
    intros [= <-]. apply filter_nonempty.
Qed.

Lemma parse_schedule_returns (raw_schedule : pyval) (target_name : string) (s : Schedule) :
  parse_schedule raw_schedule target_name = Ok s -> well_formed_schedule s = true.
Proof.
  unfold parse_schedule.
  set (raw := match raw_schedule with PNone => PDict {[ "mode" := PStr "hourly" ]} | _ => raw_schedule end).
  destruct raw as [| | | | |d]; try discriminate.
  destruct (String.eqb _ "hourly").
  - destruct (py_int _) as [n|]; [|discriminate].
    destruct (Z.leb_spec n 0); [discriminate|]. intros [= <-].
    cbn [well_formed_schedule]. now apply Z.ltb_lt.
  - destruct (String.eqb _ "daily"); [|discriminate].
    destruct (_ || _); [discriminate|].
    destruct (int_of_str _) as [h|]; [|discriminate].
    destruct (int_of_str _) as [m|]; [|discriminate].
    destruct ((h <? 0) || (23 <? h) || (m <? 0) || (59 <? m)) eqn:Hr; [discriminate|].
    intros [= <-]. cbn [well_formed_schedule].
    rewrite !orb_false_iff in Hr. destruct Hr as [[[H1 H2] H3] H4].
    apply Z.ltb_ge in H1, H2, H3, H4.
    replace ((h * 60 + m) / 60) with h by (apply (Z.div_unique _ 60 h m); lia).
    replace ((h * 60 + m) mod 60) with m by (apply (Z.mod_unique _ 60 h m); lia).
    rewrite String.eqb_refl, andb_true_r. apply andb_true_iff.
    split; [apply Z.leb_le | apply Z.leb_le]; lia.
Qed.

End Config_facts.

(** X1.  [parse_string_list] accepts [None] (no item), a string (its
    parts between commas) and a list of strings; each item is stripped and
    the empty ones are dropped, so that no item of a result is empty.  A
    list with an item that is not a string and a value of any other type
    raise a [ValueError]. *)
Theorem parse_string_list_items (L : PyLib) (field_name target_name : string) :
  parse_string_list PNone field_name target_name = Ok []
  /\ (forall s,
        parse_string_list (PStr s) field_name target_name
        = Ok (List.filter nonempty (map str_strip (str_split_comma s))))
  /\ (forall items,
        parse_string_list (PList (map PStr items)) field_name target_name
        = Ok (List.filter nonempty (map str_strip items)))
  /\ (forall l v,
        In v l -> (forall s, v <> PStr s) ->
        parse_string_list (PList l) field_name target_name
        = Raise (ValueError ("Target '" +:+ target_name +:+ "': '" +:+ field_name
                             +:+ "' doit contenir uniquement des chaines.")))
  /\ (forall v,
        match v with
        | PBool _ | PInt _ | PDict _ =>
            parse_string_list v field_name target_name
            = Raise (ValueError ("Target '" +:+ target_name +:+ "': '" +:+ field_name
                                 +:+ "' doit etre une liste ou une chaine."))
        | _ => True
        end)
  /\ (forall v values,
        parse_string_list v field_name target_name = Ok values ->
        Forall (fun item => item <> EmptyString) values).
Proof.
  split; [reflexivity|]. split; [reflexivity|]. split; [|split; [|split]].
  - intros items. cbn [parse_string_list]. now rewrite strip_items_strings.
  - intros l v Hin Hns. cbn [parse_string_list].
    now rewrite (strip_items_not_string _ _ l v Hin Hns).
  - intros v. destruct v; reflexivity || exact I.
  - intros v values. apply parse_string_list_nonempty.
Qed.

Lemma parse_string_list_items_witness :
  @parse_string_list Ascii_lib.lib (PList [PStr "a"; PInt 1]) "emails_on_in_stock" "Card"
  = Raise (ValueError "Target 'Card': 'emails_on_in_stock' doit contenir uniquement des chaines.")
  /\ Forall (fun item => item <> EmptyString) ["alice@example.org"; "bob@example.org"].
Proof.
  split.
  - apply (proj1 (proj2 (proj2 (proj2
             (parse_string_list_items Ascii_lib.lib "emails_on_in_stock" "Card"))))
             [PStr "a"; PInt 1] (PInt 1)); [right; now left | discriminate].
  - apply (proj2 (proj2 (proj2 (proj2 (proj2
             (parse_string_list_items Ascii_lib.lib "emails_on_in_stock" "Card")))))
             (PStr " alice@example.org, ,bob@example.org,")).
    vm_compute. reflexivity.
Defined.

(** X2.  Every schedule that [parse_schedule] returns is well formed: an
    hourly one has a positive interval, a daily one a minute of the day
    from 0 to 1439 and its time in the form HH:MM.  A value that is
    neither [None] nor a dictionary raises a [ValueError]; where the
    library leaves the word [hourly] as it is, a missing schedule and one
    without a mode are hourly with an interval of 3600 seconds, and an
    interval that is not positive raises a [ValueError]. *)
Theorem parse_schedule_well_formed (L : PyLib) (target_name : string) :
  (forall raw_schedule s,
      parse_schedule raw_schedule target_name = Ok s -> well_formed_schedule s = true)
  /\ (forall raw_schedule,
        match raw_schedule with
        | PNone | PDict _ => True
        | _ =>
            parse_schedule raw_schedule target_name
            = Raise (ValueError ("Target '" +:+ target_name
                                 +:+ "': 'schedule' doit etre un objet."))
        end)
  /\ (str_lower (str_strip "hourly") = "hourly" ->
      parse_schedule PNone target_name = Ok (Hourly 3600)
      /\ (forall raw,
            raw !! "mode" = None -> raw !! "interval_seconds" = None ->
            parse_schedule (PDict raw) target_name = Ok (Hourly 3600))
      /\ (forall raw n,
            raw !! "mode" = None -> raw !! "interval_seconds" = Some (PInt n) ->
            parse_schedule (PDict raw) target_name
            = if n <=? 0
              then Raise (ValueError ("Target '" +:+ target_name
                                      +:+ "': 'interval_seconds' doit etre > 0."))
              else Ok (Hourly n))).
Proof.
  split; [|split].
  - intros raw s. apply parse_schedule_returns.
  - intros raw. destruct raw; reflexivity || exact I.
  - intros Hmode. split; [|split].
    + unfold parse_schedule, dict_get_default. cbv beta zeta iota.
      rewrite lookup_singleton_eq. cbn [default from_option id py_str]. rewrite Hmode.
      rewrite lookup_singleton_ne by discriminate. reflexivity.
    + intros raw Hm Hi. unfold parse_schedule, dict_get_default.
      cbv beta zeta iota. rewrite Hm, Hi. cbn [default from_option id py_str]. rewrite Hmode. reflexivity.
    + intros raw n Hm Hi. unfold parse_schedule, dict_get_default.
      cbv beta zeta iota. rewrite Hm, Hi. cbn [default from_option id py_str]. rewrite Hmode.
      cbn [String.eqb Ascii.eqb Bool.eqb py_int]. reflexivity.
Qed.

Lemma parse_schedule_well_formed_witness :
  well_formed_schedule (Daily "09:00" 540) = true
  /\ @parse_schedule Ascii_lib.lib PNone "Card" = Ok (Hourly 3600)
  /\ @parse_schedule Ascii_lib.lib (PDict {[ "interval_seconds" := PInt 0 ]}) "Card"
     = Raise (ValueError "Target 'Card': 'interval_seconds' doit etre > 0.").
Proof.
  split; [|split].
  - apply (proj1 (parse_schedule_well_formed Ascii_lib.lib "Console")
             (PDict {[ "mode" := PStr "daily"; "time" := PStr "09:00" ]})).
    vm_compute. reflexivity.
  - exact (proj1 (proj2 (proj2 (parse_schedule_well_formed Ascii_lib.lib "Card")) eq_refl)).
  - apply (proj2 (proj2 (proj2 (proj2 (parse_schedule_well_formed Ascii_lib.lib "Card"))
                          eq_refl))
             {[ "interval_seconds" := PInt 0 ]} 0); reflexivity.
Defined.

Section Ascii_times.
Import Ascii_lib.

(** The two digits of a number below 100, as [int] reads them. *)
Lemma two_digits (h : Z) :
  0 <= h <= 99 ->
  exists a b,
    format_d 2 h = String a (String b EmptyString)
    /\ is_space a = false /\ is_space b = false
    /\ int_of_string (String a (String b EmptyString)) = Ok h.
Proof.
  intros Hh. assert (Hn : h = Z.of_nat (Z.to_nat h)) by lia.
  assert (Hlt : (Z.to_nat h < 100)%nat) by lia.
  revert Hn Hlt. generalize (Z.to_nat h) as n. intros n -> Hlt. clear Hh.
  do 100 (destruct n as [|n];
          [eexists _, _; split; [reflexivity|]; split; [reflexivity|];
           split; reflexivity|]).
  lia.
Qed.

Lemma strip_five (a b c d e : ascii) :
  is_space a = false -> is_space e = false ->
  strip (String a (String b (String c (String d (String e EmptyString)))))
  = String a (String b (String c (String d (String e EmptyString)))).
Proof.
  intros Ha He. unfold strip. cbn [lstrip]. rewrite Ha. cbn [rstrip]. rewrite He.
  reflexivity.
Qed.

End Ascii_times.

(** X3.  With the library of ASCII text, a daily schedule whose time is
    two digits, a colon and two digits is accepted exactly when the hour is
    at most 23 and the minute at most 59; the schedule then keeps the time
    as written and its minute of the day is sixty times the hour plus the
    minute.  Any other such time raises the [ValueError] of an invalid
    daily time. *)
Theorem parse_schedule_daily_times (target_name : string) (h m : Z) :
  0 <= h <= 99 -> 0 <= m <= 99 ->
  @parse_schedule Ascii_lib.lib
    (PDict {[ "mode" := PStr "daily";
              "time" := PStr (format_d 2 h +:+ ":" +:+ format_d 2 m) ]})
    target_name
  = if (h <=? 23) && (m <=? 59)
    then Ok (Daily (format_d 2 h +:+ ":" +:+ format_d 2 m) (h * 60 + m))
    else Raise (invalid_daily target_name).
Proof.
  intros Hh Hm.
  destruct (two_digits h Hh) as (a & b & Hfh & Ha & Hb & Hih).
  destruct (two_digits m Hm) as (c & d & Hfm & Hc & Hd & Him).
  unfold parse_schedule, dict_get_default. cbv beta zeta iota.
  rewrite lookup_insert_eq.
  rewrite !lookup_insert_ne by discriminate. rewrite !lookup_singleton_eq.
  cbn [default from_option id py_str str_lower str_strip int_of_str Ascii_lib.lib].
  change (Ascii_lib.lower (Ascii_lib.strip "daily")) with "daily".
  change (String.eqb "daily" "hourly") with false.
  change (String.eqb "daily" "daily") with true. cbv iota.
  assert (Htext : format_d 2 h +:+ ":" +:+ format_d 2 m
                  = String a (String b (String ":" (String c (String d EmptyString)))))
    by (rewrite Hfh, Hfm; reflexivity).
  rewrite Htext.
  rewrite (strip_five a b ":" c d Ha Hd).
  change (str_slice 0 2 (String a (String b (String ":" (String c (String d EmptyString))))))
    with (String a (String b EmptyString)).
  change (str_slice 3 5 (String a (String b (String ":" (String c (String d EmptyString))))))
    with (String c (String d EmptyString)).
  rewrite Hih, Him.
  change (negb (String.length (String a (String b (String ":" (String c (String d EmptyString)))))
                =? 5)%nat) with false.
  rewrite bool_decide_eq_true_2 by reflexivity. cbn [negb orb].
  rewrite Htext.
  destruct (Z.leb_spec h 23), (Z.leb_spec m 59), (Z.ltb_spec h 0), (Z.ltb_spec 23 h),
    (Z.ltb_spec m 0), (Z.ltb_spec 59 m); try lia; reflexivity.
Qed.

Lemma parse_schedule_daily_times_witness :
  @parse_schedule Ascii_lib.lib
    (PDict {[ "mode" := PStr "daily"; "time" := PStr "09:05" ]}) "Console"
  = Ok (Daily "09:05" 545)
  /\ @parse_schedule Ascii_lib.lib
       (PDict {[ "mode" := PStr "daily"; "time" := PStr "24:00" ]}) "Console"
     = Raise (ValueError "Target 'Console': horaire daily invalide, attendu HH:MM.").
Proof.
  split.
  - apply (parse_schedule_daily_times "Console" 9 5); lia.
  - apply (parse_schedule_daily_times "Console" 24 0); lia.
Defined.

Section Config_targets.
Context `{PyLib}.

Lemma nonempty_str_or (a : string) (index : Z) :
  nonempty (str_or a ("target_" +:+ str_of_int index)) = true.
Proof. unfold str_or. destruct (nonempty a) eqn:Ha; [exact Ha | reflexivity]. Qed.

Lemma parse_string_list_forallb (v : pyval) (field_name target_name : string)
    (values : list string) :
  parse_string_list v field_name target_name = Ok values ->
  forallb nonempty values = true.
Proof.
  intros Hp. apply parse_string_list_nonempty in Hp.
  induction Hp as [|x l Hx _ IH]; [reflexivity|]. cbn [forallb]. rewrite IH, andb_true_r.
  unfold nonempty. apply negb_true_iff. now apply String.eqb_neq.
Qed.

Lemma parse_target_returns (index : Z) (v : pyval) (t : Target) :
  parse_target index v = Ok t -> well_formed_target t = true.
Proof.
  destruct v as [| | | | |d]; try discriminate. cbn [parse_target]. cbv zeta.
  destruct (nonempty (str_strip (py_str (dict_get_default d "url" (PStr EmptyString)))))
    eqn:Hurl; [|discriminate]. cbn [negb].
  destruct (parse_string_list (dict_get d "out_of_stock_terms") _ _) as [terms|] eqn:Hterms;
    [|discriminate].
  destruct terms as [|term terms]; [discriminate|].
  destruct (parse_schedule _ _) as [s|] eqn:Hs; [|discriminate].
  destruct (parse_string_list (dict_get d "emails_on_out_of_stock") _ _) as [out|] eqn:Hout;
    [|discriminate].
  destruct (parse_string_list (dict_get d "emails_on_in_stock") _ _) as [ins|] eqn:Hins;
    [|discriminate].
  intros [= <-]. unfold well_formed_target.
  cbn [target_id target_name url out_of_stock_terms schedule emails_on_out_of_stock
       emails_on_in_stock].
  rewrite !nonempty_str_or, Hurl.
  rewrite (parse_string_list_forallb _ _ _ _ Hterms).
  rewrite (parse_string_list_forallb _ _ _ _ Hout).
  rewrite (parse_string_list_forallb _ _ _ _ Hins).
  rewrite (parse_schedule_returns _ _ _ Hs). reflexivity.
Qed.

(** The target at each position is [parse_target] of the value at this
    position, with its number counted from [index]. *)
Lemma parse_targets_lookup (raw_targets : list pyval) :
  forall (index : Z) (ts : list Target),
    parse_targets index raw_targets = Ok ts ->
    length ts = length raw_targets
    /\ forall (k : nat) (raw : pyval),
         raw_targets !! k = Some raw ->
         exists t, ts !! k = Some t /\ parse_target (index + Z.of_nat k) raw = Ok t.
Proof.
  induction raw_targets as [|raw0 rest IH]; intros index ts.
  - intros [= <-]. split; [reflexivity|]. intros k raw Hk. discriminate.
  - cbn [parse_targets].
    destruct (parse_target index raw0) as [t0|] eqn:H0; [|discriminate].
    destruct (parse_targets (index + 1) rest) as [ts'|] eqn:Hrest; [|discriminate].
    intros [= <-]. destruct (IH _ _ Hrest) as [Hlen Hk]. split; [cbn; now rewrite Hlen|].
    intros [|k] raw Hraw.
    + injection Hraw as <-. exists t0. split; [reflexivity|].
      now replace (index + Z.of_nat 0) with index by lia.
    + destruct (Hk k raw Hraw) as (t & Ht & Hp). exists t. split; [exact Ht|].
      now replace (index + Z.of_nat (S k)) with (index + 1 + Z.of_nat k) by lia.
Qed.

(** The first value that [parse_target] refuses ends the loop with its
    exception. *)
Lemma parse_targets_first_error (good : list pyval) :
  forall (index : Z) (ts : list Target) (bad : pyval) (rest : list pyval) (e : exn),
    parse_targets index good = Ok ts ->
    parse_target (index + Z.of_nat (length good)) bad = Raise e ->
    parse_targets index (good ++ bad :: rest) = Raise e.
Proof.
  induction good as [|g good IH]; intros index ts bad rest e Hgood Hbad.
  - cbn [app parse_targets]. cbn [length] in Hbad.
    replace (index + Z.of_nat 0) with index in Hbad by lia. now rewrite Hbad.
  - cbn [parse_targets] in Hgood.
    change ((g :: good) ++ bad :: rest) with (g :: (good ++ bad :: rest)).
    cbn [parse_targets].
    destruct (parse_target index g) as [t0|]; [|discriminate].
    destruct (parse_targets (index + 1) good) as [ts'|] eqn:Hg; [|discriminate].
    rewrite (IH (index + 1) ts' bad rest e Hg); [reflexivity|].
    cbn [length] in Hbad.
    now replace (index + 1 + Z.of_nat (length good))
      with (index + Z.of_nat (S (length good))) by lia.
Qed.

Lemma load_monitor_config_inv (path : string) (w : World) (config : Config) (w' : World) :
  load_monitor_config path w = (Ok config, w') ->
  exists text raw raw_targets,
    files w !! path = Some text
    /\ json_load text = Ok (PDict raw)
    /\ raw !! "targets" = Some (PList raw_targets)
    /\ raw_targets <> []
    /\ parse_targets 1 raw_targets = Ok (targets config)
    /\ w' = w.
Proof.
  unfold load_monitor_config, bind, read_file, lift, ret.
  destruct (files w !! path) as [text|] eqn:Hf; [|discriminate].
  destruct (json_load text) as [raw|] eqn:Hj; [|discriminate].
  destruct raw as [| | | | |raw]; try discriminate.
  unfold dict_get. destruct (raw !! "targets") as [v|] eqn:Ht; [|discriminate].
  cbn [default from_option id].
  destruct v as [| | | |l|]; try discriminate.
  destruct l as [|t l]; [discriminate|].
  destruct (parse_targets 1 (t :: l)) as [ts|] eqn:Hp; [|discriminate].
  intros [= <- <-]. exists text, raw, (t :: l). repeat split; try assumption.
  discriminate.
Qed.

Lemma loaded_targets_well_formed (path : string) (w : World) (config : Config) (w' : World) :
  load_monitor_config path w = (Ok config, w') ->
  Forall (fun t => well_formed_target t = true) (targets config).
Proof.
  intros Hl.
  destruct (load_monitor_config_inv path w config w' Hl)
    as (text & raw & raw_targets & Hf & Hj & Ht & Hne & Hp & Hw).
  destruct (parse_targets_lookup raw_targets 1 (targets config) Hp) as [Hlen Hk].
  apply Forall_lookup_2. intros k t Hkt.
  assert (Hlt : (k < length raw_targets)%nat).
  { rewrite <- Hlen. apply lookup_lt_is_Some. now exists t. }
  apply lookup_lt_is_Some in Hlt as [r Hr].
  destruct (Hk k r Hr) as (t' & Ht' & Hpt). rewrite Hkt in Ht'. injection Ht' as <-.
  exact (parse_target_returns _ _ _ Hpt).
Qed.

Lemma well_formed_target_schedule (t : Target) :
  well_formed_target t = true -> well_formed_schedule (schedule t) = true.
Proof. unfold well_formed_target. rewrite !andb_true_iff. tauto. Qed.

End Config_targets.

(** X4.  A configuration that [load_monitor_config] returns has at least
    one target, as many targets as the list under [targets] of the file,
    and every target is well formed: its identifier, its name and its URL
    are not empty, it has at least one term, no term and no recipient is
    empty, an hourly interval is positive and a daily minute of the day is
    from 0 to 1439.  Loading changes no file and writes no log line. *)
Theorem load_monitor_config_well_formed (L : PyLib) (path : string) (w : World)
    (config : Config) (w' : World) :
  load_monitor_config path w = (Ok config, w') ->
  w' = w
  /\ targets config <> []
  /\ Forall (fun t => well_formed_target t = true) (targets config)
  /\ exists text raw raw_targets,
       files w !! path = Some text
       /\ json_load text = Ok (PDict raw)
       /\ raw !! "targets" = Some (PList raw_targets)
       /\ length (targets config) = length raw_targets.
Proof.
  intros Hl.
  destruct (load_monitor_config_inv path w config w' Hl)
    as (text & raw & raw_targets & Hf & Hj & Ht & Hne & Hp & Hw).
  destruct (parse_targets_lookup raw_targets 1 (targets config) Hp) as [Hlen Hk].
  split; [exact Hw|]. split; [|split].
  - intros Hnil. rewrite Hnil in Hlen. destruct raw_targets; [now apply Hne | discriminate].
  - exact (loaded_targets_well_formed path w config w' Hl).
  - exists text, raw, raw_targets. repeat split; assumption.
Qed.

Lemma load_monitor_config_well_formed_witness :
  exists config,
    @load_monitor_config Ascii_lib.lib "monitor_targets.json" Example.first_run
    = (Ok config, Example.first_run)
    /\ length (targets config) = 2%nat
    /\ Forall (fun t => well_formed_target t = true) (targets config).
Proof.
  destruct (@load_monitor_config Ascii_lib.lib "monitor_targets.json" Example.first_run)
    as [[config|e] w'] eqn:Hl; [|vm_compute in Hl; discriminate Hl].
  destruct (load_monitor_config_well_formed Ascii_lib.lib _ _ _ _ Hl)
    as (Hw & _ & Hwf & _).
  exists config. split; [now rewrite Hw|]. split; [|exact Hwf].
  vm_compute in Hl. injection Hl as <- _. reflexivity.
Defined.

(** X5.  [load_monitor_config] numbers the targets from 1 and stops at the
    first one it refuses: when the values before a value are accepted and
    this value raises, loading raises its exception, whatever follows.  In
    a configuration that loads, the target at position [k] (from 0) comes
    from the value at position [k], and an entry without an identifier or
    without a name gets [target_] followed by [k + 1] (where the library
    strips the empty string to itself). *)
Theorem load_monitor_config_positions (L : PyLib) (path : string) (w : World) :
  (forall text raw good bad rest ts e,
      files w !! path = Some text ->
      json_load text = Ok (PDict raw) ->
      raw !! "targets" = Some (PList (good ++ bad :: rest)) ->
      parse_targets 1 good = Ok ts ->
      parse_target (1 + Z.of_nat (length good)) bad = Raise e ->
      load_monitor_config path w = (Raise e, w))
  /\ (forall config w',
        load_monitor_config path w = (Ok config, w') ->
        exists text raw raw_targets,
          files w !! path = Some text
          /\ json_load text = Ok (PDict raw)
          /\ raw !! "targets" = Some (PList raw_targets)
          /\ forall (k : nat) (entry : pyval),
               raw_targets !! k = Some entry ->
               exists t d,
                 targets config !! k = Some t
                 /\ entry = PDict d
                 /\ parse_target (1 + Z.of_nat k) entry = Ok t
                 /\ (str_strip EmptyString = EmptyString ->
                     (d !! "id" = None ->
                      target_id t = "target_" +:+ str_of_int (1 + Z.of_nat k))
                     /\ (d !! "name" = None ->
                         target_name t = "target_" +:+ str_of_int (1 + Z.of_nat k)))).
Proof.
  split.
  - intros text raw good bad rest ts e Hf Hj Ht Hgood Hbad.
    unfold load_monitor_config, bind, read_file, lift, ret. rewrite Hf, Hj.
    unfold dict_get. rewrite Ht. cbn [default from_option id].
    rewrite (parse_targets_first_error good 1 ts bad rest e Hgood Hbad).
    destruct good; reflexivity.
  - intros config w' Hl.
    destruct (load_monitor_config_inv path w config w' Hl)
      as (text & raw & raw_targets & Hf & Hj & Ht & Hne & Hp & Hw).
    exists text, raw, raw_targets. repeat (split; [assumption|]).
    intros k entry Hk.
    destruct (proj2 (parse_targets_lookup raw_targets 1 (targets config) Hp) k entry Hk)
      as (t & Htk & Hpt).
    destruct entry as [| | | | |d]; try discriminate Hpt.
    exists t, d. repeat (split; [assumption || reflexivity|]).
    intros Hstrip. revert Hpt. cbn [parse_target]. cbv zeta.
    destruct (negb _); [discriminate|].
    destruct (parse_string_list _ _ _) as [[|term terms]|]; try discriminate.
    destruct (parse_schedule _ _); [|discriminate].
    destruct (parse_string_list _ _ _); [|discriminate].
    destruct (parse_string_list _ _ _); [|discriminate].
    intros [= <-]. cbn [target_id target_name]. unfold dict_get_default.
    split; intros ->; cbn [default from_option id py_str]; rewrite Hstrip; reflexivity.
Qed.

Lemma load_monitor_config_positions_witness :
  let first := PDict {[ "url" := PStr "https://shop.example.org/a";
                        "out_of_stock_terms" := PStr "epuise" ]} in
  let broken : World :=
    {| files := {[ "monitor_targets.json"
                   := Ascii_lib.dumps
                        (PDict {[ "targets" :=
                                    PList [first; PStr "https://shop.example.org/b"] ]}) ]};
       trace := [] |} in
  let sound : World :=
    {| files := {[ "monitor_targets.json"
                   := Ascii_lib.dumps (PDict {[ "targets" := PList [first] ]}) ]};
       trace := [] |} in
  @load_monitor_config Ascii_lib.lib "monitor_targets.json" broken
  = (Raise (ValueError "Target #2: format invalide."), broken)
  /\ (exists config t,
        fst (@load_monitor_config Ascii_lib.lib "monitor_targets.json" sound) = Ok config
        /\ targets config !! 0%nat = Some t
        /\ target_id t = "target_1").
Proof.
  cbv zeta. split.
  - eapply (proj1 (load_monitor_config_positions Ascii_lib.lib "monitor_targets.json" _)
             _ {[ "targets" :=
                    PList [PDict {[ "url" := PStr "https://shop.example.org/a";
                                    "out_of_stock_terms" := PStr "epuise" ]};
                           PStr "https://shop.example.org/b"] ]}
             [PDict {[ "url" := PStr "https://shop.example.org/a";
                       "out_of_stock_terms" := PStr "epuise" ]}]
             (PStr "https://shop.example.org/b") []).
    + apply lookup_singleton_eq.
    + vm_compute. reflexivity.
    + apply lookup_singleton_eq.
    + vm_compute. reflexivity.
    + reflexivity.
  - destruct (@load_monitor_config Ascii_lib.lib "monitor_targets.json"
                {| files := {[ "monitor_targets.json"
                     := Ascii_lib.dumps
                          (PDict {[ "targets" :=
                             PList [PDict {[ "url" := PStr "https://shop.example.org/a";
                                             "out_of_stock_terms" := PStr "epuise" ]}] ]}) ]};
                   trace := [] |})
      as [[config|e] w'] eqn:Hl; [|vm_compute in Hl; discriminate Hl].
    destruct (proj2 (load_monitor_config_positions Ascii_lib.lib "monitor_targets.json" _)
                config w' Hl) as (text & raw & raws & Hf & Hj & Ht & Hk).
    vm_compute in Hf. injection Hf as <-.
    vm_compute in Hj. injection Hj as <-.
    vm_compute in Ht. injection Ht as <-.
    destruct (Hk 0%nat _ eq_refl) as (t & d & Htk & Hd & _ & Hnames).
    injection Hd as <-.
    exists config, t. split; [reflexivity|]. split; [exact Htk|].
    apply (proj1 (Hnames eq_refl)). reflexivity.
Defined.

(** X19.  What [load_monitor_config] refuses and reads in one target.  A
    value that is not a dictionary raises the [ValueError] of an invalid
    format with the number of the target; a target without [url] raises
    the [ValueError] that names the target (where the library strips the
    empty string to itself), and one without [out_of_stock_terms] raises
    too.  In a target that is accepted [notify_on_same_state] is the truth
    value of the configured value, so that it is set by every string that
    is not empty, the string [false] included, and not set when the key is
    missing. *)
Theorem parse_target_validation (L : PyLib) (index : Z) :
  (forall v,
      is_dict v = false ->
      parse_target index v
      = Raise (ValueError ("Target #" +:+ str_of_int index +:+ ": format invalide.")))
  /\ (str_strip EmptyString = EmptyString ->
      forall d,
        d !! "url" = None ->
        parse_target index (PDict d)
        = Raise (ValueError
                   ("Target '"
                    +:+ str_or (str_strip (py_str (dict_get_default d "name"
                                                     (PStr EmptyString))))
                          ("target_" +:+ str_of_int index)
                    +:+ "': 'url' est obligatoire.")))
  /\ (forall d,
        d !! "out_of_stock_terms" = None ->
        exists e, parse_target index (PDict d) = Raise e /\ exn_class e = "ValueError")
  /\ (forall d t,
        parse_target index (PDict d) = Ok t ->
        notify_on_same_state t
        = truthy (dict_get_default d "notify_on_same_state" (PBool false))
        /\ (d !! "notify_on_same_state" = None -> notify_on_same_state t = false)
        /\ (forall s, d !! "notify_on_same_state" = Some (PStr s) ->
                      s <> EmptyString -> notify_on_same_state t = true)
        /\ url t = str_strip (py_str (dict_get_default d "url" (PStr EmptyString)))).
Proof.
  split; [|split; [|split]].
  - intros v Hv. destruct v; try reflexivity. discriminate Hv.
  - intros Hstrip d Hurl. cbn [parse_target]. cbv zeta.
    unfold dict_get_default. rewrite Hurl. cbn [default from_option id py_str].
    rewrite Hstrip. reflexivity.
  - intros d Hterms. cbn [parse_target]. cbv zeta.
    destruct (negb _); [eexists; split; reflexivity|].
    unfold dict_get at 1. rewrite Hterms. cbn [default from_option id parse_string_list].
    eexists; split; reflexivity.
  - intros d t. cbn [parse_target]. cbv zeta.
    destruct (negb _); [discriminate|].
    destruct (parse_string_list _ _ _) as [[|term terms]|]; try discriminate.
    destruct (parse_schedule _ _); [|discriminate].
    destruct (parse_string_list _ _ _); [|discriminate].
    destruct (parse_string_list _ _ _); [|discriminate].
    intros [= <-]. cbn [notify_on_same_state url].
    split; [reflexivity|]. split; [|split; [|reflexivity]].
    + unfold dict_get_default. now intros ->.
    + unfold dict_get_default. intros s -> Hs. cbn [default from_option id truthy].
      apply negb_true_iff. now apply String.eqb_neq.
Qed.

Lemma parse_target_validation_witness :
  @parse_target Ascii_lib.lib 3 (PList [])
  = Raise (ValueError "Target #3: format invalide.")
  /\ @parse_target Ascii_lib.lib 3 (PDict {[ "name" := PStr "Card" ]})
     = Raise (ValueError "Target 'Card': 'url' est obligatoire.")
  /\ exists t,
       @parse_target Ascii_lib.lib 3
         (PDict {[ "url" := PStr "https://shop.example.org/card";
                   "out_of_stock_terms" := PStr "epuise";
                   "notify_on_same_state" := PStr "false" ]}) = Ok t
       /\ notify_on_same_state t = true.
Proof.
  split; [|split].
  - apply (proj1 (parse_target_validation Ascii_lib.lib 3)). reflexivity.
  - rewrite (proj1 (proj2 (parse_target_validation Ascii_lib.lib 3)) eq_refl
               {[ "name" := PStr "Card" ]})
      by (apply lookup_singleton_ne; discriminate).
    vm_compute. reflexivity.
  - destruct (@parse_target Ascii_lib.lib 3
                (PDict {[ "url" := PStr "https://shop.example.org/card";
                          "out_of_stock_terms" := PStr "epuise";
                          "notify_on_same_state" := PStr "false" ]}))
      as [t|e] eqn:Ht; [|vm_compute in Ht; discriminate Ht].
    exists t. split; [reflexivity|].
    destruct (proj2 (proj2 (proj2 (parse_target_validation Ascii_lib.lib 3))) _ t Ht)
      as (_ & _ & Hs & _).
    apply (Hs "false"); [reflexivity | discriminate].
Defined.

Section Mail_facts.
Context `{Settings}.

Lemma missing_settings_nil :
  missing_settings = []
  <-> SMTP_HOST <> EmptyString /\ SMTP_PORT <> 0 /\ SMTP_USER <> EmptyString
      /\ SMTP_PASS <> EmptyString /\ EMAIL_FROM <> EmptyString.
Proof.
  unfold missing_settings, nonempty.
  destruct (String.eqb_spec SMTP_HOST EmptyString) as [-> | Hh];
    destruct (Z.eqb_spec SMTP_PORT 0) as [-> | Hp];
    destruct (String.eqb_spec SMTP_USER EmptyString) as [-> | Hu];
    destruct (String.eqb_spec SMTP_PASS EmptyString) as [-> | Hs];
    destruct (String.eqb_spec EMAIL_FROM EmptyString) as [-> | Hf];
    cbn [negb app]; split; try discriminate; try (intros _; now repeat split);
    intros (H1 & H2 & H3 & H4 & H5); congruence.
Qed.

End Mail_facts.

(** X6.  [send_email] raises only what building the message raises.  When
    a setting of the SMTP account is missing it writes one log line that
    names the missing settings, builds no message, opens no SMTP session
    and returns false, even for an empty list of recipients.  With
    complete settings and no recipient it returns true and does nothing.
    Otherwise it builds the message from [EMAIL_FROM] to the recipients
    joined by commas; an exception of the building leaves [send_email],
    before any SMTP session; with the message built it opens one SMTP
    session and returns true exactly when the session did not raise, with
    one log line for the outcome.  The settings are complete exactly when
    the host, the user, the password and the sender are not empty and the
    port is not 0. *)
Theorem send_email_outcomes (L : PyLib) (S : Settings) (N : Network)
    (subject body : string) (recipients : list string) (w : World) :
  (missing_settings <> [] ->
   send_email subject body recipients w
   = (Ok false,
      after_events w
        [EvSendEmail subject body recipients;
         EvLog ("EMAIL: configuration SMTP incomplete: "
                +:+ str_join ", " missing_settings)]))
  /\ (missing_settings = [] -> recipients = [] ->
      send_email subject body recipients w
      = (Ok true, after_events w [EvSendEmail subject body recipients]))
  /\ (missing_settings = [] -> recipients <> [] ->
      send_email subject body recipients w
      = match email_message subject EMAIL_FROM (str_join ", " recipients) body with
        | Raise exc => (Raise exc, after_events w [EvSendEmail subject body recipients])
        | Ok msg =>
            match smtp_send_message (Datatypes.S (length (trace w))) msg with
            | None =>
                (Ok true,
                 after_events w
                   [EvSendEmail subject body recipients; EvSmtp msg;
                    EvLog ("EMAIL: notification envoyee a " +:+ str_join ", " recipients)])
            | Some exc =>
                (Ok false,
                 after_events w
                   [EvSendEmail subject body recipients; EvSmtp msg;
                    EvLog ("EMAIL: echec d'envoi: " +:+ exn_msg exc)])
            end
        end)
  /\ (forall exc w',
        send_email subject body recipients w = (Raise exc, w') ->
        missing_settings = [] /\ recipients <> []
        /\ email_message subject EMAIL_FROM (str_join ", " recipients) body = Raise exc)
  /\ (missing_settings = []
      <-> SMTP_HOST <> EmptyString /\ SMTP_PORT <> 0 /\ SMTP_USER <> EmptyString
          /\ SMTP_PASS <> EmptyString /\ EMAIL_FROM <> EmptyString).
Proof.
  assert (Hbuilt : missing_settings = [] -> recipients <> [] ->
    send_email subject body recipients w
    = match email_message subject EMAIL_FROM (str_join ", " recipients) body with
      | Raise exc => (Raise exc, after_events w [EvSendEmail subject body recipients])
      | Ok msg =>
          match smtp_send_message (Datatypes.S (length (trace w))) msg with
          | None =>
              (Ok true,
               after_events w
                 [EvSendEmail subject body recipients; EvSmtp msg;
                  EvLog ("EMAIL: notification envoyee a " +:+ str_join ", " recipients)])
          | Some exc =>
              (Ok false,
               after_events w
                 [EvSendEmail subject body recipients; EvSmtp msg;
                  EvLog ("EMAIL: echec d'envoi: " +:+ exn_msg exc)])
          end
      end).
  { intros Hm Hr. unfold send_email.
    change (emit (EvSendEmail subject body recipients))
      with (fun w => (Ok tt, after_events w [EvSendEmail subject body recipients])).
    unfold bind at 1. rewrite Hm.
    destruct recipients as [|r rs]; [now destruct Hr|].
    destruct (email_message subject EMAIL_FROM (str_join ", " (r :: rs)) body)
      as [msg|exc]; [|reflexivity].
    rewrite bind_lift_ok. unfold bind at 1, smtp_session.
    rewrite trace_after_events, length_snoc.
    destruct (smtp_send_message _ _) as [exc|].
    + rewrite bind_log. unfold ret, after_events. cbn [files trace].
      now rewrite <- !app_assoc.
    + rewrite bind_log. unfold ret, after_events. cbn [files trace].
      now rewrite <- !app_assoc. }
  assert (Hmissing : missing_settings <> [] ->
    send_email subject body recipients w
    = (Ok false,
       after_events w
         [EvSendEmail subject body recipients;
          EvLog ("EMAIL: configuration SMTP incomplete: "
                 +:+ str_join ", " missing_settings)])).
  { intros Hm. unfold send_email.
    change (emit (EvSendEmail subject body recipients))
      with (fun w => (Ok tt, after_events w [EvSendEmail subject body recipients])).
    unfold bind at 1.
    destruct missing_settings as [|m ms]; [now destruct Hm|].
    rewrite bind_log. unfold ret. now rewrite after_events_app. }
  assert (Hnone : missing_settings = [] -> recipients = [] ->
    send_email subject body recipients w
    = (Ok true, after_events w [EvSendEmail subject body recipients])).
  { intros Hm ->. unfold send_email.
    change (emit (EvSendEmail subject body []))
      with (fun w => (Ok tt, after_events w [EvSendEmail subject body []])).
    unfold bind at 1. rewrite Hm. reflexivity. }
  split; [exact Hmissing|]. split; [exact Hnone|]. split; [exact Hbuilt|].
  split; [|apply missing_settings_nil].
  intros exc w' Hraise.
  destruct (decide (missing_settings = [])) as [Hm | Hm];
    [|rewrite (Hmissing Hm) in Hraise; discriminate Hraise].
  destruct (decide (recipients = [])) as [Hr | Hr];
    [rewrite (Hnone Hm Hr) in Hraise; discriminate Hraise|].
  split; [exact Hm|]. split; [exact Hr|].
  rewrite (Hbuilt Hm Hr) in Hraise.
  destruct (email_message subject EMAIL_FROM (str_join ", " recipients) body) as [msg|exc'].
  - destruct (smtp_send_message _ msg); discriminate Hraise.
  - now injection Hraise as <- _.
Qed.

Lemma send_email_outcomes_witness :
  @send_email Ascii_lib.lib Example.settings Example.offline "subject" "body"
    ["bob@example.org"] Example.first_run
  = (Ok false,
     after_events Example.first_run
       [EvSendEmail "subject" "body" ["bob@example.org"];
        EvSmtp {| Subject := "subject"; From := "monitor@example.org";
                  To := "bob@example.org"; content := "body" |};
        EvLog "EMAIL: echec d'envoi: connection refused"])
  /\ @send_email Ascii_lib.lib Example.settings Example.online "subject" "body" []
       Example.first_run
     = (Ok true, after_events Example.first_run [EvSendEmail "subject" "body" []])
  /\ @send_email Ascii_lib.lib Example.settings Example.online
       ("Card" +:+ newline +:+ "v2") "body" ["bob@example.org"] Example.first_run
     = (Raise (ValueError
                 "Header values may not contain linefeed or carriage return characters"),
        after_events Example.first_run
          [EvSendEmail ("Card" +:+ newline +:+ "v2") "body" ["bob@example.org"]]).
Proof.
  split; [|split].
  - apply (proj1 (proj2 (proj2 (send_email_outcomes Ascii_lib.lib Example.settings
             Example.offline "subject" "body" ["bob@example.org"] Example.first_run))));
      [reflexivity | discriminate].
  - apply (proj1 (proj2 (send_email_outcomes Ascii_lib.lib Example.settings Example.online
             "subject" "body" [] Example.first_run))); reflexivity.
  - apply (proj1 (proj2 (proj2 (send_email_outcomes Ascii_lib.lib Example.settings
             Example.online ("Card" +:+ newline +:+ "v2") "body" ["bob@example.org"]
             Example.first_run))));
      [reflexivity | discriminate].
Defined.

Section Mail_text.
Context `{PyLib} `{Settings} `{Network}.

Lemma detect_stock_state_marker (html : string) (terms : list string) :
  Forall (fun term => term <> EmptyString) terms ->
  (fst (detect_stock_state html terms) = "out_of_stock"
   /\ In (snd (detect_stock_state html terms)) terms
   /\ nonempty (snd (detect_stock_state html terms)) = true)
  \/ (fst (detect_stock_state html terms) = "in_stock"
      /\ snd (detect_stock_state html terms) = EmptyString).
Proof.
  induction 1 as [|t terms Ht _ IH]; [now right|].
  rewrite detect_stock_state_cons.
  destruct (str_contains _ _).
  - left. cbn [fst snd]. split; [reflexivity|]. split; [now left|].
    unfold nonempty. apply negb_true_iff. now apply String.eqb_neq.
  - destruct IH as [(Ha & Hb & Hc) | [Ha Hb]]; [left | right]; repeat split; try assumption.
    now right.
Qed.

End Mail_text.

(** X7.  The mail of a check.  On a check that fetched its page
    [send_email] is called at most once, and a call has these arguments:
    the recipients of the classified state; the subject
    [[Stock Monitor] HORS STOCK - name] when a term was found and
    [[Stock Monitor] EN STOCK - name] when none was; and a body of five
    lines with the name, the URL, the state, the term and the time of the
    check.  For terms that are not empty (those of a loaded configuration)
    the line of the term names the term that was found, and says [aucun]
    exactly when the page is in stock.  The check returns true unless
    building this mail raises. *)
Theorem notification_mail_text (L : PyLib) (S : Settings) (N : Network)
    (target : Target) (st : gmap string pyval) (now : datetime.datetime)
    (w : World) (html : string) :
  fetch_outcome target w = Ok html ->
  Forall (fun term => term <> EmptyString) (out_of_stock_terms target) ->
  let current_state := fst (detect_stock_state html (out_of_stock_terms target)) in
  let marker := snd (detect_stock_state html (out_of_stock_terms target)) in
  let found := String.eqb current_state "out_of_stock" in
  let subject_state := if found then "HORS STOCK" else "EN STOCK" in
  let expected_subject :=
    "[Stock Monitor] " +:+ subject_state +:+ " - " +:+ target_name target in
  let expected_body :=
    "Cible: " +:+ target_name target +:+ newline
    +:+ "URL: " +:+ url target +:+ newline
    +:+ "Etat: " +:+ subject_state +:+ newline
    +:+ "Terme detecte: " +:+ (if found then marker else "aucun") +:+ newline
    +:+ "Date: " +:+ datetime.isoformat_seconds now +:+ newline in
  exists events,
    evaluate_target target st now w
    = (match message_error expected_subject expected_body
               (recipients_for target current_state) with
       | Some exc =>
           if notify_on_same_state target
              || py_ne_str (dict_get st "last_state") current_state
           then Raise exc
           else Ok (true, record_check st current_state marker now)
       | None => Ok (true, record_check st current_state marker now)
       end, after_events w events)
    /\ (forall subject body rcpts,
          In (EvSendEmail subject body rcpts) events ->
          subject = expected_subject /\ body = expected_body
          /\ rcpts = recipients_for target current_state)
    /\ (length (List.filter is_send_email events) <= 1)%nat
    /\ (found = true -> In marker (out_of_stock_terms target))
    /\ (found = false -> current_state = "in_stock" /\ marker = EmptyString).
Proof.
  intros Hf Hterms. cbn zeta.
  destruct (evaluate_target_classified target st now w html Hf) as (m1 & events & He & Hev).
  cbn zeta in Hev. unfold check_error in He.
  unfold notification_subject, notification_body in He, Hev.
  assert (Hshape :
    (if String.eqb (fst (detect_stock_state html (out_of_stock_terms target))) "in_stock"
     then "EN STOCK" else "HORS STOCK")
    = (if String.eqb (fst (detect_stock_state html (out_of_stock_terms target))) "out_of_stock"
       then "HORS STOCK" else "EN STOCK")
    /\ (if nonempty (snd (detect_stock_state html (out_of_stock_terms target)))
        then snd (detect_stock_state html (out_of_stock_terms target)) else "aucun")
       = (if String.eqb (fst (detect_stock_state html (out_of_stock_terms target))) "out_of_stock"
          then snd (detect_stock_state html (out_of_stock_terms target)) else "aucun")
    /\ (String.eqb (fst (detect_stock_state html (out_of_stock_terms target))) "out_of_stock"
        = true -> In (snd (detect_stock_state html (out_of_stock_terms target)))
                    (out_of_stock_terms target))
    /\ (String.eqb (fst (detect_stock_state html (out_of_stock_terms target))) "out_of_stock"
        = false -> fst (detect_stock_state html (out_of_stock_terms target)) = "in_stock"
                   /\ snd (detect_stock_state html (out_of_stock_terms target)) = EmptyString)).
  { destruct (detect_stock_state_marker html (out_of_stock_terms target) Hterms)
      as [(H1 & H2 & H3) | [H1 H2]].
    - rewrite H1, H3. split; [reflexivity|]. split; [reflexivity|].
      split; [intros _; exact H2 | intros Hx; cbv in Hx; discriminate Hx].
    - rewrite H1, H2. split; [reflexivity|]. split; [reflexivity|].
      split; [intros Hx; cbv in Hx; discriminate Hx | intros _; now split]. }
  destruct Hshape as (Hs1 & Hs2 & Hs3 & Hs4).
  rewrite Hs1, Hs2 in Hev, He.
  eexists. split.
  { rewrite He. f_equal.
    destruct (notify_on_same_state target || py_ne_str _ _);
      destruct (message_error _ _ _); reflexivity. }
  split; [|split; [|split; [exact Hs3 | exact Hs4]]].
  - intros subject body rcpts Hin. cbn [app In] in Hin.
    destruct Hin as [Hin|[Hin|[Hin|Hin]]]; try discriminate Hin.
    destruct (_ && _).
    + destruct Hev as (rest & -> & Hrest & _). destruct Hin as [Hin|Hin].
      * now injection Hin as <- <- <-.
      * exfalso. unfold mail_attempted in Hrest.
        assert (existsb is_send_email rest = true); [|congruence].
        apply existsb_exists. exists (EvSendEmail subject body rcpts). now split.
    + destruct Hev as (_ & ->). destruct Hin as [Hin|[]]. discriminate Hin.
  - cbn [app List.filter is_send_email].
    destruct (_ && _).
    + destruct Hev as (rest & -> & Hrest & _). cbn [List.filter is_send_email length].
      assert (Hnone : List.filter is_send_email rest = []).
      { unfold mail_attempted in Hrest. clear -Hrest.
        induction rest as [|e rest IH]; [reflexivity|]. cbn [existsb List.filter] in *.
        apply orb_false_iff in Hrest as [-> Hr]. now apply IH. }
      rewrite Hnone. cbn. lia.
    + destruct Hev as (_ & ->). cbn. lia.
Qed.

Lemma notification_mail_text_witness :
  exists checked_state events,
    @evaluate_target Ascii_lib.lib Example.settings Example.online
      Example.hourly_target ∅ Example.morning Example.first_run
    = (Ok (true, checked_state), after_events Example.first_run events)
    /\ (length (List.filter is_send_email events) <= 1)%nat
    /\ In (snd (@detect_stock_state Ascii_lib.lib Example.page
                  (out_of_stock_terms Example.hourly_target)))
          (out_of_stock_terms Example.hourly_target).
Proof.
  destruct (notification_mail_text Ascii_lib.lib Example.settings Example.online
              Example.hourly_target ∅ Example.morning Example.first_run Example.page)
    as (events & He & _ & Hone & Hfound & _).
  - reflexivity.
  - repeat constructor; discriminate.
  - eexists _, events. split; [exact He|]. split; [exact Hone|].
    apply Hfound. reflexivity.
Defined.

(** X8.  Every check requests the URL of its target exactly once, also a
    check that raises.  A check whose fetch raised returns false; a check
    that fetched its page returns true, unless building its mail raises,
    the only exception that leaves a check.  A check changes no file; when
    it returns, it has set [last_check_at] to the time of the check in the
    state of the target and left every key other than [last_state],
    [last_marker] and [last_check_at] as it was. *)
Theorem check_requests_url_once (L : PyLib) (S : Settings) (N : Network)
    (target : Target) (st : gmap string pyval) (now : datetime.datetime) (w : World) :
  exists outcome events,
    evaluate_target target st now w = (outcome, after_events w events)
    /\ fetched_urls events = [url target]
    /\ (forall exc,
          fetch_outcome target w = Raise exc -> exists st', outcome = Ok (false, st'))
    /\ (forall html,
          fetch_outcome target w = Ok html ->
          match check_error target st now html with
          | Some exc => outcome = Raise exc
          | None => exists st', outcome = Ok (true, st')
          end)
    /\ (mail_accepted target -> exists checked st', outcome = Ok (checked, st'))
    /\ (forall checked st',
          outcome = Ok (checked, st') ->
          (checked = true <-> exists html, fetch_outcome target w = Ok html)
          /\ st' !! "last_check_at" = Some (PStr (datetime.isoformat_seconds now))
          /\ (forall k, k <> "last_state" -> k <> "last_marker" -> k <> "last_check_at" ->
                st' !! k = st !! k)).
Proof.
  destruct (fetch_outcome target w) as [html|exc] eqn:Hf.
  - destruct (evaluate_target_classified target st now w html Hf)
      as (m1 & events & He & Hev).
    cbn zeta in Hev. eexists _, _. split; [exact He|].
    split; [|split; [discriminate|split; [|split]]].
    + rewrite fetched_urls_app.
      destruct (_ && _).
      * destruct Hev as (rest & -> & _ & Hrest).
        change (fetched_urls (EvSendEmail ?a ?b ?c :: rest)) with (fetched_urls rest).
        now rewrite Hrest.
      * destruct Hev as (_ & ->). reflexivity.
    + intros html' [= <-]. destruct (check_error target st now html); [reflexivity|].
      now eexists.
    + intros Hmail. rewrite (mail_accepted_check_error target st now html Hmail).
      now eexists _, _.
    + intros checked st'. destruct (check_error target st now html); [discriminate|].
      intros [= <- <-]. split; [split; [intros _; now exists html | reflexivity]|].
      split; apply record_check_lookup.
  - eexists _, _.
    split; [exact (evaluate_target_fetch_failed target st now w exc Hf)|].
    split; [reflexivity|]. split; [intros exc' _; now eexists|].
    split; [discriminate|]. split; [intros _; now eexists _, _|].
    intros checked st' [= <- <-].
    split; [split; [discriminate | intros [html Hh]; discriminate Hh]|].
    split; [apply record_failure_lookup|].
    intros k Hk1 _ Hk3. now apply record_failure_lookup.
Qed.





(** X11.  In a cycle that asks the schedules, on a configuration whose
    mails the library accepts, no identifier is checked twice: when two targets of a loaded configuration share an identifier
    they share one entry of the state, and once one of them is checked the
    entry is stamped with the time of the cycle, so that the schedule of
    the other says no.  The targets that the cycle checks have distinct
    identifiers, and none of them was stamped with this time before. *)
Theorem gated_cycle_checks_each_id_once (L : PyLib) (S : Settings) (N : Network)
    (clock : datetime.datetime) (w : World) (config : Config) (w1 : World) :
  load_monitor_config MONITOR_CONFIG_FILE w = (Ok config, w1) ->
  datetime.valid clock = true ->
  checkable_entries false (stored_targets MONITOR_STATE_FILE w) ->
  Forall mail_accepted (targets config) ->
  exists w' events (checked : list Target),
    run_cycle false clock w = (Ok 0, w')
    /\ trace w' = trace w ++ events
    /\ fetched_urls events = map url checked
    /\ sublist checked (targets config)
    /\ NoDup (map target_id checked)
    /\ (length checked <= length (remove_dups (map target_id (targets config))))%nat.
Proof.
  intros Hl Hv Hts Hmail.
  destruct (run_cycle_run false clock w config w1 Hl Hv Hts Hmail)
    as (state0 & ev0 & ts' & checked & events & Hs & Hf0 & Hst & Hout & Hentries & Hr).
  destruct Hout as (_ & Hfetch & Hsub & _ & _ & _ & _ & _ & Hnodup & _).
  assert (Hwf : Forall (fun t => well_formed_schedule (schedule t) = true) (targets config)).
  { eapply Forall_impl; [exact (loaded_targets_well_formed _ _ _ _ Hl)|].
    intros t. apply well_formed_target_schedule. }
  destruct (Hnodup eq_refl Hwf) as [Hnd _].
  eexists _, _, checked. split; [exact Hr|]. cbv zeta. cbn [trace].
  split; [reflexivity|].
  split; [|split; [exact Hsub|split; [exact Hnd|]]].
  - rewrite !fetched_urls_app, Hf0, Hfetch. destruct checked; cbn [app]; now rewrite app_nil_r.
  - rewrite <- (length_map target_id checked).
    apply submseteq_length, NoDup_submseteq; [exact Hnd|].
    intros id Hid. apply elem_of_remove_dups.
    apply list_elem_of_fmap in Hid as (t & -> & Ht).
    apply list_elem_of_fmap. exists t. split; [reflexivity|].
    eapply sublist_subseteq; eassumption.
Qed.

Lemma gated_cycle_checks_each_id_once_witness :
  let shared : World :=
    {| files := {[ "monitor_targets.json" :=
                     Ascii_lib.dumps
                       (PDict {[ "targets" :=
                          PList [PDict {[ "id" := PStr "card";
                                          "url" := PStr "https://shop.example.org/a";
                                          "out_of_stock_terms" := PStr "epuise" ]};
                                 PDict {[ "id" := PStr "card";
                                          "url" := PStr "https://shop.example.org/b";
                                          "out_of_stock_terms" := PStr "epuise" ]}] ]}) ]};
       trace := [] |} in
  exists w' events (checked : list Target),
    @run_cycle Ascii_lib.lib Example.settings Example.online false Example.morning shared
    = (Ok 0, w')
    /\ trace w' = trace shared ++ events
    /\ fetched_urls events = map url checked
    /\ (length checked <= 1)%nat.
Proof.
  cbv zeta.
  match goal with
  | |- exists w' events checked, run_cycle false _ ?w = _ /\ _ =>
      edestruct (gated_cycle_checks_each_id_once Ascii_lib.lib Example.settings
                   Example.online Example.morning w)
        as (w' & events & checked & Hr & Ht & Hf & _ & _ & Hlen)
  end.
  - vm_compute. reflexivity.
  - reflexivity.
  - unfold checkable_entries. apply (bool_decide_unpack _). vm_compute. exact I.
  - repeat constructor; intros current_state body [-> | ->] Hm Hr;
      first [exfalso; apply Hr; reflexivity | eexists; reflexivity].
  - exists w', events, checked. split; [exact Hr|]. split; [exact Ht|].
    split; [exact Hf|]. exact Hlen.
Defined.

Lemma check_requests_url_once_witness :
  exists st' events,
    @evaluate_target Ascii_lib.lib Example.settings Example.offline
      Example.hourly_target Example.out_of_stock_state Example.morning Example.first_run
    = (Ok (false, st'), after_events Example.first_run events)
    /\ fetched_urls events = ["https://shop.example.org/card"]
    /\ st' !! "url" = Example.out_of_stock_state !! "url".
Proof.
  destruct (check_requests_url_once Ascii_lib.lib Example.settings Example.offline
              Example.hourly_target Example.out_of_stock_state Example.morning
              Example.first_run)
    as (outcome & events & He & Hf & Hfailed & _ & _ & Hk).
  destruct (Hfailed _ eq_refl) as [st' ->].
  exists st', events. split; [exact He|]. split; [exact Hf|].
  destruct (Hk false st' eq_refl) as (_ & _ & Hframe).
  apply (Hframe "url"); discriminate.
Defined.

Section Abort.
Context `{PyLib} `{Settings} `{Network}.

(** A stored entry comes from a state file that was read without a log
    line. *)
Lemma stored_targets_lookup (path : string) (w : World) (key : string) (v : pyval) :
  stored_targets path w !! key = Some v ->
  exists state,
    load_state path w = (Ok state, w)
    /\ state !! "targets" = Some (PDict (stored_targets path w)).
Proof.
  unfold stored_targets, load_state, bind, read_file, ret.
  destruct (files w !! path) as [text|]; [|intros Hlk; discriminate Hlk].
  destruct (json_load text) as [value|exc]; [|intros Hlk; discriminate Hlk].
  destruct value as [| | | | |d]; try (intros Hlk; discriminate Hlk).
  unfold dict_get. destruct (d !! "targets") as [t|] eqn:Ht; cbn [default from_option id].
  - destruct t as [| | | | |ts];
      try (rewrite lookup_insert_eq; intros Hlk; discriminate Hlk).
    rewrite Ht. intros _. exists d. now split.
  - rewrite lookup_insert_eq. intros Hlk; discriminate Hlk.
Qed.

(** An exception of the loop is the exception of the cycle: nothing is
    saved. *)
Lemma run_cycle_loop_raises (force_run : bool) (clock : datetime.datetime)
    (w : World) (config : Config) (w1 : World) (key : string) (v : pyval)
    (e : exn) (w' : World) :
  load_monitor_config MONITOR_CONFIG_FILE w = (Ok config, w1) ->
  stored_targets MONITOR_STATE_FILE w !! key = Some v ->
  check_targets force_run (datetime.now clock) (targets config)
    (stored_targets MONITOR_STATE_FILE w) 0 w = (Raise e, w') ->
  run_cycle force_run clock w = (Raise e, w').
Proof.
  intros Hl Hv Hc. pose proof (load_monitor_config_world MONITOR_CONFIG_FILE w) as Hw.
  rewrite Hl in Hw. simpl in Hw. subst w1.
  destruct (stored_targets_lookup _ _ _ _ Hv) as (state & Hs & Hst).
  unfold run_cycle. unfold bind at 1. unfold attempt. rewrite Hl.
  rewrite (bind_run _ _ _ _ _ Hs). rewrite Hst.
  change (default (PDict ∅) (Some (PDict (stored_targets MONITOR_STATE_FILE w))))
    with (PDict (stored_targets MONITOR_STATE_FILE w)).
  cbn [as_dict]. rewrite bind_lift_ok.
  unfold bind at 1. now rewrite Hc.
Qed.

End Abort.

(** X12.  Two stored states abort a cycle with an exception that nothing
    catches, before any request and without saving the state.  When the
    entry of the first configured target is not a dictionary, the cycle,
    forced or not, raises the [AttributeError] of calling [get] on it.
    When the first target has an hourly schedule and the [last_check_at]
    of its entry reads as a timestamp with an offset from UTC, a cycle
    that asks the schedules raises the [TypeError] of subtracting it from
    the naive time of the cycle. *)
Theorem unreadable_entry_aborts_cycle (L : PyLib) (S : Settings) (N : Network)
    (clock : datetime.datetime) (w : World) (config : Config) (w1 : World)
    (t : Target) (rest : list Target) :
  load_monitor_config MONITOR_CONFIG_FILE w = (Ok config, w1) ->
  targets config = t :: rest ->
  (forall force_run v,
      stored_targets MONITOR_STATE_FILE w !! target_id t = Some v ->
      is_dict v = false ->
      run_cycle force_run clock w
      = (Raise (AttributeError ("'" +:+ type_name v
                                +:+ "' object has no attribute 'get'")), w))
  /\ (forall st interval_seconds last_check offset,
        schedule t = Hourly interval_seconds ->
        stored_targets MONITOR_STATE_FILE w !! target_id t = Some (PDict st) ->
        parse_iso_datetime (dict_get st "last_check_at") = Some last_check ->
        datetime.utcoffset last_check = Some offset ->
        run_cycle false clock w
        = (Raise (TypeError "can't subtract offset-naive and offset-aware datetimes"), w)).
Proof.
  intros Hl Ht. split.
  - intros force_run v Hv Hd.
    apply (run_cycle_loop_raises force_run clock w config w1 _ v _ _ Hl Hv).
    rewrite Ht, check_targets_cons. cbn zeta. rewrite Hv.
    cbn [default from_option id]. destruct v; try reflexivity. discriminate Hd.
  - intros st n lc o Hs Hv Hp Ho.
    apply (run_cycle_loop_raises false clock w config w1 _ _ _ _ Hl Hv).
    rewrite Ht, check_targets_cons. cbn zeta. rewrite Hv.
    cbn [default from_option id as_dict]. rewrite bind_lift_ok.
    unfold is_target_due. rewrite Hs, Hp. unfold datetime.sub.
    rewrite Ho. reflexivity.
Qed.

Lemma unreadable_entry_aborts_cycle_witness :
  let stored (entry : pyval) : World :=
    {| files := {[ "monitor_targets.json" :=
                     Ascii_lib.dumps
                       (PDict {[ "targets" :=
                          PList [PDict {[ "id" := PStr "card";
                                          "url" := PStr "https://shop.example.org/a";
                                          "out_of_stock_terms" := PStr "epuise" ]}] ]});
                   "monitor_state.json" :=
                     Ascii_lib.dumps
                       (PDict {[ "targets" := PDict {[ "card" := entry ]} ]}) ]};
       trace := [] |} in
  @run_cycle Ascii_lib.lib Example.settings Example.online true Example.morning
    (stored (PStr "in_stock"))
  = (Raise (AttributeError "'str' object has no attribute 'get'"), stored (PStr "in_stock"))
  /\ @run_cycle Ascii_lib.lib Example.settings Example.online false Example.morning
       (stored (PDict {[ "last_check_at" := PStr "2024-05-01T09:00:00+02:00" ]}))
     = (Raise (TypeError "can't subtract offset-naive and offset-aware datetimes"),
        stored (PDict {[ "last_check_at" := PStr "2024-05-01T09:00:00+02:00" ]})).
Proof.
  cbv zeta. split.
  - match goal with
    | |- run_cycle true ?clock ?w = _ =>
        edestruct (unreadable_entry_aborts_cycle Ascii_lib.lib Example.settings
                     Example.online clock w) as [Ha _]
    end.
    + vm_compute. reflexivity.
    + reflexivity.
    + apply (Ha true (PStr "in_stock")); [vm_compute; reflexivity | reflexivity].
  - match goal with
    | |- run_cycle false ?clock ?w = _ =>
        edestruct (unreadable_entry_aborts_cycle Ascii_lib.lib Example.settings
                     Example.online clock w) as [_ Hb]
    end.
    + vm_compute. reflexivity.
    + reflexivity.
    + eapply (Hb {[ "last_check_at" := PStr "2024-05-01T09:00:00+02:00" ]});
        [reflexivity | vm_compute; reflexivity | vm_compute; reflexivity | reflexivity].
Defined.

(** X13.  With the library of ASCII text, [save_state] followed by
    [load_state] from the same path returns, for every state, the state
    itself when it has a dictionary under [targets], and otherwise the
    state with an empty dictionary under [targets] and its other keys as
    they were: what is written is always read back, whatever the state
    holds and whatever the other files are. *)
Theorem save_then_load_every_state (path : string) (state : gmap string pyval)
    (w : World) :
  exists w',
    @save_state Ascii_lib.lib path state w = (Ok tt, w')
    /\ trace w' = trace w
    /\ @load_state Ascii_lib.lib path w'
       = (Ok match state !! "targets" with
             | Some (PDict _) => state
             | _ => <[ "targets" := PDict ∅ ]> state
             end, w').
Proof.
  eexists. split; [apply save_state_run|]. split; [reflexivity|].
  unfold load_state, bind, read_file, ret. cbn [files].
  rewrite lookup_insert_eq.
  change (@json_load Ascii_lib.lib) with Ascii_lib.loads.
  change (@json_dumps Ascii_lib.lib) with Ascii_lib.dumps.
  rewrite loads_dumps. unfold dict_get.
  destruct (state !! "targets") as [[| | | | |ts]|]; reflexivity.
Qed.

(** X14.  The timestamp of a check is read back: for every valid
    datetime, naive or with an offset from UTC, [parse_iso_datetime] of
    its [isoformat(timespec="seconds")] is the datetime with its
    microseconds dropped.  Whatever [parse_iso_datetime] returns is a valid
    datetime read from a string that is not empty, and it returns [None],
    without raising, on every value that is not a string and on the empty
    string. *)
Theorem parse_iso_datetime_reads_isoformat :
  (forall d,
      datetime.valid d = true ->
      parse_iso_datetime (PStr (datetime.isoformat_seconds d))
      = Some (datetime.truncate_seconds d))
  /\ (forall v d,
        parse_iso_datetime v = Some d ->
        datetime.valid d = true /\ exists s, v = PStr s /\ s <> EmptyString)
  /\ (forall v, (forall s, v <> PStr s) -> parse_iso_datetime v = None)
  /\ parse_iso_datetime (PStr EmptyString) = None.
Proof.
  split; [exact parse_iso_datetime_isoformat|]. split; [|split; [|reflexivity]].
  - intros v d Hp. split; [exact (parse_iso_datetime_valid v d Hp)|].
    destruct v as [| | |s| |]; try discriminate Hp. exists s. split; [reflexivity|].
    intros ->. discriminate Hp.
  - intros v Hv. destruct v as [| | |s| |]; try reflexivity. now destruct (Hv s).
Qed.

Lemma parse_iso_datetime_reads_isoformat_witness :
  parse_iso_datetime (PStr (datetime.isoformat_seconds Example.morning))
  = Some (datetime.mk 2024 5 1 9 5 0 0 None)
  /\ parse_iso_datetime (PInt 1714554300) = None.
Proof.
  split.
  - apply (proj1 parse_iso_datetime_reads_isoformat Example.morning). reflexivity.
  - apply (proj1 (proj2 (proj2 parse_iso_datetime_reads_isoformat))). discriminate.
Defined.

Lemma in_argv_In (x : string) (argv : list string) : in_argv x argv = true <-> In x argv.
Proof.
  unfold in_argv. rewrite existsb_exists. split.
  - intros (y & Hy & Heq). apply String.eqb_eq in Heq. now subst.
  - intros Hx. exists x. split; [exact Hx | apply String.eqb_refl].
Qed.

(** X15.  [main] with [--help] or [-h] among its arguments prints the
    usage and exits with status 0 without running a cycle, also when
    [--once] is given: no file is read or written, nothing is logged or
    requested.  Otherwise it runs one cycle, forced exactly when [--once]
    or [-1] is among the arguments, prints nothing and exits with the
    status that the cycle returns, which is 0 or 2. *)
Theorem main_exit_status (L : PyLib) (S : Settings) (N : Network)
    (argv : list string) (clock : datetime.datetime) (w : World) :
  (In "--help" argv \/ In "-h" argv ->
   main argv clock w = (Ok {| printed := [usage +:+ newline]; status := 0 |}, w))
  /\ (~ In "--help" argv -> ~ In "-h" argv ->
      forall force_run,
        (force_run = true <-> In "--once" argv \/ In "-1" argv) ->
        main argv clock w
        = match run_cycle force_run clock w with
          | (Ok code, w') => (Ok {| printed := []; status := code |}, w')
          | (Raise e, w') => (Raise e, w')
          end)
  /\ (forall out w',
        main argv clock w = (Ok out, w') -> status out = 0 \/ status out = 2).
Proof.
  assert (Hhelp : in_argv "--help" argv || in_argv "-h" argv = true
                  <-> In "--help" argv \/ In "-h" argv)
    by (rewrite orb_true_iff, !in_argv_In; reflexivity).
  split; [|split].
  - intros Hh. unfold main. apply Hhelp in Hh. now rewrite Hh.
  - intros H1 H2 force_run Hforce. unfold main.
    destruct (in_argv "--help" argv || in_argv "-h" argv) eqn:Hh.
    + pose proof (proj1 Hhelp eq_refl). tauto.
    + assert (Hf : in_argv "--once" argv || in_argv "-1" argv = force_run).
      { destruct force_run.
        - rewrite orb_true_iff, !in_argv_In. now apply Hforce.
        - destruct (in_argv "--once" argv || in_argv "-1" argv) eqn:Ho; [|reflexivity].
          rewrite orb_true_iff, !in_argv_In in Ho. apply Hforce in Ho. discriminate Ho. }
      rewrite Hf. unfold bind, ret.
      destruct (run_cycle force_run clock w) as [[code|e] w']; reflexivity.
  - intros out w'. unfold main.
    destruct (in_argv "--help" argv || in_argv "-h" argv).
    + intros [= <- _]. now left.
    + unfold bind, ret.
      destruct (run_cycle _ clock w) as [[code|e] w''] eqn:Hr; [|discriminate].
      intros [= <- _]. cbn [status].
      destruct (run_cycle_exit_codes _ clock w code w'' Hr) as [[-> _] | [-> _]];
        [now right | now left].
Qed.

Lemma main_exit_status_witness :
  @main Ascii_lib.lib Example.settings Example.online
    ["monitor_stock.py"; "--once"; "--help"] Example.morning Example.first_run
  = (Ok {| printed := [usage +:+ newline]; status := 0 |}, Example.first_run)
  /\ @main Ascii_lib.lib Example.settings Example.online
       ["monitor_stock.py"] Example.morning Example.no_config
     = match @run_cycle Ascii_lib.lib Example.settings Example.online false
               Example.morning Example.no_config with
       | (Ok code, w') => (Ok {| printed := []; status := code |}, w')
       | (Raise e, w') => (Raise e, w')
       end.
Proof.
  split.
  - apply (proj1 (main_exit_status Ascii_lib.lib Example.settings Example.online
             ["monitor_stock.py"; "--once"; "--help"] Example.morning Example.first_run)).
    left. right. right. now left.
  - apply (proj1 (proj2 (main_exit_status Ascii_lib.lib Example.settings Example.online
             ["monitor_stock.py"] Example.morning Example.no_config))).
    + intros [H|[]]; discriminate H.
    + intros [H|[]]; discriminate H.
    + split; [discriminate|]. intros [[H|[]]|[H|[]]]; discriminate H.
Defined.

Section Environment_facts.
Context `{PyLib} `{PathLib}.

Lemma load_constants_inv (environ : gmap string string) (c : Constants) :
  load_constants environ = Ok c ->
  @SMTP_HOST (module_settings c) = environ_get environ "SMTP_HOST" EmptyString
  /\ int_of_str (environ_get environ "SMTP_PORT" "587") = Ok (@SMTP_PORT (module_settings c))
  /\ @SMTP_USER (module_settings c) = environ_get environ "SMTP_USER" EmptyString
  /\ @SMTP_PASS (module_settings c) = environ_get environ "SMTP_PASS" EmptyString
  /\ @EMAIL_FROM (module_settings c)
     = str_or (environ_get environ "EMAIL_FROM" EmptyString)
         (environ_get environ "SMTP_USER" EmptyString)
  /\ @SMTP_USE_TLS (module_settings c)
     = negb (existsb (String.eqb (environ_get environ "SMTP_USE_TLS" "1"))
               ["0"; "false"; "False"])
  /\ @MONITOR_CONFIG_FILE (module_settings c)
     = resolve_project_path environ "MONITOR_CONFIG_FILE" "monitor_targets.json"
  /\ @MONITOR_STATE_FILE (module_settings c)
     = resolve_project_path environ "MONITOR_STATE_FILE" "monitor_state.json".
Proof.
  unfold load_constants.
  destruct (int_of_str (environ_get environ "LOG_MAX_BYTES" _)); [|discriminate].
  destruct (int_of_str (environ_get environ "LOG_BACKUP_COUNT" _)); [|discriminate].
  destruct (int_of_str (environ_get environ "HTTP_TIMEOUT_SECONDS" _)); [|discriminate].
  destruct (int_of_str (environ_get environ "SMTP_PORT" _)) as [port|]; [|discriminate].
  intros [= <-]. cbn. repeat split; reflexivity.
Qed.

End Environment_facts.

(** X16.  The settings that the script reads from the environment when it
    is loaded.  The sender [EMAIL_FROM] is the user of the SMTP account
    when the variable is not set or empty, so that [send_email] never
    reports the sender missing without the user; TLS is switched off by
    the values [0], [false] and [False] of [SMTP_USE_TLS] and by no other;
    the port is [int] of [SMTP_PORT], 587 when the variable is not set, and
    a value that [int] refuses ends the loading of the script with an
    exception. *)
Theorem settings_from_environment (L : PyLib) (P : PathLib)
    (environ : gmap string string) :
  (forall c,
      load_constants environ = Ok c ->
      let S := module_settings c in
      (@EMAIL_FROM S
       = match environ !! "EMAIL_FROM" with
         | Some sender => if nonempty sender then sender else @SMTP_USER S
         | None => @SMTP_USER S
         end)
      /\ (In "EMAIL_FROM" (@missing_settings S) -> In "SMTP_USER" (@missing_settings S))
      /\ (@SMTP_USE_TLS S = false
          <-> environ !! "SMTP_USE_TLS" = Some "0"
              \/ environ !! "SMTP_USE_TLS" = Some "false"
              \/ environ !! "SMTP_USE_TLS" = Some "False")
      /\ int_of_str (default "587" (environ !! "SMTP_PORT")) = Ok (@SMTP_PORT S)
      /\ @SMTP_HOST S = default EmptyString (environ !! "SMTP_HOST")
      /\ @SMTP_PASS S = default EmptyString (environ !! "SMTP_PASS"))
  /\ (forall name value e,
        In name ["LOG_MAX_BYTES"; "LOG_BACKUP_COUNT"; "HTTP_TIMEOUT_SECONDS"; "SMTP_PORT"] ->
        environ !! name = Some value ->
        int_of_str value = Raise e ->
        exists e', load_constants environ = Raise e').
Proof.
  split.
  - intros c Hc. cbv zeta.
    destruct (load_constants_inv environ c Hc)
      as (Hhost & Hport & Huser & Hpass & Hfrom & Htls & _).
    split; [|split; [|split; [|split; [exact Hport|split; [exact Hhost | exact Hpass]]]]].
    + rewrite Hfrom, Huser. unfold str_or, environ_get.
      destruct (environ !! "EMAIL_FROM") as [sender|]; reflexivity.
    + unfold missing_settings. rewrite Hfrom, Huser. unfold str_or.
      destruct (nonempty (environ_get environ "EMAIL_FROM" EmptyString)) eqn:Hf.
      * rewrite Hf. rewrite !in_app_iff.
        intros [Hin|[Hin|[Hin|[Hin|[]]]]]; revert Hin;
          repeat match goal with |- context [if ?b then _ else _] => destruct b end;
          cbn [In]; intuition discriminate.
      * destruct (nonempty (environ_get environ "SMTP_USER" EmptyString)) eqn:Hu.
        -- rewrite !in_app_iff.
           intros [Hin|[Hin|[Hin|[Hin|[]]]]]; revert Hin;
             repeat match goal with |- context [if ?b then _ else _] => destruct b end;
             cbn [In]; intuition discriminate.
        -- intros _. rewrite !in_app_iff. right. right. left. now left.
    + rewrite Htls. unfold environ_get.
      destruct (environ !! "SMTP_USE_TLS") as [v|]; cbn [default from_option id].
      * cbn [existsb]. rewrite negb_false_iff, !orb_true_iff, !String.eqb_eq.
        split.
        -- intros [->|[->|[->|Hf]]]; [tauto | tauto | tauto | discriminate Hf].
        -- intros [[= ->]|[[= ->]|[= ->]]]; tauto.
      * split; [discriminate|]. intros [Hf|[Hf|Hf]]; discriminate Hf.
  - intros name value e Hname Hv He. unfold load_constants, environ_get.
    cbn [In] in Hname.
    destruct Hname as [<-|[<-|[<-|[<-|[]]]]].
    + rewrite Hv. cbn [default from_option id]. rewrite He. now eexists.
    + destruct (int_of_str (default _ (environ !! "LOG_MAX_BYTES"))); [|now eexists].
      rewrite Hv. cbn [default from_option id]. rewrite He. now eexists.
    + destruct (int_of_str (default _ (environ !! "LOG_MAX_BYTES"))); [|now eexists].
      destruct (int_of_str (default _ (environ !! "LOG_BACKUP_COUNT"))); [|now eexists].
      rewrite Hv. cbn [default from_option id]. rewrite He. now eexists.
    + destruct (int_of_str (default _ (environ !! "LOG_MAX_BYTES"))); [|now eexists].
      destruct (int_of_str (default _ (environ !! "LOG_BACKUP_COUNT"))); [|now eexists].
      destruct (int_of_str (default _ (environ !! "HTTP_TIMEOUT_SECONDS"))); [|now eexists].
      rewrite Hv. cbn [default from_option id]. rewrite He. now eexists.
Qed.

Lemma settings_from_environment_witness :
  let P : PathLib :=
    {| PROJECT_DIR := "/srv/monitor"; expanduser := fun s => s;
       is_absolute := fun s => starts_with "/" s;
       joinpath := fun a b => a +:+ "/" +:+ b |} in
  let environ : gmap string string :=
    {[ "SMTP_HOST" := "smtp.example.org"; "SMTP_USER" := "monitor";
       "SMTP_PASS" := "secret"; "SMTP_USE_TLS" := "false" ]} in
  exists c,
    @load_constants Ascii_lib.lib P environ = Ok c
    /\ @EMAIL_FROM (module_settings c) = "monitor"
    /\ @SMTP_USE_TLS (module_settings c) = false
    /\ (exists e',
          @load_constants Ascii_lib.lib P (<[ "SMTP_PORT" := "smtp" ]> environ) = Raise e').
Proof.
  cbv zeta.
  match goal with
  | |- exists c, @load_constants _ ?P ?environ = _ /\ _ =>
      destruct (@load_constants Ascii_lib.lib P environ) as [c|e] eqn:Hc;
        [|vm_compute in Hc; discriminate Hc];
      destruct (proj1 (settings_from_environment Ascii_lib.lib P environ) c Hc)
        as (Hfrom & _ & Htls & _);
      pose proof (proj2 (settings_from_environment Ascii_lib.lib P
                           (<[ "SMTP_PORT" := "smtp" ]> environ))
                    "SMTP_PORT" "smtp"
                    (ValueError "invalid literal for int() with base 10: 'smtp'")) as Hbad
  end.
  exists c. split; [reflexivity|]. split; [|split].
  - rewrite Hfrom. vm_compute in Hc. injection Hc as <-. reflexivity.
  - apply Htls. right. left. reflexivity.
  - apply Hbad; [now do 3 right; left | reflexivity | reflexivity].
Defined.

(** X17.  After a check that could not fetch the page, the next check
    that fetches it always counts as a change of state: [send_email] is
    called exactly when the classified state has recipients, whatever
    [notify_on_same_state] says and whatever the state was before the
    failure, so that a page that stayed out of stock across a failed check
    is notified again.  Unless building the mail raises, this check
    returns true and records the classified state. *)
Theorem notification_after_fetch_failure (L : PyLib) (S : Settings) (N : Network)
    (target : Target) (st : gmap string pyval) (now later : datetime.datetime)
    (w : World) (exc : exn) :
  fetch_outcome target w = Raise exc ->
  exists failed_state w1,
    evaluate_target target st now w = (Ok (false, failed_state), w1)
    /\ files w1 = files w
    /\ forall html,
         fetch_outcome target w1 = Ok html ->
         let current_state := fst (detect_stock_state html (out_of_stock_terms target)) in
         let marker := snd (detect_stock_state html (out_of_stock_terms target)) in
         exists events,
           evaluate_target target failed_state later w1
           = (match message_error (notification_subject target current_state)
                      (notification_body target current_state marker later)
                      (recipients_for target current_state) with
              | Some exc' => Raise exc'
              | None => Ok (true, record_check failed_state current_state marker later)
              end, after_events w1 events)
           /\ (mail_attempted events = true
               <-> recipients_for target current_state <> [])
           /\ record_check failed_state current_state marker later !! "last_state"
              = Some (PStr current_state).
Proof.
  intros Hf. eexists _, _.
  split; [exact (evaluate_target_fetch_failed target st now w exc Hf)|].
  split; [reflexivity|].
  intros html Hh. cbv zeta.
  destruct (evaluate_target_classified target (record_failure st now) later _ html Hh)
    as (m1 & events & He & Hev).
  cbn zeta in Hev. unfold check_error in He.
  assert (Hne : py_ne_str (dict_get (record_failure st now) "last_state")
                  (fst (detect_stock_state html (out_of_stock_terms target))) = true).
  { unfold dict_get. rewrite (proj1 (record_failure_lookup st now)).
    cbn [default from_option id py_ne_str].
    destruct (detect_stock_state_values html (out_of_stock_terms target)) as [-> | ->];
      reflexivity. }
  rewrite Hne, orb_true_r in He, Hev. cbn [andb] in Hev.
  eexists. split; [exact He|]. split; [|apply record_check_lookup].
  rewrite mail_attempted_app. cbn [mail_attempted existsb is_send_email orb].
  destruct (recipients_for target _).
  - destruct Hev as (_ & ->). split; [discriminate | congruence].
  - destruct Hev as (rest & -> & _). split; [discriminate | reflexivity].
Qed.

Lemma notification_after_fetch_failure_witness :
  exists failed_state w1,
    @evaluate_target Ascii_lib.lib Example.settings Example.offline
      Example.hourly_target Example.out_of_stock_state Example.morning Example.first_run
    = (Ok (false, failed_state), w1)
    /\ files w1 = files Example.first_run.
Proof.
  destruct (notification_after_fetch_failure Ascii_lib.lib Example.settings Example.offline
              Example.hourly_target Example.out_of_stock_state Example.morning
              Example.evening Example.first_run (Exn "URLError" "timed out") eq_refl)
    as (failed_state & w1 & He & Hfiles & _).
  exists failed_state, w1. split; [exact He | exact Hfiles].
Defined.

Section Same_file.
Context `{PyLib}.

(** [load_monitor_config] reads the file at [path] and nothing else. *)
Lemma load_monitor_config_same_file (path : string) (w w2 : World) :
  files w2 !! path = files w !! path ->
  fst (load_monitor_config path w2) = fst (load_monitor_config path w).
Proof.
  intros Hf. unfold load_monitor_config, bind, read_file, lift, ret. rewrite Hf.
  destruct (files w !! path) as [text|]; [|reflexivity].
  destruct (json_load text) as [raw|exc]; [|reflexivity].
  destruct raw as [| | | | |raw]; try reflexivity.
  destruct (dict_get raw "targets") as [| | | |l|]; try reflexivity.
  destruct l as [|t l]; [reflexivity|].
  destruct (parse_targets 1 (t :: l)); reflexivity.
Qed.

End Same_file.

(** X18.  With the library of ASCII text, a cycle is followed by a quiet
    one: when a cycle, forced or not, on a configuration whose mails the
    library accepts, has run at some time and saved its state, a cycle that asks the schedules at the same time reads this
    state back, finds no target due, and returns 0 without a request, a
    mail or a log line.  (The configuration file is not the state file nor
    its temporary file.) *)
Theorem second_cycle_checks_nothing (S : Settings) (N : Network)
    (force_run : bool) (clock : datetime.datetime) (w : World)
    (config : Config) (w1 : World) :
  @load_monitor_config Ascii_lib.lib MONITOR_CONFIG_FILE w = (Ok config, w1) ->
  datetime.valid clock = true ->
  checkable_entries force_run (@stored_targets Ascii_lib.lib MONITOR_STATE_FILE w) ->
  Forall (@mail_accepted Ascii_lib.lib S) (targets config) ->
  MONITOR_CONFIG_FILE <> MONITOR_STATE_FILE ->
  MONITOR_CONFIG_FILE <> MONITOR_STATE_FILE +:+ ".tmp" ->
  exists w' w'',
    @run_cycle Ascii_lib.lib S N force_run clock w = (Ok 0, w')
    /\ @run_cycle Ascii_lib.lib S N false clock w' = (Ok 0, w'')
    /\ trace w'' = trace w'
    /\ none_due (datetime.now clock) (targets config)
         (@stored_targets Ascii_lib.lib MONITOR_STATE_FILE w').
Proof.
  intros Hl Hv Hts Hmail Hne1 Hne2.
  destruct (@run_cycle_run Ascii_lib.lib S N force_run clock w config w1 Hl Hv Hts Hmail)
    as (state0 & ev0 & ts' & checked & events & Hs & Hf0 & Hst & Hout & Hentries & Hr).
  cbv zeta in Hr.
  match type of Hr with _ = (_, ?x) => set (w' := x) in * end.
  assert (Hload : @load_state Ascii_lib.lib MONITOR_STATE_FILE w'
                  = (Ok (<[ "updated_at" := PStr (datetime.isoformat_seconds
                                                   (datetime.now clock)) ]>
                           (<[ "targets" := PDict ts' ]> state0)), w')).
  { unfold load_state, bind, read_file, ret. unfold w' at 1. cbn [files].
    rewrite lookup_insert_eq.
    change (@json_load Ascii_lib.lib) with Ascii_lib.loads.
    change (@json_dumps Ascii_lib.lib) with Ascii_lib.dumps.
    rewrite loads_dumps. unfold dict_get.
    rewrite lookup_insert_ne by discriminate. rewrite lookup_insert_eq.
    reflexivity. }
  assert (Hstored : @stored_targets Ascii_lib.lib MONITOR_STATE_FILE w' = ts').
  { unfold stored_targets. rewrite Hload.
    rewrite lookup_insert_ne by discriminate. now rewrite lookup_insert_eq. }
  assert (Hl' : @load_monitor_config Ascii_lib.lib MONITOR_CONFIG_FILE w' = (Ok config, w')).
  { pose proof (@load_monitor_config_same_file Ascii_lib.lib MONITOR_CONFIG_FILE w w') as Hsame.
    rewrite Hl in Hsame. cbn [fst] in Hsame.
    pose proof (@load_monitor_config_world Ascii_lib.lib MONITOR_CONFIG_FILE w') as Hw.
    destruct (@load_monitor_config Ascii_lib.lib MONITOR_CONFIG_FILE w') as [r w2].
    cbn [fst snd] in *. rewrite Hw. f_equal. apply Hsame.
    unfold w'. cbn [files].
    rewrite lookup_insert_ne by (intros Heq; now apply Hne1).
    rewrite lookup_delete_ne by (intros Heq; now apply Hne2).
    now rewrite lookup_insert_ne by (intros Heq; now apply Hne2). }
  assert (Hnd : none_due (datetime.now clock) (targets config)
                  (@stored_targets Ascii_lib.lib MONITOR_STATE_FILE w')).
  { rewrite Hstored. intros t Ht.
    assert (Hwf : Forall (fun t => well_formed_schedule (schedule t) = true) (targets config)).
    { eapply Forall_impl; [exact (loaded_targets_well_formed _ _ _ _ Hl)|].
      intros t0. apply well_formed_target_schedule. }
    destruct (proj2 Hentries Hwf t Ht) as (st & Hlk & Hdue).
    exists st. rewrite Hlk. now split. }
  destruct (@run_cycle_none_due Ascii_lib.lib S N clock w' config w' Hl' Hnd)
    as (w'' & Hr2 & Ht2 & _).
  exists w', w''. split; [exact Hr|]. split; [exact Hr2|].
  split; [|exact Hnd]. rewrite Ht2, Hload. reflexivity.
Qed.

Lemma second_cycle_checks_nothing_witness :
  exists w' w'',
    @run_cycle Ascii_lib.lib Example.settings Example.online true Example.morning
      Example.first_run = (Ok 0, w')
    /\ @run_cycle Ascii_lib.lib Example.settings Example.online false Example.morning w'
       = (Ok 0, w'')
    /\ trace w'' = trace w'.
Proof.
  edestruct (second_cycle_checks_nothing Example.settings Example.online true
               Example.morning Example.first_run)
    as (w' & w'' & Hr & Hr2 & Ht & _).
  - vm_compute. reflexivity.
  - reflexivity.
  - unfold checkable_entries. apply (bool_decide_unpack _). vm_compute. exact I.
  - exact example_mail_accepted.
  - discriminate.
  - discriminate.
  - exists w', w''. split; [exact Hr|]. split; [exact Hr2 | exact Ht].
Defined.
